(** * Document pipeline: S3 -> Landing AI extraction -> Snowflake

    A shallow embedding of [flows/s3_to_snowflake.py] and of the part of
    [flows/get_snowflake_connection.py] it calls.  Python values that the
    flow only passes through are JSON-like values; the external
    collaborators (secret store, object storage, extraction service,
    warehouse session) are an interface the flow is parametric in; every
    call to a collaborator and every log record is written to a trace. *)

From Stdlib Require Import String Ascii List ZArith Bool Lia DecimalString.
Import ListNotations.
Open Scope string_scope.
Set Warnings "-register-all".

(** ** Python strings *)

Module PyStr.

(** ASCII lower-casing: A-Z become a-z and every other byte is left as
    it is.  This is what [s.lower()] gives when [s] is ASCII text; on other
    text [str.lower] maps every cased code point and is left to the runtime
    ([str_lower] below). *)
Definition lower_ascii_char (c : ascii) : ascii :=
  let n := nat_of_ascii c in
  if andb (Nat.leb 65 n) (Nat.leb n 90) then ascii_of_nat (n + 32) else c.

Fixpoint lower_ascii (s : string) : string :=
  match s with
  | EmptyString => EmptyString
  | String c s' => String (lower_ascii_char c) (lower_ascii s')
  end.

(** [old] occurs in [s] at position 0. *)
Fixpoint startswith (old s : string) : bool :=
  match old, s with
  | EmptyString, _ => true
  | String _ _, EmptyString => false
  | String a old', String b s' => if Ascii.eqb a b then startswith old' s' else false
  end.

(** [old in s]. *)
Fixpoint contains (old s : string) : bool :=
  match s with
  | EmptyString => startswith old EmptyString
  | String _ s' => if startswith old s then true else contains old s'
  end.

(** Left-to-right scan of [s.replace(old, new)] for a non-empty [old];
    [skip] counts the characters of a match still to be dropped. *)
Fixpoint replace_from (old new s : string) (skip : nat) : string :=
  match s with
  | EmptyString => EmptyString
  | String c s' =>
      match skip with
      | S k => replace_from old new s' k
      | O =>
          if startswith old s
          then new ++ replace_from old new s' (String.length old - 1)
          else String c (replace_from old new s' 0)
      end
  end.

(** [s.replace("", new)] puts [new] before every character and at the end. *)
Fixpoint intersperse (new s : string) : string :=
  match s with
  | EmptyString => new
  | String c s' => new ++ String c (intersperse new s')
  end.

Definition replace (old new s : string) : string :=
  match old with
  | EmptyString => intersperse new s
  | String _ _ => replace_from old new s 0
  end.

(** [s.split(sep)] for a one-character separator: the pieces, never an
    empty list. *)
Fixpoint split (sep : ascii) (s : string) : list string :=
  match s with
  | EmptyString => [EmptyString]
  | String c s' =>
      if Ascii.eqb c sep then EmptyString :: split sep s'
      else match split sep s' with
           | [] => [String c EmptyString]
           | p :: ps => String c p :: ps
           end
  end.

(** [s.split('/')[-1]] *)
Definition last_segment (s : string) : string :=
  List.last (split "/"%char s) EmptyString.

(** [str(n)] for a length. *)
Definition of_nat (n : nat) : string :=
  NilZero.string_of_uint (Nat.to_uint n).

End PyStr.

(** ** Values, exceptions, results *)

(** JSON-serialisable values: what [json.dumps] accepts and what the flow
    carries from the services to the warehouse.  A dict keeps insertion
    order. *)
Inductive Json : Type :=
| JNull
| JBool (b : bool)
| JInt (n : Z)
| JFloat (literal : string)
| JStr (s : string)
| JList (items : list Json)
| JDict (fields : list (string * Json)).

Fixpoint dict_get (k : string) (fields : list (string * Json)) : option Json :=
  match fields with
  | [] => None
  | (k', v) :: rest => if String.eqb k k' then Some v else dict_get k rest
  end.

(** [j[k]] on a dict; [None] on a missing key or on a value that is no dict. *)
Definition jget (k : string) (j : Json) : option Json :=
  match j with
  | JDict fields => dict_get k fields
  | _ => None
  end.

(** The exception classes the flow tells apart.  [KeyboardInterrupt] and
    [SystemExit] derive from [BaseException] only: [except Exception]
    lets them through, a bare [except:] catches them. *)
Inductive ExcClass : Type :=
| ValueError
| ClientError (code : string) (response : Json)
| ProgrammingError
| OtherException (name : string)
| KeyboardInterrupt
| SystemExit.

Record PyExc : Type := mkExc { exc_class : ExcClass; exc_str : string }.

Definition is_Exception (e : PyExc) : bool :=
  match exc_class e with
  | KeyboardInterrupt | SystemExit => false
  | _ => true
  end.

Definition client_error_code (e : PyExc) : option string :=
  match exc_class e with
  | ClientError code _ => Some code
  | _ => None
  end.

Inductive Result (A : Type) : Type :=
| Ok (a : A)
| Raise (e : PyExc).
Arguments Ok {A} a.
Arguments Raise {A} e.

Definition bytes := list Byte.byte.

(** ** What the services hand back *)

(** An entry of [bucket.list_objects()]: the flow reads [obj['Key']]. *)
Record S3Object : Type := mkObj { Key : string; obj_meta : Json }.

(** The objects of the extraction library.  The flow probes every
    attribute with [hasattr]: [None] is an attribute that is not there.
    [c_str] and [d_str] are what [str(...)] gives on the object. *)
Record Box : Type :=
  mkBox { box_l : option Json; box_t : option Json;
          box_r : option Json; box_b : option Json }.

Record Grounding : Type :=
  mkGrounding { g_page : option Json; g_box : option Box }.

Record Chunk : Type :=
  mkChunk { c_text : option Json;
            c_str : string;
            c_chunk_type : option (option Json);  (* chunk_type, then its .value *)
            c_chunk_id : option Json;
            c_grounding : option (list Grounding) }.

Record ParsedDoc : Type :=
  mkDoc { d_markdown : option Json; d_str : string; d_chunks : option (list Chunk) }.

(** ** The trace of a run *)

Inductive Level : Type := INFO | WARNING | ERROR.

(** The calls of the functions decorated with [@task]. *)
Inductive TaskCall : Type :=
| T_list_s3_files
| T_get_s3_file (file_key : string)
| T_extract_document_content (file_content : bytes) (file_key : string)
| T_create_s3_bucket_if_not_exists (bucket_name : string)
| T_setup_snowflake_infrastructure
| T_load_to_snowflake (file_key : string) (extracted_content : Json)
| T_process_document (file_key : string).

(** One record per task call, per log record and per call to a
    collaborator, the latter with what the collaborator answered. *)
Inductive Event : Type :=
| EvTask (t : TaskCall)
| EvLog (lvl : Level) (msg : string)
| EvSetEnv (name value : string)
| EvSecret (name : string) (r : Result (option string))
| EvHeadBucket (bucket : string) (r : Result Json)
| EvCreateBucket (bucket : string) (r : Result Json)
| EvBucketLoad (name : string) (r : Result unit)
| EvListObjects (r : Result (option (list S3Object)))
| EvReadPath (key : string) (r : Result bytes)
| EvParse (suffix : string) (content : bytes) (r : Result (option (list ParsedDoc)))
| EvCredentials (r : Result unit)
| EvConnect (warehouse : string) (database schema : option string) (r : Result unit)
| EvExecute (sql : string) (params : option (list string)) (r : Result unit)
| EvFetchall (r : Result Json)
| EvClose.

(** ** The collaborators *)

(** The Python runtime: how an f-string renders a value, [json.dumps],
    and [str.lower] (Unicode lower-casing, on the UTF-8 text of a str). *)
Class PyRuntime : Type :=
  { fstr : Json -> string;
    fstr_objects : option (list S3Object) -> string;
    fstr_strs : list string -> string;
    json_dumps : Json -> string;
    str_lower : string -> string }.

(** [Secret.load(name).get()] *)
Class SecretStore (W : Type) : Type :=
  { secret_get : string -> W -> Result (option string) * W }.

(** The S3 client and the [S3Bucket] block. *)
Class ObjectStore (W : Type) : Type :=
  { s3_head_bucket : string -> W -> Result Json * W;
    s3_create_bucket : string -> W -> Result Json * W;
    s3_bucket_load : string -> W -> Result unit * W;
    s3_list_objects : W -> Result (option (list S3Object)) * W;
    s3_read_path : string -> W -> Result bytes * W }.

(** The extraction library: the file is written to a temporary file with
    the given suffix, parsed, and the temporary file removed. *)
Class Extractor (W : Type) : Type :=
  { agentic_parse : string -> bytes -> W -> Result (option (list ParsedDoc)) * W }.

(** The warehouse: credentials, connection, and the cursor of the open
    connection.  Closing does not fail. *)
Class Warehouse (W : Type) : Type :=
  { sf_credentials : W -> Result unit * W;
    sf_connect : string -> option string -> option string -> W -> Result unit * W;
    cur_execute : string -> option (list string) -> W -> Result unit * W;
    cur_fetchall : W -> Result Json * W;
    cur_rowcount : W -> Json;
    sf_close : W -> W }.

(** ** The monad of the flow: state [W], trace output, exceptions *)

Definition M (W A : Type) : Type := W -> Result A * W * list Event.

Definition ret {W A} (a : A) : M W A := fun w => (Ok a, w, []).

Definition raise {W A} (e : PyExc) : M W A := fun w => (Raise e, w, []).

Definition bind {W A B} (m : M W A) (k : A -> M W B) : M W B :=
  fun w =>
    match m w with
    | (Ok a, w1, t1) => let '(r, w2, t2) := k a w1 in (r, w2, (t1 ++ t2)%list)
    | (Raise e, w1, t1) => (Raise e, w1, t1)
    end.

Declare Scope flow_scope.
Delimit Scope flow_scope with flow.
Notation "x <- m ;; k" := (bind m (fun x => k))
  (at level 61, m at next level, right associativity) : flow_scope.
Notation "m ;; k" := (bind m (fun _ => k))
  (at level 61, right associativity) : flow_scope.
Open Scope flow_scope.

Definition emit {W} (e : Event) : M W unit := fun w => (Ok tt, w, [e]).

Definition log {W} (lvl : Level) (msg : string) : M W unit := emit (EvLog lvl msg).

(** Reading an attribute of the session: no call, nothing recorded. *)
Definition gets {W A} (f : W -> A) : M W A := fun w => (Ok (f w), w, []).

(** A call to a collaborator, recorded with its answer. *)
Definition call {W A} (op : W -> Result A * W) (ev : Result A -> Event) : M W A :=
  fun w => let '(r, w') := op w in (r, w', [ev r]).

(** [try: body  except Exception as e: handler e] *)
Definition try_except {W A} (body : M W A) (handler : PyExc -> M W A) : M W A :=
  fun w =>
    match body w with
    | (Ok a, w1, t1) => (Ok a, w1, t1)
    | (Raise e, w1, t1) =>
        if is_Exception e
        then let '(r, w2, t2) := handler e w1 in (r, w2, (t1 ++ t2)%list)
        else (Raise e, w1, t1)
    end.

(** [try: body  except: handler] *)
Definition try_bare {W A} (body : M W A) (handler : M W A) : M W A :=
  fun w =>
    match body w with
    | (Ok a, w1, t1) => (Ok a, w1, t1)
    | (Raise _, w1, t1) => let '(r, w2, t2) := handler w1 in (r, w2, (t1 ++ t2)%list)
    end.

(** [try: body  except ClientError as e: handler e] *)
Definition try_client_error {W A} (body : M W A) (handler : PyExc -> string -> M W A)
  : M W A :=
  fun w =>
    match body w with
    | (Ok a, w1, t1) => (Ok a, w1, t1)
    | (Raise e, w1, t1) =>
        match client_error_code e with
        | Some code => let '(r, w2, t2) := handler e code w1 in (r, w2, (t1 ++ t2)%list)
        | None => (Raise e, w1, t1)
        end
    end.

(** A function under [@task]: its call is recorded, its body runs. *)
Definition task {W A} (t : TaskCall) (body : M W A) : M W A :=
  emit (EvTask t) ;; body.

(** [for x in xs: body x] *)
Fixpoint for_each {W A} (xs : list A) (body : A -> M W unit) : M W unit :=
  match xs with
  | [] => ret tt
  | x :: rest => body x ;; for_each rest body
  end.

(** ** The statements sent to the warehouse *)

Definition table_sql : string :=
"CREATE TABLE IF NOT EXISTS ai.AGENTIC_DOC_EXTRACTION.DOCS (
                ID NUMBER AUTOINCREMENT PRIMARY KEY, FILE_NAME VARCHAR(255),
                FILE_PATH VARCHAR(500) UNIQUE, PROCESS_DATE TIMESTAMP_NTZ DEFAULT CURRENT_TIMESTAMP(),
                EXTRACTED_CONTENT VARIANT)".

Definition merge_sql : string :=
"MERGE INTO ai.AGENTIC_DOC_EXTRACTION.DOCS AS target
                USING (SELECT %s AS file_name, %s AS file_path, %s AS extracted_content) AS source
                ON target.FILE_PATH = source.file_path
                WHEN NOT MATCHED THEN INSERT (FILE_NAME, FILE_PATH, EXTRACTED_CONTENT)
                VALUES (source.file_name, source.file_path, PARSE_JSON(source.extracted_content))".

(** [table_sql.replace("ai.AGENTIC_DOC_EXTRACTION.", "")] *)
Definition simple_table_sql : string :=
  PyStr.replace "ai.AGENTIC_DOC_EXTRACTION." "" table_sql.

(** [merge_sql.replace("ai.AGENTIC_DOC_EXTRACTION.", "")] *)
Definition simple_sql : string :=
  PyStr.replace "ai.AGENTIC_DOC_EXTRACTION." "" merge_sql.

(** ** Shaping the extraction response *)

Definition attr_or (d : Json) (a : option Json) : Json :=
  match a with Some v => v | None => d end.

Definition box_dict (b : Box) : Json :=
  JDict [ ("l", attr_or (JInt 0) (box_l b)); ("t", attr_or (JInt 0) (box_t b));
          ("r", attr_or (JInt 0) (box_r b)); ("b", attr_or (JInt 0) (box_b b)) ].

Definition grounding_dict (g : Grounding) : Json :=
  JDict (("page", attr_or (JInt 0) (g_page g))
         :: match g_box g with
            | Some b => [("box", box_dict b)]
            | None => []
            end).

Definition chunk_dict (chunk : Chunk) : Json :=
  JDict ([ ("text", attr_or (JStr (c_str chunk)) (c_text chunk));
           ("chunk_type", match c_chunk_type chunk with
                          | Some (Some v) => v
                          | _ => JStr "text"
                          end);
           ("chunk_id", attr_or JNull (c_chunk_id chunk)) ]
         ++ match c_grounding chunk with
            | Some (g :: gs) => [("grounding", JList (map grounding_dict (g :: gs)))]
            | _ => []
            end)%list.

Definition serializable_chunks (result : ParsedDoc) : list Json :=
  match d_chunks result with
  | Some chunks => map chunk_dict chunks
  | None => []
  end.

Definition formatted_result (result : ParsedDoc) (file_content : bytes) (file_key : string)
  : Json :=
  JDict [ ("data", JDict
      [ ("markdown", attr_or (JStr (d_str result)) (d_markdown result));
        ("chunks", JList (serializable_chunks result));
        ("extracted_schema",
          JDict [ ("file_name", JStr file_key);
                  ("file_size", JInt (Z.of_nat (List.length file_content))) ]);
        ("extraction_metadata",
          JDict [ ("timestamp", JStr "2025-06-06"); ("library", JStr "agentic-doc") ]) ]) ].

(** ** The tasks *)

Section Flow.

Context {W : Type} {RT : PyRuntime}.
Context {SS : SecretStore W} {OS : ObjectStore W} {EX : Extractor W} {WH : Warehouse W}.

Definition list_s3_files : M W (list string) :=
  task T_list_s3_files (
    objects <- call s3_list_objects EvListObjects ;;
    log INFO ("S3 list_objects() returned: " ++ fstr_objects objects) ;;
    let files := match objects with
                 | Some (o :: os) => map Key (o :: os)
                 | _ => []
                 end in
    log INFO ("Found " ++ PyStr.of_nat (List.length files) ++ " files in S3 bucket: "
              ++ fstr_strs files) ;;
    ret files).

Definition get_s3_file (file_key : string) : M W bytes :=
  task (T_get_s3_file file_key) (
    content <- call (s3_read_path file_key) (EvReadPath file_key) ;;
    log INFO ("Downloaded " ++ file_key ++ ", size: "
              ++ PyStr.of_nat (List.length content) ++ " bytes") ;;
    ret content).

Definition extract_document_content (file_content : bytes) (file_key : string)
  : M W Json :=
  task (T_extract_document_content file_content file_key) (
    api_key <- call (secret_get "landing-ai-api-key") (EvSecret "landing-ai-api-key") ;;
    match api_key with
    | None | Some EmptyString =>
        raise (mkExc ValueError "Landing AI API key is required")
    | Some key =>
        emit (EvSetEnv "VISION_AGENT_API_KEY" key) ;;
        log INFO ("Making Landing AI API call for " ++ file_key
                  ++ " using official library") ;;
        try_except
          (results <- call (agentic_parse ("_" ++ file_key) file_content)
                           (EvParse ("_" ++ file_key) file_content) ;;
           match results with
           | Some (result :: _) =>
               log INFO ("Landing AI extraction successful for " ++ file_key) ;;
               let formatted := formatted_result result file_content file_key in
               log INFO ("Landing AI result formatted: " ++ fstr formatted) ;;
               ret formatted
           | _ =>
               log WARNING "Landing AI returned empty results, using mock response" ;;
               raise (mkExc ValueError "Empty results")
           end)
          (fun e =>
             log ERROR ("Landing AI library failed: " ++ exc_str e) ;;
             raise e)
    end).

Definition create_s3_bucket_if_not_exists (bucket_name : string) : M W unit :=
  task (T_create_s3_bucket_if_not_exists bucket_name) (
    call (secret_get "aws-access-key-id") (EvSecret "aws-access-key-id") ;;
    call (secret_get "aws-secret-access-key") (EvSecret "aws-secret-access-key") ;;
    try_client_error
      (head_response <- call (s3_head_bucket bucket_name) (EvHeadBucket bucket_name) ;;
       log INFO ("S3 head_bucket response: " ++ fstr head_response) ;;
       log INFO ("S3 bucket '" ++ bucket_name ++ "' exists"))
      (fun e code =>
         log INFO ("S3 head_bucket error: "
                   ++ match exc_class e with
                      | ClientError _ response => fstr response
                      | _ => EmptyString
                      end) ;;
         if String.eqb code "404"
         then
           create_response <- call (s3_create_bucket bucket_name)
                                   (EvCreateBucket bucket_name) ;;
           log INFO ("S3 create_bucket response: " ++ fstr create_response) ;;
           log INFO ("Created S3 bucket '" ++ bucket_name ++ "'")
         else raise e)).

(** [_exec_sql(cur, sql, desc)] *)
Definition _exec_sql (sql desc : string) : M W unit :=
  try_except
    (log INFO ("Executing SQL: " ++ sql) ;;
     call (cur_execute sql None) (EvExecute sql None) ;;
     result <- call cur_fetchall EvFetchall ;;
     log INFO (desc ++ " - SQL result: " ++ fstr result) ;;
     rowcount <- gets cur_rowcount ;;
     log INFO (desc ++ " - Row count: " ++ fstr rowcount))
    (fun e => log WARNING ("Could not " ++ str_lower desc ++ ": " ++ exc_str e)).

Definition fopt (o : option string) : string :=
  match o with Some s => s | None => "None" end.

(** [get_snowflake_connection] of [get_snowflake_connection.py]:
    credentials and key are loaded, then the connection is opened. *)
Definition get_snowflake_connection (warehouse : string) (database schema : option string)
  : M W unit :=
  call sf_credentials EvCredentials ;;
  try_except
    (call (sf_connect warehouse database schema) (EvConnect warehouse database schema) ;;
     log INFO ("✅ Successfully connected to Snowflake | Database: " ++ fopt database
               ++ " | Schema: " ++ fopt schema ++ " | Warehouse: " ++ warehouse))
    (fun e =>
       log ERROR ("💩 Failed to connect to Snowflake: " ++ exc_str e) ;;
       raise e).

(** [with conn: with conn.cursor() as cur: body]: the cursor and the
    connection are released on every way out of [body]. *)
Definition with_cursor {A} (conn : M W unit) (body : M W A) : M W A :=
  conn ;;
  (fun w => let '(r, w1, t1) := body w in (r, sf_close w1, (t1 ++ [EvClose])%list)).

Definition setup_snowflake_infrastructure : M W unit :=
  task T_setup_snowflake_infrastructure (
    with_cursor
      (get_snowflake_connection "PREFECT_WH" (Some "ai") (Some "AGENTIC_DOC_EXTRACTION"))
      (_exec_sql "CREATE WAREHOUSE IF NOT EXISTS PREFECT_WH WITH WAREHOUSE_SIZE = 'X-SMALL'"
                 "Create warehouse" ;;
       _exec_sql "CREATE DATABASE IF NOT EXISTS ai" "Create database" ;;
       _exec_sql "USE DATABASE ai" "Use database" ;;
       _exec_sql "CREATE SCHEMA IF NOT EXISTS AGENTIC_DOC_EXTRACTION" "Create schema" ;;
       _exec_sql "USE SCHEMA AGENTIC_DOC_EXTRACTION" "Use schema" ;;
       try_bare
         (call (cur_execute
                  "SELECT CURRENT_DATABASE(), CURRENT_SCHEMA(), CURRENT_WAREHOUSE()" None)
               (EvExecute
                  "SELECT CURRENT_DATABASE(), CURRENT_SCHEMA(), CURRENT_WAREHOUSE()" None) ;;
          rows <- call cur_fetchall EvFetchall ;;
          match rows with
          | JList (JList (db :: sch :: wh :: _) :: _) =>
              log INFO ("Context - DB: " ++ fstr db ++ ", Schema: " ++ fstr sch
                        ++ ", WH: " ++ fstr wh)
          | _ => raise (mkExc (OtherException "IndexError") "list index out of range")
          end)
         (ret tt) ;;
       try_bare
         (_exec_sql table_sql "Create qualified table")
         (_exec_sql simple_table_sql "Create simple table"))).

(** Lines 190-207 of [load_to_snowflake]: the qualified MERGE and its
    fallback. *)
Definition merge_with_fallback (file_key : string) (params : list string) : M W unit :=
  try_except
    (log INFO ("Executing MERGE SQL: " ++ merge_sql) ;;
     log INFO ("MERGE parameters: " ++ fstr_strs params) ;;
     call (cur_execute merge_sql (Some params)) (EvExecute merge_sql (Some params)) ;;
     result <- call cur_fetchall EvFetchall ;;
     log INFO ("MERGE result: " ++ fstr result) ;;
     rowcount <- gets cur_rowcount ;;
     log INFO ("MERGE row count: " ++ fstr rowcount) ;;
     log INFO ("Loaded " ++ file_key ++ " to Snowflake"))
    (fun e =>
       log WARNING ("Qualified MERGE failed: " ++ exc_str e) ;;
       log INFO ("Trying simple MERGE: " ++ simple_sql) ;;
       call (cur_execute simple_sql (Some params)) (EvExecute simple_sql (Some params)) ;;
       result <- call cur_fetchall EvFetchall ;;
       log INFO ("Simple MERGE result: " ++ fstr result) ;;
       rowcount <- gets cur_rowcount ;;
       log INFO ("Simple MERGE row count: " ++ fstr rowcount) ;;
       log INFO ("Loaded " ++ file_key ++ " to Snowflake (simple)")).

Definition merge_params (file_key : string) (extracted_content : Json) : list string :=
  [ PyStr.last_segment file_key; file_key; json_dumps extracted_content ].

Definition load_to_snowflake (file_key : string) (extracted_content : Json) : M W unit :=
  task (T_load_to_snowflake file_key extracted_content) (
    with_cursor
      (get_snowflake_connection "PREFECT_WH" (Some "ai") (Some "AGENTIC_DOC_EXTRACTION"))
      (_exec_sql "USE DATABASE ai" "Use database" ;;
       _exec_sql "USE SCHEMA AGENTIC_DOC_EXTRACTION" "Use schema" ;;
       merge_with_fallback file_key (merge_params file_key extracted_content))).

Definition process_document (file_key : string) : M W unit :=
  task (T_process_document file_key) (
    file_content <- get_s3_file file_key ;;
    extracted_content <- extract_document_content file_content file_key ;;
    load_to_snowflake file_key extracted_content ;;
    log INFO ("Processed document: " ++ file_key)).

Definition s3_to_snowflake_flow : M W unit :=
  s3_bucket_name <- call (secret_get "s3-bucket-name") (EvSecret "s3-bucket-name") ;;
  match s3_bucket_name with
  | None | Some EmptyString => raise (mkExc ValueError "S3 bucket name is required")
  | Some name =>
      log INFO ("Processing bucket: " ++ name) ;;
      create_s3_bucket_if_not_exists name ;;
      setup_snowflake_infrastructure ;;
      call (s3_bucket_load "default") (EvBucketLoad "default") ;;
      files <- list_s3_files ;;
      match files with
      | [] => log INFO "No files found"
      | _ :: _ =>
          log INFO ("Processing " ++ PyStr.of_nat (List.length files)
                    ++ " files sequentially") ;;
          for_each files process_document
      end
  end.

End Flow.

(** ** Reading a run *)

Definition result_of {W A} (run : Result A * W * list Event) : Result A := fst (fst run).
Definition world_of {W A} (run : Result A * W * list Event) : W := snd (fst run).
Definition trace_of {W A} (run : Result A * W * list Event) : list Event := snd run.

Definition raised_in {A} (r : Result A) : option PyExc :=
  match r with Ok _ => None | Raise e => Some e end.

(** The exception a collaborator answered a call with, if it raised. *)
Definition raised_by (ev : Event) : option PyExc :=
  match ev with
  | EvTask _ | EvLog _ _ | EvSetEnv _ _ | EvClose => None
  | EvSecret _ r => raised_in r
  | EvHeadBucket _ r => raised_in r
  | EvCreateBucket _ r => raised_in r
  | EvBucketLoad _ r => raised_in r
  | EvListObjects r => raised_in r
  | EvReadPath _ r => raised_in r
  | EvParse _ _ r => raised_in r
  | EvCredentials r => raised_in r
  | EvConnect _ _ _ r => raised_in r
  | EvExecute _ _ r => raised_in r
  | EvFetchall r => raised_in r
  end.

(** Every exception a collaborator raised in the run is an instance of
    [Exception]. *)
Definition exception_ok (ev : Event) : bool :=
  match raised_by ev with
  | Some e => is_Exception e
  | None => true
  end.

Definition raised_are_Exceptions (t : list Event) : bool := forallb exception_ok t.

Definition is_execute_of (sql : string) (ev : Event) : bool :=
  match ev with
  | EvExecute sql' _ _ => String.eqb sql sql'
  | _ => false
  end.

(** How often [cur.execute] was called with the statement [sql]. *)
Definition executes_of (sql : string) (t : list Event) : nat :=
  List.length (filter (is_execute_of sql) t).

(** The three steps of [process_document], by file key. *)
Inductive Step : Type :=
| Download (file_key : string)
| Extract (file_key : string)
| Load (file_key : string).

Definition step_of (ev : Event) : option Step :=
  match ev with
  | EvTask (T_get_s3_file k) => Some (Download k)
  | EvTask (T_extract_document_content _ k) => Some (Extract k)
  | EvTask (T_load_to_snowflake k _) => Some (Load k)
  | _ => None
  end.

Fixpoint steps_of (t : list Event) : list Step :=
  match t with
  | [] => []
  | ev :: rest => match step_of ev with
                  | Some s => s :: steps_of rest
                  | None => steps_of rest
                  end
  end.

(** The steps of a complete pass over [files]. *)
Definition steps_for (files : list string) : list Step :=
  flat_map (fun k => [Download k; Extract k; Load k]) files.

(** A call that reaches the bucket or the warehouse. *)
Definition touches_bucket_or_warehouse (ev : Event) : bool :=
  match ev with
  | EvHeadBucket _ _ | EvCreateBucket _ _ | EvBucketLoad _ _ | EvListObjects _
  | EvReadPath _ _ | EvCredentials _ | EvConnect _ _ _ _ | EvExecute _ _ _
  | EvFetchall _ | EvClose => true
  | _ => false
  end.

(** A download, an extraction or a load: the task call or the call to the
    collaborator behind it. *)
Definition is_processing (ev : Event) : bool :=
  match ev with
  | EvTask (T_get_s3_file _) | EvTask (T_extract_document_content _ _)
  | EvTask (T_load_to_snowflake _ _) | EvTask (T_process_document _)
  | EvReadPath _ _ | EvParse _ _ _ => true
  | EvExecute sql _ _ => String.eqb sql merge_sql || String.eqb sql simple_sql
  | _ => false
  end.

(** Not a [cur.execute] of the MERGE, qualified or not. *)
Definition no_merge (ev : Event) : bool :=
  negb (is_execute_of merge_sql ev) && negb (is_execute_of simple_sql ev).

Definition is_listing (ev : Event) : bool :=
  match ev with EvListObjects _ => true | _ => false end.

(** Neither processing nor a listing: what provisioning may do. *)
Definition provisioning_event (ev : Event) : bool :=
  negb (is_processing ev) && negb (is_listing ev).

Definition no_step (ev : Event) : bool :=
  match step_of ev with Some _ => false | None => true end.

Definition always (ev : Event) : bool := true.

(** ** Statements about runs *)

(** On every run of [m] whose events all satisfy [Q], all events satisfy [P]. *)
Definition emits {W A} (Q P : Event -> bool) (m : M W A) : Prop :=
  forall w, forallb Q (trace_of (m w)) = true -> forallb P (trace_of (m w)) = true.

Definition passes (Q P : Event -> bool) (ev : Event) : Prop := Q ev = true -> P ev = true.

(** Every run of [m] takes a state to one related to it by [R]. *)
Definition maintains {W A} (R : W -> W -> Prop) (m : M W A) : Prop :=
  forall w, R w (world_of (m w)).

(** ** A scripted collaborator, in the manner of the test suite's mocks *)

Module Mock.

Record World : Type :=
  mk { secrets : string -> Result (option string);
       head_bucket : string -> Result Json;
       create_bucket : string -> Result Json;
       bucket_block : Result unit;
       objects : Result (option (list S3Object));
       read_path : string -> Result bytes;
       parse : bytes -> Result (option (list ParsedDoc));
       credentials : Result unit;
       connect : Result unit;
       execute : string -> Result unit;
       fetchall : Result Json;
       rowcount : Json }.

(** The runtime of the scripted runs.  Every text lower-cased in them is
    ASCII, where [str.lower] is [PyStr.lower_ascii]. *)
#[global] Instance runtime : PyRuntime :=
  {| fstr := fun _ => "<value>";
     fstr_objects := fun _ => "<objects>";
     fstr_strs := fun l => String.concat ", " l;
     json_dumps := fun _ => "<json>";
     str_lower := PyStr.lower_ascii |}.

#[global] Instance secret_store : SecretStore World :=
  {| secret_get := fun name w => (secrets w name, w) |}.

#[global] Instance object_store : ObjectStore World :=
  {| s3_head_bucket := fun b w => (head_bucket w b, w);
     s3_create_bucket := fun b w => (create_bucket w b, w);
     s3_bucket_load := fun _ w => (bucket_block w, w);
     s3_list_objects := fun w => (objects w, w);
     s3_read_path := fun k w => (read_path w k, w) |}.

#[global] Instance extractor : Extractor World :=
  {| agentic_parse := fun _ content w => (parse w content, w) |}.

#[global] Instance warehouse : Warehouse World :=
  {| sf_credentials := fun w => (credentials w, w);
     sf_connect := fun _ _ _ w => (connect w, w);
     cur_execute := fun sql _ w => (execute w sql, w);
     cur_fetchall := fun w => (fetchall w, w);
     cur_rowcount := fun w => rowcount w;
     sf_close := fun w => w |}.

Definition chunk1 : Chunk :=
  mkChunk (Some (JStr "Test document content")) "Chunk(...)"
          (Some (Some (JStr "text"))) (Some (JStr "chunk_1")) (Some []).

Definition doc1 : ParsedDoc :=
  mkDoc (Some (JStr "# Test Document")) "ParsedDocument(...)" (Some [chunk1]).

(** Every collaborator answers; the bucket holds the given keys. *)
Definition happy (keys : list string) : World :=
  {| secrets := fun name => Ok (Some ("value-of-" ++ name));
     head_bucket := fun _ => Ok JNull;
     create_bucket := fun _ => Ok JNull;
     bucket_block := Ok tt;
     objects := Ok (Some (map (fun k => mkObj k JNull) keys));
     read_path := fun _ => Ok [];
     parse := fun _ => Ok (Some [doc1]);
     credentials := Ok tt;
     connect := Ok tt;
     execute := fun _ => Ok tt;
     fetchall := Ok (JList []);
     rowcount := JInt 1 |}.

(** As [happy], with [cur.execute] failing on the statements [fails] picks. *)
Definition failing_on (fails : string -> bool) (e : PyExc) (keys : list string) : World :=
  {| secrets := secrets (happy keys);
     head_bucket := head_bucket (happy keys);
     create_bucket := create_bucket (happy keys);
     bucket_block := Ok tt;
     objects := objects (happy keys);
     read_path := read_path (happy keys);
     parse := parse (happy keys);
     credentials := Ok tt;
     connect := Ok tt;
     execute := fun sql => if fails sql then Raise e else Ok tt;
     fetchall := Ok (JList []);
     rowcount := JInt 1 |}.

End Mock.

(** ** The warehouse table, as the statements of the flow act on it *)

Module Snowflake.

(** The VARIANT that [PARSE_JSON] makes of a text. *)
Inductive Variant : Type := PARSE_JSON (text : string).

(** A row of DOCS.  PROCESS_DATE is filled from the server's clock and
    is left out. *)
Record DocRecord : Type :=
  mkRecord { ID : Z; FILE_NAME : string; FILE_PATH : string;
             EXTRACTED_CONTENT : Variant }.

(** The table, the AUTOINCREMENT counter, and what the coming calls on
    the session will raise ([None]: the call goes through). *)
Record State : Type :=
  mkState { DOCS : list DocRecord; next_id : Z; faults : list (option PyExc) }.

Definition matched (file_path : string) (docs : list DocRecord) : bool :=
  existsb (fun d => String.eqb (FILE_PATH d) file_path) docs.

(** MERGE INTO DOCS ... ON target.FILE_PATH = source.file_path
    WHEN NOT MATCHED THEN INSERT ...: one source row, no WHEN MATCHED. *)
Definition merge (params : option (list string)) (st : State) : State :=
  match params with
  | Some [file_name; file_path; extracted_content] =>
      if matched file_path (DOCS st) then st
      else mkState (DOCS st ++ [mkRecord (next_id st) file_name file_path
                                          (PARSE_JSON extracted_content)])%list
                   (next_id st + 1) (faults st)
  | _ => st
  end.

Definition is_merge (sql : string) : bool :=
  String.eqb sql merge_sql || String.eqb sql simple_sql.

Definition pop (st : State) : option PyExc * State :=
  match faults st with
  | [] => (None, st)
  | f :: rest => (f, mkState (DOCS st) (next_id st) rest)
  end.

(** A statement that raises leaves the table as it was. *)
Definition execute (sql : string) (params : option (list string)) (st : State)
  : Result unit * State :=
  match pop st with
  | (Some e, st') => (Raise e, st')
  | (None, st') => (Ok tt, if is_merge sql then merge params st' else st')
  end.

Definition attempt {A} (a : A) (st : State) : Result A * State :=
  match pop st with
  | (Some e, st') => (Raise e, st')
  | (None, st') => (Ok a, st')
  end.

#[global] Instance warehouse : Warehouse State :=
  {| sf_credentials := attempt tt;
     sf_connect := fun _ _ _ => attempt tt;
     cur_execute := execute;
     cur_fetchall := attempt (JList []);
     cur_rowcount := fun _ => JInt 1;
     sf_close := fun st => st |}.

(** The DocRecords with the given file path. *)
Definition records_at (file_path : string) (st : State) : list DocRecord :=
  filter (fun d => String.eqb (FILE_PATH d) file_path) (DOCS st).

Definition paths (st : State) : list string := map FILE_PATH (DOCS st).

(** The row a load of [file_key] inserts into the table of [st]. *)
Definition new_record {RT : PyRuntime} (st : State) (file_key : string)
    (extracted_content : Json) : DocRecord :=
  mkRecord (next_id st) (PyStr.last_segment file_key) file_key
           (PARSE_JSON (json_dumps extracted_content)).

(** From [st] to [st']: the table is as it was, or [file_key] matched no
    row and the table gained the new row at its end. *)
Definition upserted {RT : PyRuntime} (file_key : string) (extracted_content : Json)
    (st st' : State) : Prop :=
  (DOCS st' = DOCS st /\ next_id st' = next_id st) \/
  (matched file_key (DOCS st) = false /\
   DOCS st' = (DOCS st ++ [new_record st file_key extracted_content])%list /\
   next_id st' = (next_id st + 1)%Z).

(** A sequence of load calls, each on the state the one before left;
    a load that raises does not stop the next. *)
Fixpoint run_loads {RT : PyRuntime} (calls : list (string * Json)) (st : State) : State :=
  match calls with
  | [] => st
  | (file_key, extracted_content) :: rest =>
      run_loads rest (world_of (load_to_snowflake file_key extracted_content st))
  end.

End Snowflake.

(** ** More readers of a run *)

(** The statements given to [cur.execute], in the order of the calls. *)
Fixpoint statements_of (t : list Event) : list string :=
  match t with
  | [] => []
  | EvExecute sql _ _ :: rest => sql :: statements_of rest
  | _ :: rest => statements_of rest
  end.

(** No collaborator raised in the run. *)
Definition nothing_raised (t : list Event) : bool :=
  forallb (fun ev => match raised_by ev with Some _ => false | None => true end) t.

(** A call on the warehouse: credentials, connection, cursor, release. *)
Definition is_warehouse_event (ev : Event) : bool :=
  match ev with
  | EvCredentials _ | EvConnect _ _ _ _ | EvExecute _ _ _ | EvFetchall _ | EvClose => true
  | _ => false
  end.

Definition is_log (ev : Event) : bool :=
  match ev with EvLog _ _ => true | _ => false end.

(** The statements of [setup_snowflake_infrastructure] up to the qualified
    CREATE TABLE, in the order of the source. *)
Definition setup_statements : list string :=
  [ "CREATE WAREHOUSE IF NOT EXISTS PREFECT_WH WITH WAREHOUSE_SIZE = 'X-SMALL'";
    "CREATE DATABASE IF NOT EXISTS ai";
    "USE DATABASE ai";
    "CREATE SCHEMA IF NOT EXISTS AGENTIC_DOC_EXTRACTION";
    "USE SCHEMA AGENTIC_DOC_EXTRACTION";
    "SELECT CURRENT_DATABASE(), CURRENT_SCHEMA(), CURRENT_WAREHOUSE()";
    table_sql ].

(** The statements of [load_to_snowflake], fallback included. *)
Definition load_statements : list string :=
  [ "USE DATABASE ai"; "USE SCHEMA AGENTIC_DOC_EXTRACTION"; merge_sql; simple_sql ].

(** [l1] is an initial part of [l2]. *)
Definition is_prefix {A} (l1 l2 : list A) : Prop := exists rest, l2 = (l1 ++ rest)%list.

Definition is_warning_or_error (ev : Event) : bool :=
  match ev with EvLog WARNING _ | EvLog ERROR _ => true | _ => false end.

Definition not_execute (ev : Event) : bool :=
  match ev with EvExecute _ _ _ => false | _ => true end.

Definition is_head_bucket (ev : Event) : bool :=
  match ev with EvHeadBucket _ _ => true | _ => false end.

(** Nothing past the bucket check: no call on the warehouse, no listing,
    no processing. *)
Definition before_provisioning (ev : Event) : bool :=
  negb (is_warehouse_event ev) && negb (is_listing ev) && negb (is_processing ev).

(** ** The provisioning script, [flows/setup_blocks.py] *)

Module SetupBlocks.

(** The blocks the script builds. *)
Inductive Block : Type :=
| AwsCredentials (aws_access_key_id aws_secret_access_key : string)
| S3Bucket (bucket_name : string) (credentials : Block)
| SnowflakeCredentials (user : string) (private_key : bytes) (account : string)
| SnowflakeConnector (credentials : Block) (database schema warehouse : string)
| Secret (value : string).

(** What a run of the script shows: the lines printed, the Snowflake
    blocks constructed ([SnowflakeCredentials(...)],
    [SnowflakeConnector(...)]), the blocks saved
    ([block.save(name, overwrite=True)]) and the files read, the last
    three with the answer they got. *)
Inductive Out : Type :=
| Print (line : string)
| New (block : Block) (r : Result unit)
| Save (block : Block) (name : string) (r : Result unit)
| Open (path : string) (r : Result bytes).

(** The block library, the block storage and the file system.
    [block_new] is the validation a Snowflake block runs on its fields
    when it is constructed: the constructor raises what it raises.  The
    AWS credentials, the bucket block and the secrets are built from the
    argument strings as they are. *)
Class Blocks (W : Type) : Type :=
  { block_new : Block -> W -> Result unit * W;
    block_save : Block -> string -> W -> Result unit * W;
    read_file : string -> W -> Result bytes * W }.

Definition S (W A : Type) : Type := W -> Result A * W * list Out.

Definition ret {W A} (a : A) : S W A := fun w => (Ok a, w, []).

Definition bind {W A B} (m : S W A) (k : A -> S W B) : S W B :=
  fun w =>
    match m w with
    | (Ok a, w1, t1) => let '(r, w2, t2) := k a w1 in (r, w2, (t1 ++ t2)%list)
    | (Raise e, w1, t1) => (Raise e, w1, t1)
    end.

Declare Scope setup_scope.
Notation "x <- m ;; k" := (bind m (fun x => k))
  (at level 61, m at next level, right associativity) : setup_scope.
Notation "m ;; k" := (bind m (fun _ => k))
  (at level 61, right associativity) : setup_scope.
Local Open Scope setup_scope.

Definition print {W} (line : string) : S W unit := fun w => (Ok tt, w, [Print line]).

(** [sys.exit(code)] *)
Definition sys_exit {W A} (code : string) : S W A :=
  fun w => (Raise (mkExc SystemExit code), w, []).

Definition new {W} {BL : Blocks W} (block : Block) : S W unit :=
  fun w => let '(r, w') := block_new block w in (r, w', [New block r]).

Definition save {W} {BL : Blocks W} (block : Block) (name : string) : S W unit :=
  fun w => let '(r, w') := block_save block name w in (r, w', [Save block name r]).

Definition open_read {W} {BL : Blocks W} (path : string) : S W bytes :=
  fun w => let '(r, w') := read_file path w in (r, w', [Open path r]).

(** [try: body  except Exception as e: handler e] *)
Definition try_except {W A} (body : S W A) (handler : PyExc -> S W A) : S W A :=
  fun w =>
    match body w with
    | (Ok a, w1, t1) => (Ok a, w1, t1)
    | (Raise e, w1, t1) =>
        if is_Exception e
        then let '(r, w2, t2) := handler e w1 in (r, w2, (t1 ++ t2)%list)
        else (Raise e, w1, t1)
    end.

Section Script.

Context {W : Type} {BL : Blocks W}.

Definition create_aws_credentials (access_key_id secret_access_key bucket_name : string)
  : S W bool :=
  try_except
    (let aws_credentials_block := AwsCredentials access_key_id secret_access_key in
     save aws_credentials_block "aws-credentials" ;;
     print "✓ AWS credentials block created successfully" ;;
     let s3_bucket_block := S3Bucket bucket_name aws_credentials_block in
     save s3_bucket_block "default" ;;
     print "✓ S3 bucket block created successfully" ;;
     save (Secret access_key_id) "aws-access-key-id" ;;
     save (Secret secret_access_key) "aws-secret-access-key" ;;
     print "✓ AWS credential secrets created successfully" ;;
     ret true)
    (fun e =>
       print ("✗ Error creating AWS blocks: " ++ exc_str e) ;;
       ret false).

Definition create_snowflake_connector (user private_key_path account : string)
    (database schema warehouse : string) : S W bool :=
  try_except
    (private_key <- open_read private_key_path ;;
     let snowflake_credentials := SnowflakeCredentials user private_key account in
     new snowflake_credentials ;;
     save snowflake_credentials "snowflake-credentials-key-auth" ;;
     print "✓ Snowflake credentials block created successfully" ;;
     let snowflake_connector_block :=
       SnowflakeConnector snowflake_credentials database schema warehouse in
     new snowflake_connector_block ;;
     save snowflake_connector_block "snowflake-credentials-key-auth" ;;
     print "✓ Snowflake connector block created successfully" ;;
     ret true)
    (fun e =>
       print ("✗ Error creating Snowflake connector block: " ++ exc_str e) ;;
       ret false).

Definition create_secret_block (name value : string) : S W bool :=
  try_except
    (save (Secret value) name ;;
     print ("✓ Secret block '" ++ name ++ "' created successfully") ;;
     ret true)
    (fun e =>
       print ("✗ Error creating secret block '" ++ name ++ "': " ++ exc_str e) ;;
       ret false).

Definition usage : string :=
  "Usage: python setup_blocks.py <aws_access_key> <aws_secret_key> <sf_user> <sf_private_key_path> <sf_account> <landing_ai_key> <s3_bucket_name>".

(** [main()], on [sys.argv]. *)
Definition main (argv : list string) : S W unit :=
  match argv with
  | [_; aws_access_key; aws_secret_key; sf_user; sf_private_key_path; sf_account;
     landing_ai_key; s3_bucket_name] =>
      print "Creating Prefect blocks..." ;;
      ok_aws <- create_aws_credentials aws_access_key aws_secret_key s3_bucket_name ;;
      ok_snowflake <- create_snowflake_connector sf_user sf_private_key_path sf_account
                        "ai" "AGENTIC_DOC_EXTRACTION" "PREFECT_WH" ;;
      ok_landing <- create_secret_block "landing-ai-api-key" landing_ai_key ;;
      ok_bucket <- create_secret_block "s3-bucket-name" s3_bucket_name ;;
      if ok_aws && ok_snowflake && ok_landing && ok_bucket
      then print "
✓ All blocks created successfully!" ;; sys_exit "0"
      else print "
✗ Some blocks failed to create. Check the errors above." ;; sys_exit "1"
  | _ => print usage ;; sys_exit "1"
  end.

End Script.

Definition outcome {W A} (run : Result A * W * list Out) : Result A := fst (fst run).
Definition left_behind {W A} (run : Result A * W * list Out) : W := snd (fst run).
Definition output {W A} (run : Result A * W * list Out) : list Out := snd run.

(** The blocks of [create_aws_credentials], in the order it saves them. *)
Definition aws_blocks (access_key_id secret_access_key bucket_name : string)
  : list (Block * string) :=
  [ (AwsCredentials access_key_id secret_access_key, "aws-credentials");
    (S3Bucket bucket_name (AwsCredentials access_key_id secret_access_key), "default");
    (Secret access_key_id, "aws-access-key-id");
    (Secret secret_access_key, "aws-secret-access-key") ].

(** The blocks of [create_snowflake_connector], both under one name. *)
Definition snowflake_blocks (user : string) (private_key : bytes) (account : string)
    (database schema warehouse : string) : list (Block * string) :=
  [ (SnowflakeCredentials user private_key account, "snowflake-credentials-key-auth");
    (SnowflakeConnector (SnowflakeCredentials user private_key account)
                        database schema warehouse,
     "snowflake-credentials-key-auth") ].

(** The saves attempted in a run, in order. *)
Fixpoint saves_of (t : list Out) : list (Block * string) :=
  match t with
  | [] => []
  | Save block name _ :: rest => (block, name) :: saves_of rest
  | _ :: rest => saves_of rest
  end.

Definition failed (o : Out) : option PyExc :=
  match o with
  | New _ (Raise e) | Save _ _ (Raise e) | Open _ (Raise e) => Some e
  | _ => None
  end.

(** Some construction, save or read of the run raised. *)
Definition anything_failed (t : list Out) : bool :=
  existsb (fun o => match failed o with Some _ => true | None => false end) t.

(** What was raised in the run are instances of [Exception]. *)
Definition failures_are_Exceptions (t : list Out) : bool :=
  forallb (fun o => match failed o with Some e => is_Exception e | None => true end) t.

(** *** A block storage in memory *)

(** The slug of a block's type: blocks are stored by type and name. *)
Definition slug (block : Block) : string :=
  match block with
  | AwsCredentials _ _ => "aws-credentials"
  | S3Bucket _ _ => "s3-bucket"
  | SnowflakeCredentials _ _ _ => "snowflake-credentials"
  | SnowflakeConnector _ _ _ _ => "snowflake-connector"
  | Secret _ => "secret"
  end.

(** The documents stored, the files that can be read, and what the
    validation of a Snowflake block answers. *)
Record Store : Type :=
  mkStore { documents : list (string * string * Block);
            files : string -> option bytes;
            validation : Block -> Result unit }.

Definition same_document (type name : string) (d : string * string * Block) : bool :=
  String.eqb (fst (fst d)) type && String.eqb (snd (fst d)) name.

(** [Block.load(name)] for the type [type]. *)
Definition load (type name : string) (st : Store) : option Block :=
  match find (same_document type name) (documents st) with
  | Some d => Some (snd d)
  | None => None
  end.

(** [block.save(name, overwrite=True)]: the document of that type and
    name is replaced. *)
Definition store (block : Block) (name : string) (st : Store) : Store :=
  mkStore ((slug block, name, block)
           :: filter (fun d => negb (same_document (slug block) name d)) (documents st))
          (files st) (validation st).

#[global] Instance memory : Blocks Store :=
  {| block_new := fun block st => (validation st block, st);
     block_save := fun block name st => (Ok tt, store block name st);
     read_file := fun path st =>
       (match files st path with
        | Some content => Ok content
        | None => Raise (mkExc (OtherException "FileNotFoundError") path)
        end, st) |}.

End SetupBlocks.

(** ** The pipeline on the warehouse table *)

Module Pipeline.

(** The services beside the warehouse: they answer by script and have no
    hand in the table. *)
Record Services : Type :=
  mkServices { secret : string -> Result (option string);
               head_bucket : string -> Result Json;
               create_bucket : string -> Result Json;
               bucket_block : string -> Result unit;
               list_objects : Result (option (list S3Object));
               read_path : string -> Result bytes;
               parse : string -> bytes -> Result (option (list ParsedDoc)) }.

Definition secret_store (sv : Services) : SecretStore Snowflake.State :=
  {| secret_get := fun name st => (secret sv name, st) |}.

Definition object_store (sv : Services) : ObjectStore Snowflake.State :=
  {| s3_head_bucket := fun bucket st => (head_bucket sv bucket, st);
     s3_create_bucket := fun bucket st => (create_bucket sv bucket, st);
     s3_bucket_load := fun name st => (bucket_block sv name, st);
     s3_list_objects := fun st => (list_objects sv, st);
     s3_read_path := fun key st => (read_path sv key, st) |}.

Definition extractor (sv : Services) : Extractor Snowflake.State :=
  {| agentic_parse := fun path content st => (parse sv path content, st) |}.

(** The keys the bucket lists. *)
Definition keys (sv : Services) : list string :=
  match list_objects sv with
  | Ok (Some objs) => map Key objs
  | _ => []
  end.

(** The driver with these services, the warehouse being the table. *)
Definition run {RT : PyRuntime} (sv : Services) : M Snowflake.State unit :=
  @s3_to_snowflake_flow Snowflake.State RT (secret_store sv) (object_store sv)
    (extractor sv) Snowflake.warehouse.

(** A row written for one of [keys]: its file name is the last path
    segment of its file path. *)
Definition row_of (keys : list string) (d : Snowflake.DocRecord) : Prop :=
  In (Snowflake.FILE_PATH d) keys /\
  Snowflake.FILE_NAME d = PyStr.last_segment (Snowflake.FILE_PATH d).

(** From [st] to [st']: the rows of [st] are all there, as they were and
    in their place; the rows after them are rows of [keys]; and no file
    path came to have two rows. *)
Definition extended (keys : list string) (st st' : Snowflake.State) : Prop :=
  (exists added,
      Snowflake.DOCS st' = (Snowflake.DOCS st ++ added)%list /\
      Forall (row_of keys) added) /\
  (NoDup (Snowflake.paths st) -> NoDup (Snowflake.paths st')).

End Pipeline.

(** ** More scripted collaborators *)

Module Scenario.

(** A result of the extraction library with nothing in it. *)
Definition blank_doc : ParsedDoc := mkDoc (Some (JStr "")) "" (Some []).

(** The extraction service answers [results]. *)
Definition answering (results : option (list ParsedDoc)) : Mock.World :=
  {| Mock.secrets := fun _ => Ok (Some "test-api-key");
     Mock.head_bucket := fun _ => Ok JNull;
     Mock.create_bucket := fun _ => Ok JNull;
     Mock.bucket_block := Ok tt;
     Mock.objects := Ok None;
     Mock.read_path := fun _ => Ok [];
     Mock.parse := fun _ => Ok results;
     Mock.credentials := Ok tt;
     Mock.connect := Ok tt;
     Mock.execute := fun _ => Ok tt;
     Mock.fetchall := Ok (JList []);
     Mock.rowcount := JInt 0 |}.

(** The API key is stored as the empty string. *)
Definition no_api_key : Mock.World :=
  {| Mock.secrets := fun name =>
       if String.eqb name "landing-ai-api-key" then Ok (Some "")
       else Ok (Some ("value-of-" ++ name));
     Mock.head_bucket := fun _ => Ok JNull;
     Mock.create_bucket := fun _ => Ok JNull;
     Mock.bucket_block := Ok tt;
     Mock.objects := Ok (Some []);
     Mock.read_path := fun _ => Ok [];
     Mock.parse := fun _ => Ok (Some [Mock.doc1]);
     Mock.credentials := Ok tt;
     Mock.connect := Ok tt;
     Mock.execute := fun _ => Ok tt;
     Mock.fetchall := Ok (JList []);
     Mock.rowcount := JInt 1 |}.

(** The extraction service raises [e]. *)
Definition failing_service (e : PyExc) (keys : list string) : Mock.World :=
  {| Mock.secrets := Mock.secrets (Mock.happy keys);
     Mock.head_bucket := fun _ => Ok JNull;
     Mock.create_bucket := fun _ => Ok JNull;
     Mock.bucket_block := Ok tt;
     Mock.objects := Mock.objects (Mock.happy keys);
     Mock.read_path := fun _ => Ok [];
     Mock.parse := fun _ => Raise e;
     Mock.credentials := Ok tt;
     Mock.connect := Ok tt;
     Mock.execute := fun _ => Ok tt;
     Mock.fetchall := Ok (JList []);
     Mock.rowcount := JInt 1 |}.

(** Every statement executes, and [cur.fetchall] raises [e]. *)
Definition failing_fetch (e : PyExc) (keys : list string) : Mock.World :=
  {| Mock.secrets := Mock.secrets (Mock.happy keys);
     Mock.head_bucket := fun _ => Ok JNull;
     Mock.create_bucket := fun _ => Ok JNull;
     Mock.bucket_block := Ok tt;
     Mock.objects := Mock.objects (Mock.happy keys);
     Mock.read_path := fun _ => Ok [];
     Mock.parse := fun _ => Ok (Some [Mock.doc1]);
     Mock.credentials := Ok tt;
     Mock.connect := Ok tt;
     Mock.execute := fun _ => Ok tt;
     Mock.fetchall := Raise e;
     Mock.rowcount := JInt 1 |}.

(** [head_bucket] raises [e]. *)
Definition failing_bucket_check (e : PyExc) (keys : list string) : Mock.World :=
  {| Mock.secrets := Mock.secrets (Mock.happy keys);
     Mock.head_bucket := fun _ => Raise e;
     Mock.create_bucket := fun _ => Ok JNull;
     Mock.bucket_block := Ok tt;
     Mock.objects := Mock.objects (Mock.happy keys);
     Mock.read_path := fun _ => Ok [];
     Mock.parse := fun _ => Ok (Some [Mock.doc1]);
     Mock.credentials := Ok tt;
     Mock.connect := Ok tt;
     Mock.execute := fun _ => Ok tt;
     Mock.fetchall := Ok (JList []);
     Mock.rowcount := JInt 1 |}.

(** Connecting to the warehouse raises [e], as in
    [test_get_snowflake_connection_failure]. *)
Definition failing_connection (e : PyExc) : Mock.World :=
  {| Mock.secrets := Mock.secrets (Mock.happy []);
     Mock.head_bucket := fun _ => Ok JNull;
     Mock.create_bucket := fun _ => Ok JNull;
     Mock.bucket_block := Ok tt;
     Mock.objects := Ok (Some []);
     Mock.read_path := fun _ => Ok [];
     Mock.parse := fun _ => Ok (Some [Mock.doc1]);
     Mock.credentials := Ok tt;
     Mock.connect := Raise e;
     Mock.execute := fun _ => Ok tt;
     Mock.fetchall := Ok (JList []);
     Mock.rowcount := JInt 1 |}.

(** Credentials without a private key are refused; every other block is
    accepted. *)
Definition key_required (block : SetupBlocks.Block) : Result unit :=
  match block with
  | SetupBlocks.SnowflakeCredentials _ [] _ =>
      Raise (mkExc ValueError "One of the authentication keys must be provided")
  | _ => Ok tt
  end.

(** An empty block storage with no file to read. *)
Definition empty_storage : SetupBlocks.Store :=
  SetupBlocks.mkStore [] (fun _ => None) key_required.

(** An empty block storage beside the key file "rsa_key.p8". *)
Definition storage_with_key (content : bytes) : SetupBlocks.Store :=
  SetupBlocks.mkStore []
    (fun path => if String.eqb path "rsa_key.p8" then Some content else None)
    key_required.

(** A bucket with two documents, one of them in a folder; every
    service answers. *)
Definition two_documents : Pipeline.Services :=
  {| Pipeline.secret := fun name => Ok (Some ("value-of-" ++ name));
     Pipeline.head_bucket := fun _ => Ok JNull;
     Pipeline.create_bucket := fun _ => Ok JNull;
     Pipeline.bucket_block := fun _ => Ok tt;
     Pipeline.list_objects := Ok (Some [mkObj "folder/a.pdf" JNull; mkObj "b.jpg" JNull]);
     Pipeline.read_path := fun _ => Ok [];
     Pipeline.parse := fun _ _ => Ok (Some [Mock.doc1]) |}.

(** An empty table on a session whose third call, the first statement of
    the provisioning, raises. *)
Definition empty_table : Snowflake.State :=
  Snowflake.mkState [] 1 [None; None; Some (mkExc ProgrammingError "insufficient privileges")].

End Scenario.

(** * Properties of the flow *)

(** ** Strings *)

Lemma startswith_app (a s : string) : PyStr.startswith a (a ++ s) = true.
Proof.
  induction a as [|c a IH]; simpl; [reflexivity|].
  rewrite Ascii.eqb_refl. exact IH.
Qed.

Lemma contains_here (a s : string) : PyStr.contains a (a ++ s) = true.
Proof.
  destruct (a ++ s) eqn:E; simpl.
  - destruct a; [reflexivity | discriminate].
  - rewrite <- E, startswith_app. reflexivity.
Qed.

Lemma contains_app_r (a p s : string) :
  PyStr.contains a s = true -> PyStr.contains a (p ++ s) = true.
Proof.
  intros H. induction p as [|c p IH]; simpl; [exact H|].
  rewrite IH. destruct (PyStr.startswith a (String c (p ++ s))); reflexivity.
Qed.

Lemma contains_self (a : string) : PyStr.contains a a = true.
Proof.
  assert (E : a ++ "" = a) by (induction a as [|c a IH]; simpl; congruence).
  rewrite <- E at 2. apply contains_here.
Qed.

Lemma contains_middle (a p s : string) : PyStr.contains a (p ++ a ++ s) = true.
Proof. apply contains_app_r, contains_here. Qed.

(** ** What a computation writes to the trace *)

Section Emits.

Context {W : Type}.

Local Abbreviation emits := (emits (W:=W)).

Variables Q P : Event -> bool.

Lemma emits_ret {A} (a : A) : emits Q P (ret a).
Proof. intros w _. reflexivity. Qed.

Lemma emits_raise {A} (e : PyExc) : emits Q P (@raise W A e).
Proof. intros w _. reflexivity. Qed.

Lemma emits_gets {A} (f : W -> A) : emits Q P (gets f).
Proof. intros w _. reflexivity. Qed.

Lemma emits_emit (ev : Event) : passes Q P ev -> emits Q P (emit ev).
Proof.
  intros H w. unfold emit, trace_of. simpl. rewrite !andb_true_r. exact H.
Qed.

Lemma emits_log (lvl : Level) (msg : string) :
  passes Q P (EvLog lvl msg) -> emits Q P (log lvl msg).
Proof. apply emits_emit. Qed.

Lemma emits_call {A} (op : W -> Result A * W) (ev : Result A -> Event) :
  (forall r, passes Q P (ev r)) -> emits Q P (call op ev).
Proof.
  intros H w. unfold call, trace_of. destruct (op w) as [r w']. simpl.
  rewrite !andb_true_r. apply H.
Qed.

Lemma emits_bind {A B} (m : M W A) (k : A -> M W B) :
  emits Q P m -> (forall a, emits Q P (k a)) -> emits Q P (bind m k).
Proof.
  intros Hm Hk w. unfold bind, trace_of. specialize (Hm w). unfold trace_of in Hm.
  destruct (m w) as [[[a|e] w1] t1]; simpl in *; [|exact Hm].
  specialize (Hk a w1). unfold trace_of in Hk.
  destruct (k a w1) as [[r w2] t2]. simpl in *.
  rewrite !forallb_app, !andb_true_iff. intros [H1 H2]. auto.
Qed.

Lemma emits_try_except {A} (body : M W A) (handler : PyExc -> M W A) :
  emits Q P body -> (forall e, emits Q P (handler e)) ->
  emits Q P (try_except body handler).
Proof.
  intros Hm Hk w. unfold try_except, trace_of. specialize (Hm w). unfold trace_of in Hm.
  destruct (body w) as [[[a|e] w1] t1]; simpl in *; [exact Hm|].
  destruct (is_Exception e); [|exact Hm].
  specialize (Hk e w1). unfold trace_of in Hk.
  destruct (handler e w1) as [[r w2] t2]. simpl in *.
  rewrite !forallb_app, !andb_true_iff. intros [H1 H2]. auto.
Qed.

Lemma emits_try_bare {A} (body handler : M W A) :
  emits Q P body -> emits Q P handler -> emits Q P (try_bare body handler).
Proof.
  intros Hm Hk w. unfold try_bare, trace_of. specialize (Hm w). unfold trace_of in Hm.
  destruct (body w) as [[[a|e] w1] t1]; simpl in *; [exact Hm|].
  specialize (Hk w1). unfold trace_of in Hk.
  destruct (handler w1) as [[r w2] t2]. simpl in *.
  rewrite !forallb_app, !andb_true_iff. intros [H1 H2]. auto.
Qed.

(** A body that cannot raise on the runs [Q] allows never reaches its
    handler there. *)
Lemma emits_try_bare_unreached {A} (body handler : M W A) :
  emits Q P body ->
  (forall w, forallb Q (trace_of (body w)) = true -> exists a, result_of (body w) = Ok a) ->
  emits Q P (try_bare body handler).
Proof.
  intros Hm Hs w. unfold try_bare, trace_of.
  specialize (Hm w). specialize (Hs w). unfold trace_of, result_of in *.
  destruct (body w) as [[[a|e] w1] t1]; simpl in *; [exact Hm|].
  destruct (handler w1) as [[r w2] t2]. simpl.
  rewrite forallb_app, andb_true_iff. intros [H1 _].
  destruct (Hs H1) as [a Ha]. discriminate.
Qed.

Lemma emits_try_client_error {A} (body : M W A) (handler : PyExc -> string -> M W A) :
  emits Q P body -> (forall e code, emits Q P (handler e code)) ->
  emits Q P (try_client_error body handler).
Proof.
  intros Hm Hk w. unfold try_client_error, trace_of. specialize (Hm w).
  unfold trace_of in Hm.
  destruct (body w) as [[[a|e] w1] t1]; simpl in *; [exact Hm|].
  destruct (client_error_code e) as [code|]; [|exact Hm].
  specialize (Hk e code w1). unfold trace_of in Hk.
  destruct (handler e code w1) as [[r w2] t2]. simpl in *.
  rewrite !forallb_app, !andb_true_iff. intros [H1 H2]. auto.
Qed.

Lemma emits_task {A} (t : TaskCall) (body : M W A) :
  passes Q P (EvTask t) -> emits Q P body -> emits Q P (task t body).
Proof.
  intros Ht Hb. unfold task. apply emits_bind; [apply emits_emit, Ht | intros _; exact Hb].
Qed.

Lemma emits_for_each {A} (xs : list A) (body : A -> M W unit) :
  (forall x, emits Q P (body x)) -> emits Q P (for_each xs body).
Proof.
  intros H. induction xs as [|x xs IH]; simpl.
  - apply emits_ret.
  - apply emits_bind; [apply H | intros _; exact IH].
Qed.

End Emits.

(** ** Running a task *)

Lemma task_trace {W A} (t : TaskCall) (body : M W A) (w : W) :
  trace_of (task t body w) = EvTask t :: trace_of (body w).
Proof.
  unfold task, bind, emit, trace_of. destruct (body w) as [[r w1] t1]. reflexivity.
Qed.

Lemma task_result {W A} (t : TaskCall) (body : M W A) (w : W) :
  result_of (task t body w) = result_of (body w).
Proof.
  unfold task, bind, emit, result_of. destruct (body w) as [[r w1] t1]. reflexivity.
Qed.

Lemma task_world {W A} (t : TaskCall) (body : M W A) (w : W) :
  world_of (task t body w) = world_of (body w).
Proof.
  unfold task, bind, emit, world_of. destruct (body w) as [[r w1] t1]. reflexivity.
Qed.

Ltac emits_pass :=
  solve [ unfold passes; intros; simpl in *; first [ reflexivity | assumption | congruence ] ].

Ltac emits_step :=
  first
    [ apply emits_ret | apply emits_raise | apply emits_gets
    | apply emits_log | apply emits_emit | apply emits_call
    | apply emits_task | apply emits_for_each
    | apply emits_bind | apply emits_try_except
    | apply emits_try_bare | apply emits_try_client_error
    | match goal with
      | |- emits _ _ (match ?x with _ => _ end) => destruct x
      | |- emits _ _ (if ?x then _ else _) => destruct x
      end ].

Ltac emits_auto :=
  repeat first
    [ match goal with |- forall _, _ => intro end | emits_step | emits_pass ].

(** ** The tasks, one by one *)

Section Tasks.

Context {W : Type} {RT : PyRuntime}.
Context {SS : SecretStore W} {OS : ObjectStore W} {EX : Extractor W} {WH : Warehouse W}.

Lemma emits_with_cursor (Q P : Event -> bool) {A} (conn : M W unit) (body : M W A) :
  passes Q P EvClose -> emits Q P conn -> emits Q P body ->
  emits Q P (with_cursor conn body).
Proof.
  intros Hc Hconn Hbody. unfold with_cursor. apply emits_bind; [exact Hconn|].
  intros _ w. unfold trace_of. specialize (Hbody w). unfold trace_of in Hbody.
  destruct (body w) as [[r w1] t1]. simpl in *.
  rewrite !forallb_app, !andb_true_iff. simpl. rewrite !andb_true_r.
  intros [H1 H2]. auto.
Qed.

Lemma setup_is_provisioning :
  emits always provisioning_event setup_snowflake_infrastructure.
Proof.
  unfold setup_snowflake_infrastructure, get_snowflake_connection, _exec_sql.
  apply emits_task; [emits_pass|].
  apply emits_with_cursor; emits_auto.
Qed.

(** *** The SQL executor *)

Lemma exec_sql_run (sql desc : string) (w : W) :
  raised_are_Exceptions (trace_of (_exec_sql sql desc w)) = true ->
  result_of (_exec_sql sql desc w) = Ok tt /\
  forall ev e,
    In ev (trace_of (_exec_sql sql desc w)) -> raised_by ev = Some e ->
    In (EvLog WARNING ("Could not " ++ str_lower desc ++ ": " ++ exc_str e))
       (trace_of (_exec_sql sql desc w)).
Proof.
  unfold _exec_sql, try_except, bind, call, log, emit, gets, result_of, trace_of,
    raised_are_Exceptions, exception_ok.
  destruct (cur_execute sql None w) as [[[]|e1] w1]; simpl.
  - destruct (cur_fetchall w1) as [[j|e2] w2]; simpl.
    + intros _. split; [reflexivity|].
      intros ev e [<-|[<-|[<-|[<-|[<-|[]]]]]]; simpl; discriminate.
    + destruct (is_Exception e2) eqn:E2; simpl.
      * intros _. split; [reflexivity|].
        intros ev e [<-|[<-|[<-|[<-|[]]]]]; simpl; try discriminate.
        intros [= <-]. auto 10.
      * rewrite E2. simpl. discriminate.
  - destruct (is_Exception e1) eqn:E1; simpl.
    + intros _. split; [reflexivity|].
      intros ev e [<-|[<-|[<-|[]]]]; simpl; try discriminate.
      intros [= <-]. auto 10.
    + rewrite E1. discriminate.
Qed.

Lemma exec_sql_safe (sql desc : string) (w : W) :
  forallb exception_ok (trace_of (_exec_sql sql desc w)) = true ->
  exists a, result_of (_exec_sql sql desc w) = Ok a.
Proof. intros H. exists tt. apply (exec_sql_run sql desc w H). Qed.


(** The fallback of the table creation is not reached by a failing
    statement: on a run in which the warehouse raises only instances of
    [Exception], the unqualified CREATE TABLE is never executed. *)
Lemma setup_never_retries_unqualified :
  emits exception_ok (fun ev => negb (is_execute_of simple_table_sql ev))
        setup_snowflake_infrastructure.
Proof.
  unfold setup_snowflake_infrastructure, get_snowflake_connection.
  apply emits_task; [emits_pass|].
  apply emits_with_cursor; [emits_pass| emits_auto |].
  repeat (apply emits_bind; [unfold _exec_sql; emits_auto | intros _]).
  apply emits_try_bare_unreached; [unfold _exec_sql; emits_auto|].
  intros w. apply exec_sql_safe.
Qed.

(** *** Extraction *)

Ltac in_cases H :=
  simpl in H;
  repeat match type of H with
         | _ \/ _ => destruct H as [H|H]
         | False => destruct H
         end;
  try discriminate H.

Lemma extract_run (file_content : bytes) (file_key : string) (w : W) :
  (forall results,
      In (EvParse ("_" ++ file_key) file_content (Ok results))
         (trace_of (extract_document_content file_content file_key w)) ->
      result_of (extract_document_content file_content file_key w)
      = match results with
        | Some (first :: _) => Ok (formatted_result first file_content file_key)
        | _ => Raise (mkExc ValueError "Empty results")
        end) /\
  (forall j,
      result_of (extract_document_content file_content file_key w) = Ok j ->
      exists first rest,
        In (EvParse ("_" ++ file_key) file_content (Ok (Some (first :: rest))))
           (trace_of (extract_document_content file_content file_key w)) /\
        j = formatted_result first file_content file_key).
Proof.
  unfold extract_document_content, task, try_except, bind, call, log, emit, raise, ret,
    result_of, trace_of.
  destruct (secret_get "landing-ai-api-key" w) as [[[[|c key]|]|e0] w0]; simpl;
    try (split; [intros results H; in_cases H | intros j H; discriminate H]).
  destruct (agentic_parse _ file_content w0) as [[[[|first rest]|]|e1] w1]; simpl.
  - split; [intros results H; in_cases H; injection H as <-; reflexivity
           | intros j H; discriminate H].
  - split.
    + intros results H; in_cases H. injection H as <-. reflexivity.
    + intros j [= <-]. exists first, rest. split; [|reflexivity]. auto 10.
  - split; [intros results H; in_cases H; injection H as <-; reflexivity
           | intros j H; discriminate H].
  - destruct (is_Exception e1); simpl;
      (split; [intros results H; in_cases H | intros j H; discriminate H]).
Qed.

(** The text of every chunk is kept, entry by entry and in order. *)
Lemma chunk_texts (chunks : list Chunk) :
  map (jget "text") (map chunk_dict chunks)
  = map (fun chunk => Some (match c_text chunk with
                            | Some text => text
                            | None => JStr (c_str chunk)
                            end)) chunks.
Proof.
  induction chunks as [|chunk chunks IH]; [reflexivity|].
  cbn [map]. rewrite IH.
  unfold chunk_dict at 1. unfold attr_or. destruct (c_text chunk); reflexivity.
Qed.

(** C5, as amended.  When the extraction service answers with no results
    (an absent or an empty list), [extract_document_content] raises
    ValueError("Empty results") and returns nothing.  When it answers with
    a non-empty list, the function returns the record built from the first
    entry alone: its markdown (or [str(result)] when it has none), one
    entry per chunk of the first entry, in order and with the chunk's text,
    the file name and the number of bytes of the call, and the fixed
    metadata; the other entries of the list are not looked at.  The
    function returns in no other case.  (The record can be empty of
    content all the same, when the first entry is: see the scripted
    runs.) *)
Theorem extraction_of_no_results_raises (file_content : bytes) (file_key : string) (w : W) :
  (forall results,
      In (EvParse ("_" ++ file_key) file_content (Ok results))
         (trace_of (extract_document_content file_content file_key w)) ->
      results = None \/ results = Some [] ->
      result_of (extract_document_content file_content file_key w)
      = Raise (mkExc ValueError "Empty results")) /\
  (forall first rest,
      In (EvParse ("_" ++ file_key) file_content (Ok (Some (first :: rest))))
         (trace_of (extract_document_content file_content file_key w)) ->
      result_of (extract_document_content file_content file_key w)
      = Ok (JDict
              [("data",
                JDict
                  [("markdown", match d_markdown first with
                                | Some markdown => markdown
                                | None => JStr (d_str first)
                                end);
                   ("chunks", JList (match d_chunks first with
                                     | Some chunks => map chunk_dict chunks
                                     | None => []
                                     end));
                   ("extracted_schema",
                    JDict [("file_name", JStr file_key);
                           ("file_size", JInt (Z.of_nat (List.length file_content)))]);
                   ("extraction_metadata",
                    JDict [("timestamp", JStr "2025-06-06");
                           ("library", JStr "agentic-doc")])])]) /\
      forall chunks,
        d_chunks first = Some chunks ->
        map (jget "text") (map chunk_dict chunks)
        = map (fun chunk => Some (match c_text chunk with
                                  | Some text => text
                                  | None => JStr (c_str chunk)
                                  end)) chunks) /\
  (forall j,
      result_of (extract_document_content file_content file_key w) = Ok j ->
      exists first rest,
        In (EvParse ("_" ++ file_key) file_content (Ok (Some (first :: rest))))
           (trace_of (extract_document_content file_content file_key w))).
Proof.
  destruct (extract_run file_content file_key w) as [Hparse Hok]. split; [|split].
  - intros results Hin [-> | ->]; exact (Hparse _ Hin).
  - intros first rest Hin. split.
    + rewrite (Hparse _ Hin). unfold formatted_result, serializable_chunks, attr_or.
      destruct (d_markdown first), (d_chunks first); reflexivity.
    + intros chunks _. apply chunk_texts.
  - intros j Hj. destruct (Hok j Hj) as (first & rest & Hin & _).
    exists first, rest. exact Hin.
Qed.

(** C10.  Whatever the file, its bytes and the time of the run, a
    successful extraction carries the fixed extraction_metadata
    {"timestamp": "2025-06-06", "library": "agentic-doc"}. *)
Theorem extraction_metadata_is_a_literal (file_content : bytes) (file_key : string) (w : W)
    (j : Json) :
  result_of (extract_document_content file_content file_key w) = Ok j ->
  exists data,
    jget "data" j = Some data /\
    jget "extraction_metadata" data
    = Some (JDict [("timestamp", JStr "2025-06-06"); ("library", JStr "agentic-doc")]).
Proof.
  intros Hj. destruct (extract_run file_content file_key w) as [_ Hok].
  destruct (Hok j Hj) as (first & rest & _ & ->).
  unfold formatted_result. eexists. split; reflexivity.
Qed.

(** *** The steps of a run *)

Lemma steps_of_app (t1 t2 : list Event) :
  steps_of (t1 ++ t2)%list = (steps_of t1 ++ steps_of t2)%list.
Proof.
  induction t1 as [|ev t1 IH]; simpl; [reflexivity|].
  destruct (step_of ev); simpl; congruence.
Qed.

Lemma no_step_no_steps (t : list Event) : forallb no_step t = true -> steps_of t = [].
Proof.
  induction t as [|ev t IH]; simpl; [reflexivity|].
  unfold no_step at 1. destruct (step_of ev); simpl; [discriminate | exact IH].
Qed.

Lemma forallb_always (t : list Event) : forallb always t = true.
Proof. induction t; simpl; auto. Qed.

Lemma get_s3_file_steps (file_key : string) (w : W) :
  steps_of (trace_of (get_s3_file file_key w)) = [Download file_key].
Proof.
  unfold get_s3_file, task, bind, call, log, emit, ret, trace_of.
  destruct (s3_read_path file_key w) as [[content|e] w1]; reflexivity.
Qed.

Lemma extract_steps (file_content : bytes) (file_key : string) (w : W) :
  steps_of (trace_of (extract_document_content file_content file_key w))
  = [Extract file_key].
Proof.
  unfold extract_document_content, task, try_except, bind, call, log, emit, raise, ret,
    trace_of.
  destruct (secret_get "landing-ai-api-key" w) as [[[[|c key]|]|e0] w0]; simpl;
    try reflexivity.
  destruct (agentic_parse _ file_content w0) as [[[[|first rest]|]|e1] w1]; simpl;
    try reflexivity.
  destruct (is_Exception e1); reflexivity.
Qed.

Lemma load_body_no_step (file_key : string) (extracted_content : Json) :
  emits always no_step
    (with_cursor
       (get_snowflake_connection "PREFECT_WH" (Some "ai") (Some "AGENTIC_DOC_EXTRACTION"))
       (_exec_sql "USE DATABASE ai" "Use database" ;;
        _exec_sql "USE SCHEMA AGENTIC_DOC_EXTRACTION" "Use schema" ;;
        merge_with_fallback file_key (merge_params file_key extracted_content))).
Proof.
  unfold get_snowflake_connection, _exec_sql, merge_with_fallback.
  apply emits_with_cursor; emits_auto.
Qed.

Lemma load_steps (file_key : string) (extracted_content : Json) (w : W) :
  steps_of (trace_of (load_to_snowflake file_key extracted_content w)) = [Load file_key].
Proof.
  unfold load_to_snowflake. rewrite task_trace. simpl.
  rewrite (no_step_no_steps _
             (load_body_no_step file_key extracted_content w (forallb_always _))).
  reflexivity.
Qed.

(** One document: the steps made are a prefix of download, extraction,
    load, and all three when the document went through. *)
Lemma process_document_steps (file_key : string) (w : W) :
  (exists rest, [Download file_key; Extract file_key; Load file_key]
                = (steps_of (trace_of (process_document file_key w)) ++ rest)%list) /\
  (forall a, result_of (process_document file_key w) = Ok a ->
             steps_of (trace_of (process_document file_key w))
             = [Download file_key; Extract file_key; Load file_key]).
Proof.
  unfold process_document, task, bind, emit, log, result_of, trace_of.
  pose proof (get_s3_file_steps file_key w) as Hg. unfold trace_of in Hg.
  destruct (get_s3_file file_key w) as [[[content|e] w1] t1]; simpl in *.
  2:{ rewrite Hg. split; [eexists; reflexivity | discriminate]. }
  pose proof (extract_steps content file_key w1) as He. unfold trace_of in He.
  destruct (extract_document_content content file_key w1) as [[[j|e] w2] t2]; simpl in *.
  2:{ rewrite steps_of_app, Hg, He. split; [eexists; reflexivity | discriminate]. }
  pose proof (load_steps file_key j w2) as Hl. unfold trace_of in Hl.
  destruct (load_to_snowflake file_key j w2) as [[[[]|e] w3] t3]; simpl in *.
  - rewrite !steps_of_app, Hg, He, Hl. simpl. split; [exists []; reflexivity | reflexivity].
  - rewrite !steps_of_app, Hg, He, Hl. simpl. split; [exists []; reflexivity | discriminate].
Qed.

Lemma for_each_steps (files : list string) (w : W) :
  (exists rest, steps_for files
                = (steps_of (trace_of (for_each files process_document w)) ++ rest)%list) /\
  (forall a, result_of (for_each files process_document w) = Ok a ->
             steps_of (trace_of (for_each files process_document w)) = steps_for files).
Proof.
  revert w. induction files as [|k files IH]; intros w.
  - split; [exists []; reflexivity | reflexivity].
  - cbn [for_each steps_for flat_map]. fold (steps_for files).
    unfold bind, result_of, trace_of.
    destruct (process_document_steps k w) as [[rest Hp] Hok].
    unfold result_of, trace_of in *.
    destruct (process_document k w) as [[[[]|e] w1] t1]; simpl in *.
    + specialize (Hok tt eq_refl). destruct (IH w1) as [[rest' Hr] Hall].
      unfold result_of, trace_of in *.
      destruct (for_each files process_document w1) as [[r w2] t2]; simpl in *.
      rewrite steps_of_app, Hok. simpl. split.
      * exists rest'. rewrite Hr. reflexivity.
      * intros a Ha. rewrite (Hall a Ha). reflexivity.
    + split; [|discriminate]. exists (rest ++ steps_for files)%list.
      rewrite app_assoc, <- Hp. reflexivity.
Qed.

(** *** The driver *)

Arguments for_each : simpl never.

Lemma create_is_provisioning (bucket_name : string) :
  emits always provisioning_event (create_s3_bucket_if_not_exists bucket_name).
Proof. unfold create_s3_bucket_if_not_exists. emits_auto. Qed.

Lemma not_in_forallb (P : Event -> bool) (t : list Event) (ev : Event) :
  forallb P t = true -> P ev = false -> ~ In ev t.
Proof.
  intros Ht Hev Hin. rewrite forallb_forall in Ht. rewrite (Ht ev Hin) in Hev. discriminate.
Qed.

Lemma processing_never_lists (files : list string) :
  emits always (fun ev => negb (is_listing ev)) (for_each files process_document).
Proof.
  unfold process_document, get_s3_file, extract_document_content, load_to_snowflake,
    get_snowflake_connection, _exec_sql, merge_with_fallback.
  repeat first [ apply emits_with_cursor | emits_step | emits_pass
               | match goal with |- forall _, _ => intro end ].
Qed.

Ltac in_trace H :=
  repeat (simpl in H;
          match type of H with
          | _ \/ _ => destruct H as [H|H]
          | False => destruct H
          | In _ (_ ++ _) => apply in_app_or in H
          end);
  try discriminate H;
  try solve [exfalso; revert H; eapply not_in_forallb; [eassumption | reflexivity]].

Lemma provisioning_not_processing (t : list Event) :
  forallb provisioning_event t = true ->
  forallb (fun ev => negb (is_processing ev)) t = true.
Proof.
  rewrite !forallb_forall. intros H ev Hin. specialize (H ev Hin).
  unfold provisioning_event in H. apply andb_true_iff in H. apply H.
Qed.

(** The shape of a run of the driver in which the bucket was listed:
    provisioning and listing, then the pass over the files. *)
Lemma flow_after_listing (w : W) (objs : option (list S3Object)) :
  In (EvListObjects (Ok objs)) (trace_of (s3_to_snowflake_flow w)) ->
  exists (pre : list Event) (w1 : W),
    forallb (fun ev => negb (is_processing ev)) pre = true /\
    match objs with
    | Some (o :: os) =>
        result_of (s3_to_snowflake_flow w)
        = result_of (for_each (map Key (o :: os)) process_document w1) /\
        trace_of (s3_to_snowflake_flow w)
        = (pre ++ trace_of (for_each (map Key (o :: os)) process_document w1))%list
    | _ =>
        result_of (s3_to_snowflake_flow w) = Ok tt /\
        trace_of (s3_to_snowflake_flow w) = pre
    end.
Proof.
  unfold s3_to_snowflake_flow, list_s3_files, task, bind, call, log, emit, ret, raise,
    result_of, trace_of.
  destruct (secret_get "s3-bucket-name" w) as [[[[|c name]|]|e] w0];
    try solve [simpl; intros H; in_cases H].
  pose proof (create_is_provisioning (String c name) w0 (forallb_always _)) as P1.
  unfold trace_of in P1. revert P1.
  destruct (create_s3_bucket_if_not_exists (String c name) w0) as [[[[]|e1] w1] t1];
    simpl; intros P1; [|intros H; in_trace H].
  pose proof (setup_is_provisioning w1 (forallb_always _)) as P2.
  unfold trace_of in P2. revert P2.
  destruct (setup_snowflake_infrastructure w1) as [[[[]|e2] w2] t2]; simpl; intros P2;
    [|intros H; in_trace H].
  destruct (s3_bucket_load "default" w2) as [[[]|e3] w3]; simpl; [|intros H; in_trace H].
  destruct (s3_list_objects w3) as [[listed|e4] w4]; simpl; [|intros H; in_trace H].
  assert (Hpre : forall tail,
             forallb (fun ev => negb (is_processing ev)) tail = true ->
             forallb (fun ev => negb (is_processing ev))
                     (EvSecret "s3-bucket-name" (Ok (Some (String c name)))
                      :: EvLog INFO ("Processing bucket: " ++ String c name)
                      :: t1 ++ t2 ++ EvBucketLoad "default" (Ok tt)
                      :: EvTask T_list_s3_files :: EvListObjects (Ok listed) :: tail)%list
             = true).
  { intros tail Ht. simpl. rewrite !forallb_app. simpl.
    rewrite (provisioning_not_processing _ P1), (provisioning_not_processing _ P2), Ht.
    reflexivity. }
  destruct listed as [[|o os]|]; simpl.
  - intros H. in_trace H. injection H as <-.
    eexists. exists w4. split; [|split; reflexivity]. apply Hpre. reflexivity.
  - pose proof (processing_never_lists (Key o :: map Key os) w4 (forallb_always _)) as P5.
    unfold trace_of in P5. revert P5.
    destruct (for_each (Key o :: map Key os) process_document w4) as [[r5 w5] t5] eqn:E5.
    simpl. intros P5 H. in_trace H. injection H as <-.
    exists (EvSecret "s3-bucket-name" (Ok (Some (String c name)))
            :: EvLog INFO ("Processing bucket: " ++ String c name)
            :: t1 ++ t2 ++ EvBucketLoad "default" (Ok tt)
            :: EvTask T_list_s3_files :: EvListObjects (Ok (Some (o :: os)))
            :: [EvLog INFO ("S3 list_objects() returned: "
                            ++ fstr_objects (Some (o :: os)));
                EvLog INFO ("Found " ++ PyStr.of_nat (List.length (Key o :: map Key os))
                            ++ " files in S3 bucket: "
                            ++ fstr_strs (Key o :: map Key os));
                EvLog INFO ("Processing "
                            ++ PyStr.of_nat (List.length (Key o :: map Key os))
                            ++ " files sequentially")])%list.
    exists w4. split; [apply Hpre; reflexivity|].
    rewrite E5. simpl. split; [reflexivity|].
    repeat (rewrite <- ?app_assoc; simpl; f_equal).
  - intros H. in_trace H. injection H as <-.
    eexists. exists w4. split; [|split; reflexivity]. apply Hpre. reflexivity.
Qed.

(** C9.  When the secret "s3-bucket-name" is missing or empty, the driver
    raises ValueError("S3 bucket name is required") at once: the lookup of
    the secret is the only thing the run did, so no call reached the
    bucket or the warehouse. *)
Theorem missing_bucket_name_fails_fast (w : W) :
  fst (secret_get "s3-bucket-name" w) = Ok None \/
  fst (secret_get "s3-bucket-name" w) = Ok (Some "") ->
  result_of (s3_to_snowflake_flow w) = Raise (mkExc ValueError "S3 bucket name is required") /\
  trace_of (s3_to_snowflake_flow w)
  = [EvSecret "s3-bucket-name" (fst (secret_get "s3-bucket-name" w))] /\
  existsb touches_bucket_or_warehouse (trace_of (s3_to_snowflake_flow w)) = false.
Proof.
  unfold s3_to_snowflake_flow, bind, call, raise, result_of, trace_of.
  destruct (secret_get "s3-bucket-name" w) as [[[[|c name]|]|e] w0]; simpl;
    intros [H|H]; try discriminate H; auto.
Qed.

(** C7.  In a run whose bucket listing came back absent or empty, the
    driver returns normally and made no download, no extraction and no
    load: no such task was called and no such call reached a
    collaborator. *)
Theorem empty_listing_ends_the_run (w : W) (objs : option (list S3Object)) :
  In (EvListObjects (Ok objs)) (trace_of (s3_to_snowflake_flow w)) ->
  objs = None \/ objs = Some [] ->
  result_of (s3_to_snowflake_flow w) = Ok tt /\
  steps_of (trace_of (s3_to_snowflake_flow w)) = [] /\
  forallb (fun ev => negb (is_processing ev)) (trace_of (s3_to_snowflake_flow w)) = true.
Proof.
  intros Hin Hempty.
  destruct (flow_after_listing w objs Hin) as (pre & w1 & Hpre & Hrun).
  assert (Hr : result_of (s3_to_snowflake_flow w) = Ok tt /\
               trace_of (s3_to_snowflake_flow w) = pre)
    by (destruct Hempty as [-> | ->]; exact Hrun).
  destruct Hr as [Hr Ht]. rewrite Ht. split; [exact Hr|]. split; [|exact Hpre].
  apply no_step_no_steps. rewrite forallb_forall in *. intros ev Hev.
  specialize (Hpre ev Hev). unfold no_step.
  destruct ev as [[]| | | | | | | | | | | | | |]; simpl in *;
    first [reflexivity | discriminate].
Qed.

(** C8.  In a run whose bucket listing came back with keys, the steps made
    are always a prefix of download, extraction, load of the first key,
    then of the second, and so on in listing order; and when the run
    returns normally they are exactly that sequence: each step once per
    key, the steps of one key never among those of another. *)
Theorem files_are_processed_in_listing_order (w : W) (objs : list S3Object) :
  In (EvListObjects (Ok (Some objs))) (trace_of (s3_to_snowflake_flow w)) ->
  (exists rest,
      steps_for (map Key objs)
      = (steps_of (trace_of (s3_to_snowflake_flow w)) ++ rest)%list) /\
  (result_of (s3_to_snowflake_flow w) = Ok tt ->
   steps_of (trace_of (s3_to_snowflake_flow w)) = steps_for (map Key objs)).
Proof.
  intros Hin.
  destruct (flow_after_listing w (Some objs) Hin) as (pre & w1 & Hpre & Hrun).
  assert (Hnone : steps_of pre = []).
  { apply no_step_no_steps. rewrite forallb_forall in *. intros ev Hev.
    specialize (Hpre ev Hev). unfold no_step.
    destruct ev as [[]| | | | | | | | | | | | | |]; simpl in *;
      first [reflexivity | discriminate]. }
  destruct objs as [|o os].
  - destruct Hrun as [_ ->]. rewrite Hnone. split; [exists []; reflexivity | reflexivity].
  - destruct Hrun as [-> ->]. rewrite steps_of_app, Hnone. simpl app.
    destruct (for_each_steps (map Key (o :: os)) w1) as [Hprefix Hall].
    split; [exact Hprefix | apply Hall].
Qed.


(** *** The upsert loader *)

Lemma simple_sql_differs : simple_sql <> merge_sql.
Proof. vm_compute. discriminate. Qed.

Ltac merge_absurd H :=
  in_cases H;
  try solve [ injection H; intros;
              match goal with
              | E : simple_sql = merge_sql |- _ => destruct (simple_sql_differs E)
              end ].

Lemma no_merge_executes (t : list Event) :
  forallb no_merge t = true -> executes_of merge_sql t = 0 /\ executes_of simple_sql t = 0.
Proof.
  unfold executes_of. induction t as [|ev t IH]; simpl; [auto|].
  rewrite andb_true_iff. unfold no_merge at 1. rewrite andb_true_iff, !negb_true_iff.
  intros [[-> ->] Ht]. exact (IH Ht).
Qed.

Lemma executes_of_app (sql : string) (t1 t2 : list Event) :
  executes_of sql (t1 ++ t2)%list = executes_of sql t1 + executes_of sql t2.
Proof. unfold executes_of. rewrite filter_app, length_app. reflexivity. Qed.

Lemma merge_with_fallback_run (file_key : string) (params : list string) (w : W)
    (e : PyExc) :
  In (EvExecute merge_sql (Some params) (Raise e))
     (trace_of (merge_with_fallback file_key params w)) ->
  is_Exception e = true ->
  exists r2 post,
    trace_of (merge_with_fallback file_key params w)
    = ([ EvLog INFO ("Executing MERGE SQL: " ++ merge_sql);
         EvLog INFO ("MERGE parameters: " ++ fstr_strs params);
         EvExecute merge_sql (Some params) (Raise e);
         EvLog WARNING ("Qualified MERGE failed: " ++ exc_str e);
         EvLog INFO ("Trying simple MERGE: " ++ simple_sql);
         EvExecute simple_sql (Some params) r2 ] ++ post)%list /\
    forallb no_merge post = true /\
    (forall e2, r2 = Raise e2 ->
                result_of (merge_with_fallback file_key params w) = Raise e2).
Proof.
  unfold merge_with_fallback, try_except, bind, call, log, emit, gets, result_of, trace_of.
  destruct (cur_execute merge_sql (Some params) w) as [[[]|e1] w1]; simpl.
  - destruct (cur_fetchall w1) as [[j|e2] w2]; simpl; [intros H; merge_absurd H|].
    destruct (is_Exception e2); simpl; [|intros H; merge_absurd H].
    destruct (cur_execute simple_sql (Some params) w2) as [[[]|e3] w3]; simpl;
      [|intros H; merge_absurd H].
    destruct (cur_fetchall w3) as [[j|e4] w4]; simpl; intros H; merge_absurd H.
  - destruct (is_Exception e1) eqn:E1; simpl.
    + destruct (cur_execute simple_sql (Some params) w1) as [[[]|e3] w3]; simpl.
      * destruct (cur_fetchall w3) as [[j|e4] w4]; simpl;
          intros H _; merge_absurd H; injection H as <-; do 2 eexists;
          (split; [reflexivity|]; split; [reflexivity | discriminate]).
      * intros H _; merge_absurd H. injection H as <-.
        exists (Raise e3), []. split; [reflexivity|].
        split; [reflexivity|]. intros e2 [= <-]. reflexivity.
    + intros H He. merge_absurd H. injection H as <-. congruence.
Qed.

Lemma connection_no_merge (warehouse : string) (database schema : option string) :
  emits always no_merge (get_snowflake_connection warehouse database schema).
Proof. unfold get_snowflake_connection. emits_auto. Qed.

Lemma use_database_no_merge :
  emits always no_merge (_exec_sql "USE DATABASE ai" "Use database").
Proof. unfold _exec_sql. emits_auto. Qed.

Lemma use_schema_no_merge :
  emits always no_merge (_exec_sql "USE SCHEMA AGENTIC_DOC_EXTRACTION" "Use schema").
Proof. unfold _exec_sql. emits_auto. Qed.


End Tasks.

(** ** Shaping a chunk *)

(** C6, as amended.  A chunk without a type tag (no [chunk_type], or one
    without [value]) gets the type "text"; a chunk without grounding (none,
    or an empty list) gets no "grounding" key; a chunk with grounding gets
    one entry per grounding, in order, and an entry whose grounding has no
    box is kept with its page and without a "box" key.  The chunks of an
    extraction result are its chunks shaped this way. *)
Theorem chunk_dict_defaults (chunk : Chunk) :
  (c_chunk_type chunk = None \/ c_chunk_type chunk = Some None ->
   jget "chunk_type" (chunk_dict chunk) = Some (JStr "text")) /\
  (c_grounding chunk = None \/ c_grounding chunk = Some [] ->
   jget "grounding" (chunk_dict chunk) = None) /\
  (forall g gs, c_grounding chunk = Some (g :: gs) ->
   jget "grounding" (chunk_dict chunk) = Some (JList (map grounding_dict (g :: gs)))) /\
  (forall g, g_box g = None ->
   grounding_dict g = JDict [("page", attr_or (JInt 0) (g_page g))]) /\
  (forall result chunks file_content file_key, d_chunks result = Some chunks ->
   exists data,
     jget "data" (formatted_result result file_content file_key) = Some data /\
     jget "chunks" data = Some (JList (map chunk_dict chunks))).
Proof.
  unfold chunk_dict. repeat split.
  - intros [-> | ->]; reflexivity.
  - intros [-> | ->]; reflexivity.
  - intros g gs ->. reflexivity.
  - intros g Hg. unfold grounding_dict. rewrite Hg. reflexivity.
  - intros result chunks file_content file_key H. unfold formatted_result.
    eexists. split; [reflexivity|]. unfold serializable_chunks. rewrite H. reflexivity.
Qed.

(** C6 as first stated fails: a grounding without a box is not left out
    of the grounding list. *)
Lemma grounding_without_box_is_kept :
  jget "grounding"
       (chunk_dict (mkChunk (Some (JStr "Total: 42")) "Chunk" None None
                            (Some [mkGrounding (Some (JInt 3)) None])))
  = Some (JList [JDict [("page", JInt 3)]]).
Proof. reflexivity. Qed.

(** ** What a computation does to the state *)

Section Maintains.

Context {W : Type} (R : W -> W -> Prop).
Hypothesis R_refl : forall w, R w w.
Hypothesis R_trans : forall a b c, R a b -> R b c -> R a c.

Local Abbreviation maintains := (maintains R).

Lemma maintains_ret {A} (a : A) : maintains (ret a).
Proof. intros w. apply R_refl. Qed.

Lemma maintains_raise {A} (e : PyExc) : maintains (@raise W A e).
Proof. intros w. apply R_refl. Qed.

Lemma maintains_gets {A} (f : W -> A) : maintains (gets f).
Proof. intros w. apply R_refl. Qed.

Lemma maintains_log (lvl : Level) (msg : string) : maintains (@log W lvl msg).
Proof. intros w. apply R_refl. Qed.

Lemma maintains_call {A} (op : W -> Result A * W) (ev : Result A -> Event) :
  (forall w, R w (snd (op w))) -> maintains (call op ev).
Proof.
  intros H w. unfold call, world_of. specialize (H w).
  destruct (op w) as [r w']. exact H.
Qed.

Lemma maintains_bind {A B} (m : M W A) (k : A -> M W B) :
  maintains m -> (forall a, maintains (k a)) -> maintains (bind m k).
Proof.
  intros Hm Hk w. unfold bind, world_of. specialize (Hm w). unfold world_of in Hm.
  destruct (m w) as [[[a|e] w1] t1]; simpl in *; [|exact Hm].
  specialize (Hk a w1). unfold world_of in Hk.
  destruct (k a w1) as [[r w2] t2]. simpl in *. exact (R_trans _ _ _ Hm Hk).
Qed.

Lemma maintains_try_except {A} (body : M W A) (handler : PyExc -> M W A) :
  maintains body -> (forall e, maintains (handler e)) ->
  maintains (try_except body handler).
Proof.
  intros Hm Hk w. unfold try_except, world_of. specialize (Hm w). unfold world_of in Hm.
  destruct (body w) as [[[a|e] w1] t1]; simpl in *; [exact Hm|].
  destruct (is_Exception e); [|exact Hm].
  specialize (Hk e w1). unfold world_of in Hk.
  destruct (handler e w1) as [[r w2] t2]. simpl in *. exact (R_trans _ _ _ Hm Hk).
Qed.

Lemma maintains_task {A} (t : TaskCall) (body : M W A) :
  maintains body -> maintains (task t body).
Proof. intros H w. rewrite task_world. apply H. Qed.

Lemma maintains_with_cursor {WH : Warehouse W} {A}
    (conn : M W unit) (body : M W A) :
  (forall w, R w (sf_close w)) -> maintains conn -> maintains body ->
  maintains (with_cursor conn body).
Proof.
  intros Hc Hconn Hbody. unfold with_cursor. apply maintains_bind; [exact Hconn|].
  intros _ w. unfold world_of. specialize (Hbody w). unfold world_of in Hbody.
  destruct (body w) as [[r w1] t1]. simpl in *. exact (R_trans _ _ _ Hbody (Hc w1)).
Qed.

End Maintains.

Ltac maintains_step :=
  first
    [ apply maintains_ret | apply maintains_raise | apply maintains_gets
    | apply maintains_log | apply maintains_task | apply maintains_with_cursor
    | apply maintains_bind | apply maintains_try_except
    | match goal with |- forall _, _ => intro end ].

(** ** The upsert, on the warehouse table *)

Section Upsert.

Context {RT : PyRuntime}.

Import Snowflake.

Lemma matched_app (k : string) (d1 d2 : list DocRecord) :
  matched k (d1 ++ d2)%list = matched k d1 || matched k d2.
Proof. unfold matched. apply existsb_app. Qed.

Lemma upserted_refl (k : string) (c : Json) (st : State) : upserted k c st st.
Proof. left. split; reflexivity. Qed.

Lemma upserted_trans (k : string) (c : Json) (st1 st2 st3 : State) :
  upserted k c st1 st2 -> upserted k c st2 st3 -> upserted k c st1 st3.
Proof.
  intros [[D12 N12]|(M1 & D12 & N12)] [[D23 N23]|(M2 & D23 & N23)].
  - left. split; congruence.
  - right. rewrite D12 in M2. split; [exact M2|].
    unfold new_record in *. rewrite D23, D12, N23, N12. auto.
  - right. split; [exact M1|]. split; congruence.
  - exfalso. rewrite D12, matched_app in M2. simpl in M2.
    rewrite String.eqb_refl in M2. destruct (matched k (DOCS st1)); discriminate.
Qed.

Lemma pop_keeps (st : State) :
  DOCS (snd (pop st)) = DOCS st /\ next_id (snd (pop st)) = next_id st.
Proof. unfold pop. destruct (faults st); simpl; auto. Qed.

Lemma merge_upserted (k : string) (c : Json) (st : State) :
  upserted k c st (merge (Some (merge_params k c)) st).
Proof.
  unfold merge, merge_params. destruct (matched k (DOCS st)) eqn:E.
  - apply upserted_refl.
  - right. repeat split; auto.
Qed.

Lemma execute_upserted (k : string) (c : Json) (sql : string)
    (params : option (list string)) (st : State) :
  (is_merge sql = true -> params = Some (merge_params k c)) ->
  upserted k c st (snd (execute sql params st)).
Proof.
  intros Hp. unfold execute. destruct (pop_keeps st) as [HD HN].
  assert (Hpop : upserted k c st (snd (pop st))) by (left; auto).
  destruct (pop st) as [[e|] st']; simpl in *; [exact Hpop|].
  destruct (is_merge sql); [|exact Hpop].
  rewrite (Hp eq_refl). exact (upserted_trans _ _ _ _ _ Hpop (merge_upserted k c st')).
Qed.

Lemma attempt_upserted {A} (k : string) (c : Json) (a : A) (st : State) :
  upserted k c st (snd (attempt a st)).
Proof.
  unfold attempt. destruct (pop_keeps st) as [HD HN].
  destruct (pop st) as [[e|] st']; simpl in *; left; auto.
Qed.

Lemma load_upserted (k : string) (c : Json) :
  maintains (upserted k c) (load_to_snowflake k c).
Proof.
  unfold load_to_snowflake, get_snowflake_connection, _exec_sql, merge_with_fallback.
  repeat first
    [ exact (upserted_refl k c) | exact (upserted_trans k c)
    | maintains_step
    | apply maintains_call; intros st;
      first [ apply attempt_upserted
            | apply execute_upserted; first [ discriminate | reflexivity ] ] ].
Qed.

Lemma matched_false_not_in (k : string) (docs : list DocRecord) :
  matched k docs = false -> ~ In k (map FILE_PATH docs).
Proof.
  unfold matched. induction docs as [|d docs IH]; simpl; [auto|].
  rewrite orb_false_iff. intros [Hd Hrest] [Hin|Hin].
  - rewrite Hin, String.eqb_refl in Hd. discriminate.
  - exact (IH Hrest Hin).
Qed.

Lemma unmatched_filter_nil (k : string) (docs : list DocRecord) :
  matched k docs = false -> filter (fun d => String.eqb (FILE_PATH d) k) docs = [].
Proof.
  unfold matched. induction docs as [|d docs IH]; simpl; [auto|].
  rewrite orb_false_iff. intros [-> Hrest]. exact (IH Hrest).
Qed.

Lemma matched_once (k : string) (docs : list DocRecord) :
  NoDup (map FILE_PATH docs) -> matched k docs = true ->
  List.length (filter (fun d => String.eqb (FILE_PATH d) k) docs) = 1.
Proof.
  induction docs as [|d docs IH]; simpl; [discriminate|].
  intros Hnd. inversion Hnd as [|p ps Hnotin Hnd' E]; subst.
  destruct (String.eqb (FILE_PATH d) k) eqn:E; simpl.
  - intros _. apply String.eqb_eq in E. subst k.
    rewrite unmatched_filter_nil; [reflexivity|].
    unfold matched. destruct (existsb _ docs) eqn:Ex; [|reflexivity].
    exfalso. apply existsb_exists in Ex. destruct Ex as (d' & Hin & Heq).
    apply String.eqb_eq in Heq. apply Hnotin. rewrite <- Heq. apply in_map, Hin.
  - intros Hm. apply IH; assumption.
Qed.

Lemma upserted_paths (k : string) (c : Json) (st st' : State) :
  upserted k c st st' -> NoDup (paths st) -> NoDup (paths st').
Proof.
  unfold paths. intros [[D _]|(M & D & _)] Hnd; rewrite D; [exact Hnd|].
  rewrite map_app. simpl. apply NoDup_app; [exact Hnd | repeat constructor; auto |].
  intros p Hp [<-|[]]. exact (matched_false_not_in _ _ M Hp).
Qed.

Lemma run_loads_paths (calls : list (string * Json)) (st : State) :
  NoDup (paths st) -> NoDup (paths (run_loads calls st)).
Proof.
  revert st. induction calls as [|[k c] calls IH]; intros st Hnd; simpl; [exact Hnd|].
  apply IH. exact (upserted_paths k c _ _ (load_upserted k c st) Hnd).
Qed.

(** A MERGE that went through leaves a row with the file path. *)
Lemma execute_merge_matched (k : string) (c : Json) (sql : string) (st st' : State) :
  is_merge sql = true ->
  execute sql (Some (merge_params k c)) st = (Ok tt, st') ->
  matched k (DOCS st') = true.
Proof.
  intros Hsql. unfold execute. destruct (pop st) as [[e|] st1]; [discriminate|].
  rewrite Hsql. intros [= <-]. unfold merge, merge_params.
  destruct (matched k (DOCS st1)) eqn:E; [exact E|].
  simpl. rewrite matched_app. simpl. rewrite String.eqb_refl, orb_true_r. reflexivity.
Qed.

Lemma upserted_matched (k : string) (c : Json) (st st' : State) :
  upserted k c st st' -> matched k (DOCS st) = true -> matched k (DOCS st') = true.
Proof.
  intros [[D _]|(M & _)] H; [rewrite D; exact H | congruence].
Qed.

Lemma attempt_docs {A} (a : A) (st : State) : DOCS (snd (attempt a st)) = DOCS st.
Proof.
  unfold attempt. destruct (pop_keeps st) as [HD _].
  destruct (pop st) as [[e|] st']; exact HD.
Qed.

Lemma merge_with_fallback_matched (k : string) (c : Json) (st : State) :
  result_of (merge_with_fallback k (merge_params k c) st) = Ok tt ->
  matched k (DOCS (world_of (merge_with_fallback k (merge_params k c) st))) = true.
Proof.
  unfold merge_with_fallback, try_except, bind, call, log, emit, gets, result_of, world_of.
  cbn [cur_execute cur_fetchall cur_rowcount warehouse].
  destruct (execute merge_sql (Some (merge_params k c)) st) as [[[]|e1] st1] eqn:E1; simpl.
  - apply execute_merge_matched in E1; [|reflexivity].
    pose proof (attempt_docs (JList []) st1) as D1.
    destruct (attempt (JList []) st1) as [[j|e2] st2]; simpl in *.
    + intros _. congruence.
    + destruct (is_Exception e2); simpl; [|discriminate].
      destruct (execute simple_sql (Some (merge_params k c)) st2) as [[[]|e3] st3] eqn:E3;
        simpl; [|discriminate].
      apply execute_merge_matched in E3; [|reflexivity].
      pose proof (attempt_docs (JList []) st3) as D3.
      destruct (attempt (JList []) st3) as [[j|e4] st4]; simpl in *;
        [intros _; congruence | discriminate].
  - destruct (is_Exception e1); simpl; [|discriminate].
    destruct (execute simple_sql (Some (merge_params k c)) st1) as [[[]|e3] st3] eqn:E3;
      simpl; [|discriminate].
    apply execute_merge_matched in E3; [|reflexivity].
    pose proof (attempt_docs (JList []) st3) as D3.
    destruct (attempt (JList []) st3) as [[j|e4] st4]; simpl in *;
      [intros _; congruence | discriminate].
Qed.

(** A load that returns leaves a row with the file path. *)
Lemma load_matched (k : string) (c : Json) (st : State) :
  result_of (load_to_snowflake k c st) = Ok tt ->
  matched k (DOCS (world_of (load_to_snowflake k c st))) = true.
Proof.
  unfold load_to_snowflake. rewrite task_result, task_world.
  unfold with_cursor, bind, result_of, world_of.
  destruct (get_snowflake_connection "PREFECT_WH" (Some "ai")
              (Some "AGENTIC_DOC_EXTRACTION") st) as [[[[]|e0] st0] t0];
    simpl; [|discriminate].
  destruct (_exec_sql "USE DATABASE ai" "Use database" st0) as [[[[]|e1] st1] t1];
    simpl; [|discriminate].
  destruct (_exec_sql "USE SCHEMA AGENTIC_DOC_EXTRACTION" "Use schema" st1)
    as [[[[]|e2] st2] t2]; simpl; [|discriminate].
  pose proof (merge_with_fallback_matched k c st2) as Hm.
  unfold result_of, world_of in Hm. revert Hm.
  destruct (merge_with_fallback k (merge_params k c) st2) as [[[[]|e3] st3] t3];
    simpl; [auto | discriminate].
Qed.


End Upsert.

(** * Scripted runs *)

Ltac in_now := vm_compute; repeat first [ left; reflexivity | right ].



(** C3.  On a session whose qualified CREATE TABLE raises, provisioning
    returns normally with the warning of [_exec_sql] in the log; the
    qualified statement was executed once and the unqualified one, which is
    the qualified one with "ai.AGENTIC_DOC_EXTRACTION." removed, never. *)
Theorem failing_qualified_create_is_not_retried :
  result_of (setup_snowflake_infrastructure
               (Mock.failing_on (String.eqb table_sql)
                                (mkExc ProgrammingError "Qualified table error") []))
  = Ok tt /\
  executes_of table_sql
    (trace_of (setup_snowflake_infrastructure
                 (Mock.failing_on (String.eqb table_sql)
                                  (mkExc ProgrammingError "Qualified table error") [])))
  = 1 /\
  executes_of simple_table_sql
    (trace_of (setup_snowflake_infrastructure
                 (Mock.failing_on (String.eqb table_sql)
                                  (mkExc ProgrammingError "Qualified table error") [])))
  = 0 /\
  In (EvLog WARNING "Could not create qualified table: Qualified table error")
     (trace_of (setup_snowflake_infrastructure
                  (Mock.failing_on (String.eqb table_sql)
                                   (mkExc ProgrammingError "Qualified table error") []))) /\
  PyStr.startswith "CREATE TABLE IF NOT EXISTS DOCS (" simple_table_sql = true.
Proof.
  split; [reflexivity|]. split; [reflexivity|]. split; [reflexivity|].
  split; [in_now | reflexivity].
Qed.

(** The second CREATE TABLE is reached only by what [except Exception]
    lets through. *)
Lemma interrupted_qualified_create_is_retried :
  executes_of simple_table_sql
    (trace_of (setup_snowflake_infrastructure
                 (Mock.failing_on (String.eqb table_sql)
                                  (mkExc KeyboardInterrupt "") [])))
  = 1.
Proof. reflexivity. Qed.


(** When the unqualified MERGE raises too, the load raises that exception. *)
Lemma both_merges_failing_raises :
  result_of (load_to_snowflake "test.pdf" JNull
               (Mock.failing_on (fun sql => String.eqb merge_sql sql || String.eqb simple_sql sql)
                                (mkExc ProgrammingError "Table DOCS does not exist") []))
  = Raise (mkExc ProgrammingError "Table DOCS does not exist").
Proof. reflexivity. Qed.

(** An extraction on a service that answers with one document. *)
Lemma extraction_metadata_is_a_literal_witness :
  exists data,
    jget "data" (formatted_result Mock.doc1 [] "test.pdf") = Some data /\
    jget "extraction_metadata" data
    = Some (JDict [("timestamp", JStr "2025-06-06"); ("library", JStr "agentic-doc")]).
Proof.
  exact (extraction_metadata_is_a_literal [] "test.pdf" (Mock.happy [])
           (formatted_result Mock.doc1 [] "test.pdf") eq_refl).
Defined.

(** An empty bucket, as in [test_s3_to_snowflake_flow_no_files]. *)
Lemma empty_listing_ends_the_run_witness :
  result_of (s3_to_snowflake_flow (Mock.happy [])) = Ok tt /\
  steps_of (trace_of (s3_to_snowflake_flow (Mock.happy []))) = [] /\
  forallb (fun ev => negb (is_processing ev))
          (trace_of (s3_to_snowflake_flow (Mock.happy []))) = true.
Proof.
  apply (empty_listing_ends_the_run (Mock.happy []) (Some [])).
  - in_now.
  - right. reflexivity.
Defined.

(** A bucket with two keys: the run returns and makes the six steps. *)
Lemma files_are_processed_in_listing_order_witness :
  steps_of (trace_of (s3_to_snowflake_flow (Mock.happy ["a.pdf"; "b.jpg"])))
  = [ Download "a.pdf"; Extract "a.pdf"; Load "a.pdf";
      Download "b.jpg"; Extract "b.jpg"; Load "b.jpg" ].
Proof.
  apply (files_are_processed_in_listing_order
           (Mock.happy ["a.pdf"; "b.jpg"]) [mkObj "a.pdf" JNull; mkObj "b.jpg" JNull]).
  - in_now.
  - reflexivity.
Defined.

(** A run aborted at the first download stops after that step. *)
Lemma failed_download_stops_the_run :
  steps_of
    (trace_of (s3_to_snowflake_flow
                 {| Mock.secrets := Mock.secrets (Mock.happy ["a.pdf"; "b.jpg"]);
                    Mock.head_bucket := fun _ => Ok JNull;
                    Mock.create_bucket := fun _ => Ok JNull;
                    Mock.bucket_block := Ok tt;
                    Mock.objects := Mock.objects (Mock.happy ["a.pdf"; "b.jpg"]);
                    Mock.read_path := fun _ => Raise (mkExc (ClientError "NoSuchKey" JNull) "");
                    Mock.parse := fun _ => Ok None;
                    Mock.credentials := Ok tt;
                    Mock.connect := Ok tt;
                    Mock.execute := fun _ => Ok tt;
                    Mock.fetchall := Ok (JList []);
                    Mock.rowcount := JInt 0 |}))
  = [ Download "a.pdf" ].
Proof. reflexivity. Qed.

(** No bucket name, as in [test_s3_to_snowflake_flow_missing_bucket_name]. *)
Lemma missing_bucket_name_fails_fast_witness :
  result_of (s3_to_snowflake_flow
               {| Mock.secrets := fun _ => Ok None;
                  Mock.head_bucket := fun _ => Ok JNull;
                  Mock.create_bucket := fun _ => Ok JNull;
                  Mock.bucket_block := Ok tt;
                  Mock.objects := Ok None;
                  Mock.read_path := fun _ => Ok [];
                  Mock.parse := fun _ => Ok None;
                  Mock.credentials := Ok tt;
                  Mock.connect := Ok tt;
                  Mock.execute := fun _ => Ok tt;
                  Mock.fetchall := Ok (JList []);
                  Mock.rowcount := JInt 0 |})
  = Raise (mkExc ValueError "S3 bucket name is required").
Proof.
  refine (proj1 (missing_bucket_name_fails_fast _ _)). left. reflexivity.
Defined.

(** No results from the service, as in
    [test_extract_document_content_empty_results]; and two results, of
    which the first is the document of
    [test_extract_document_content_success]. *)
Lemma extraction_of_no_results_raises_witness :
  result_of (extract_document_content [Byte.x25] "test.pdf" (Scenario.answering (Some [])))
  = Raise (mkExc ValueError "Empty results") /\
  result_of (extract_document_content [Byte.x25] "test.pdf"
               (Scenario.answering (Some [Mock.doc1; Scenario.blank_doc])))
  = Ok (JDict
          [("data",
            JDict
              [("markdown", JStr "# Test Document");
               ("chunks",
                JList [JDict [("text", JStr "Test document content");
                              ("chunk_type", JStr "text");
                              ("chunk_id", JStr "chunk_1")]]);
               ("extracted_schema",
                JDict [("file_name", JStr "test.pdf"); ("file_size", JInt 1)]);
               ("extraction_metadata",
                JDict [("timestamp", JStr "2025-06-06");
                       ("library", JStr "agentic-doc")])])]).
Proof.
  split.
  - refine (proj1 (extraction_of_no_results_raises _ _ _) (Some []) _ _).
    + in_now.
    + right. reflexivity.
  - refine (proj1 (proj1 (proj2 (extraction_of_no_results_raises _ _ _))
                     Mock.doc1 [Scenario.blank_doc] _)).
    in_now.
Defined.

(** C5 as first stated fails in its middle part: a record is built with
    empty content when the service answers with a result that has an empty
    markdown and no chunks. *)
Lemma blank_first_result_gives_an_empty_record :
  result_of (extract_document_content [Byte.x25] "test.pdf"
               (Scenario.answering (Some [Scenario.blank_doc])))
  = Ok (JDict
          [("data",
            JDict
              [("markdown", JStr "");
               ("chunks", JList []);
               ("extracted_schema",
                JDict [("file_name", JStr "test.pdf"); ("file_size", JInt 1)]);
               ("extraction_metadata",
                JDict [("timestamp", JStr "2025-06-06");
                       ("library", JStr "agentic-doc")])])]).
Proof. reflexivity. Qed.


Lemma loading_a_path_twice_keeps_one_row :
  Snowflake.DOCS
    (Snowflake.run_loads [("folder/a.pdf", JNull); ("folder/a.pdf", JStr "again")]
                         (Snowflake.mkState [] 1 []))
  = [ Snowflake.mkRecord 1 "a.pdf" "folder/a.pdf" (Snowflake.PARSE_JSON "<json>") ].
Proof. reflexivity. Qed.

(** * More of the flow *)

Ltac trace_cases H :=
  repeat (simpl in H;
          match type of H with
          | _ \/ _ => destruct H as [H|H]
          | False => destruct H
          | In _ (_ ++ _) => apply in_app_or in H
          end);
  try discriminate H.

(** ** The file name of a key *)

Lemma split_not_nil (sep : ascii) (s : string) : PyStr.split sep s <> [].
Proof.
  induction s as [|c s IH]; simpl; [discriminate|].
  destruct (Ascii.eqb c sep); [discriminate|].
  destruct (PyStr.split sep s); discriminate.
Qed.

Lemma last_cons_cons {A} (x y : A) (l : list A) (d : A) :
  List.last (x :: y :: l) d = List.last (y :: l) d.
Proof. reflexivity. Qed.

Lemma split_without_sep (s : string) :
  PyStr.contains "/" s = false -> PyStr.split "/"%char s = [s].
Proof.
  induction s as [|c s IH]; [reflexivity|].
  cbn [PyStr.contains PyStr.startswith PyStr.split].
  rewrite (Ascii.eqb_sym c). destruct (Ascii.eqb "/" c); [discriminate|].
  intros H. rewrite (IH H). reflexivity.
Qed.

Lemma split_pieces_without_sep (s : string) :
  Forall (fun piece => PyStr.contains "/" piece = false) (PyStr.split "/"%char s).
Proof.
  induction s as [|c s IH]; [repeat constructor|].
  cbn [PyStr.split]. destruct (Ascii.eqb c "/") eqn:E.
  - constructor; [reflexivity | exact IH].
  - rewrite Ascii.eqb_sym in E.
    destruct (PyStr.split "/"%char s) as [|p ps] eqn:Es.
    + constructor; [|constructor].
      cbn [PyStr.contains PyStr.startswith]. rewrite E. reflexivity.
    + inversion IH as [|p' ps' Hp Hps]; subst. constructor; [|exact Hps].
      cbn [PyStr.contains PyStr.startswith]. rewrite E. exact Hp.
Qed.

Lemma split_after_sep (dir name : string) :
  exists first rest,
    PyStr.split "/"%char (dir ++ "/" ++ name)
    = (first :: rest ++ PyStr.split "/"%char name)%list.
Proof.
  induction dir as [|c dir (first & rest & IH)].
  - exists "", []. reflexivity.
  - change (String c dir ++ "/" ++ name) with (String c (dir ++ "/" ++ name)).
    cbn [PyStr.split]. rewrite IH. destruct (Ascii.eqb c "/").
    + exists "", (first :: rest). reflexivity.
    + exists (String c first), rest. reflexivity.
Qed.

Lemma last_app_nonempty {A} (l1 l2 : list A) (d : A) :
  l2 <> [] -> List.last (l1 ++ l2) d = List.last l2 d.
Proof.
  intros H. induction l1 as [|x l1 IH]; [reflexivity|].
  simpl app. destruct (l1 ++ l2)%list eqn:E.
  - destruct l1; [simpl in E; contradiction | discriminate].
  - rewrite last_cons_cons. exact IH.
Qed.

(** X1.  The FILE_NAME of a load, [file_key.split('/')[-1]], never holds a
    slash; it is the key itself when the key has no slash, and it is
    [name] for the key [dir/name] when [name] has no slash. *)
Theorem file_name_is_the_last_path_segment (file_key : string) :
  PyStr.contains "/" (PyStr.last_segment file_key) = false /\
  (PyStr.contains "/" file_key = false -> PyStr.last_segment file_key = file_key) /\
  (forall dir name,
      file_key = dir ++ "/" ++ name -> PyStr.contains "/" name = false ->
      PyStr.last_segment file_key = name).
Proof.
  unfold PyStr.last_segment. split; [|split].
  - pose proof (split_pieces_without_sep file_key) as H.
    pose proof (split_not_nil "/" file_key) as Hn.
    destruct (PyStr.split "/"%char file_key) as [|p ps]; [contradiction|].
    rewrite Forall_forall in H. apply H.
    destruct (exists_last (l:=p :: ps)) as (l' & a & E); [discriminate|].
    rewrite E, last_last. apply in_or_app. right. left. reflexivity.
  - intros H. rewrite (split_without_sep _ H). reflexivity.
  - intros dir name -> Hname.
    destruct (split_after_sep dir name) as (first & rest & E). rewrite E.
    change (first :: rest ++ PyStr.split "/"%char name)%list
      with ((first :: rest) ++ PyStr.split "/"%char name)%list.
    rewrite last_app_nonempty by apply split_not_nil.
    rewrite (split_without_sep _ Hname). reflexivity.
Qed.

(** ** Listing, the bucket check, the connection, the extraction errors *)

Section Collaborators.

Context {W : Type} {RT : PyRuntime}.
Context {SS : SecretStore W} {OS : ObjectStore W} {EX : Extractor W} {WH : Warehouse W}.

(** X2.  [list_s3_files] asks for the listing once; it returns the keys of
    the listed objects in their order, an absent listing as the empty
    list, and raises what the listing raised. *)
Theorem list_s3_files_returns_the_keys (w : W) :
  (forall objs,
      fst (s3_list_objects w) = Ok objs ->
      result_of (list_s3_files w)
      = Ok (match objs with Some listed => map Key listed | None => [] end)) /\
  (forall e, fst (s3_list_objects w) = Raise e -> result_of (list_s3_files w) = Raise e) /\
  List.length (filter is_listing (trace_of (list_s3_files w))) = 1.
Proof.
  unfold list_s3_files, task, bind, call, log, emit, ret, result_of, trace_of.
  destruct (s3_list_objects w) as [[[[|o os]|]|e] w1]; simpl;
    (split; [intros objs H; inversion H; reflexivity|]);
    (split; [intros e' H; inversion H; reflexivity | reflexivity]).
Qed.

(** X3.  [create_s3_bucket_if_not_exists] creates the bucket only after
    [head_bucket] raised a ClientError with code 404, and then it does;
    a bucket that answers is left alone; any other error of the check is
    raised as it came, with no bucket created. *)
Theorem bucket_is_created_only_on_404 (bucket_name : string) (w : W) :
  (forall r,
      In (EvCreateBucket bucket_name r)
         (trace_of (create_s3_bucket_if_not_exists bucket_name w)) ->
      exists e,
        In (EvHeadBucket bucket_name (Raise e))
           (trace_of (create_s3_bucket_if_not_exists bucket_name w)) /\
        client_error_code e = Some "404" /\
        result_of (create_s3_bucket_if_not_exists bucket_name w)
        = match r with Ok _ => Ok tt | Raise e' => Raise e' end) /\
  (forall e,
      In (EvHeadBucket bucket_name (Raise e))
         (trace_of (create_s3_bucket_if_not_exists bucket_name w)) ->
      (client_error_code e = Some "404" ->
       exists r, In (EvCreateBucket bucket_name r)
                    (trace_of (create_s3_bucket_if_not_exists bucket_name w))) /\
      (client_error_code e <> Some "404" ->
       result_of (create_s3_bucket_if_not_exists bucket_name w) = Raise e /\
       forall r, ~ In (EvCreateBucket bucket_name r)
                      (trace_of (create_s3_bucket_if_not_exists bucket_name w)))) /\
  (forall response,
      In (EvHeadBucket bucket_name (Ok response))
         (trace_of (create_s3_bucket_if_not_exists bucket_name w)) ->
      result_of (create_s3_bucket_if_not_exists bucket_name w) = Ok tt /\
      forall r, ~ In (EvCreateBucket bucket_name r)
                     (trace_of (create_s3_bucket_if_not_exists bucket_name w))).
Proof.
  unfold create_s3_bucket_if_not_exists, task, try_client_error, bind, call, log, emit,
    raise, result_of, trace_of.
  destruct (secret_get "aws-access-key-id" w) as [[ak|e0] w0]; simpl.
  2:{ repeat split; intros; trace_cases H. }
  destruct (secret_get "aws-secret-access-key" w0) as [[sk|e1] w1]; simpl.
  2:{ repeat split; intros; trace_cases H. }
  destruct (s3_head_bucket bucket_name w1) as [[response|e] w2]; simpl.
  { split; [intros r H; trace_cases H|].
    split; [intros e H; trace_cases H|].
    intros response' H. split; [reflexivity|]. intros r H'. trace_cases H'. }
  destruct (client_error_code e) as [code|] eqn:Ecode; simpl.
  2:{ split; [intros r H; trace_cases H|].
      split; [|intros response' H; trace_cases H].
      intros e' H. trace_cases H. injection H as <-.
      split; [rewrite Ecode; discriminate|].
      intros _. split; [reflexivity|]. intros r H'. trace_cases H'. }
  destruct (String.eqb code "404") eqn:E404; simpl.
  - apply String.eqb_eq in E404. subst code.
    destruct (s3_create_bucket bucket_name w2) as [[created|e'] w3]; simpl.
    + split.
      * intros r H. trace_cases H. injection H as <-.
        exists e. repeat split; auto 10.
      * split; [|intros response' H; trace_cases H].
        intros e'' H. trace_cases H. injection H as <-.
        split; [intros _; eexists; auto 10 | intros Hne; congruence].
    + split.
      * intros r H. trace_cases H. injection H as <-.
        exists e. repeat split; auto 10.
      * split; [|intros response' H; trace_cases H].
        intros e'' H. trace_cases H. injection H as <-.
        split; [intros _; eexists; auto 10 | intros Hne; congruence].
  - apply String.eqb_neq in E404.
    split; [intros r H; trace_cases H|].
    split; [|intros response' H; trace_cases H].
    intros e' H. trace_cases H. injection H as <-.
    split; [intros H404; congruence|].
    intros _. split; [reflexivity|]. intros r H'. trace_cases H'.
Qed.

(** X4.  [get_snowflake_connection]: when loading the credentials raises, no
    connection is attempted; when connecting raises, the exception is
    raised again as it came, after an ERROR record with its text when it
    is an instance of [Exception]; the function returns exactly when the
    connection opened. *)
Theorem connection_failure_is_logged_and_raised_again (warehouse : string)
    (database schema : option string) (w : W) :
  (forall e,
      In (EvCredentials (Raise e))
         (trace_of (get_snowflake_connection warehouse database schema w)) ->
      get_snowflake_connection warehouse database schema w
      = (Raise e, snd (sf_credentials w), [EvCredentials (Raise e)])) /\
  (forall e,
      In (EvConnect warehouse database schema (Raise e))
         (trace_of (get_snowflake_connection warehouse database schema w)) ->
      result_of (get_snowflake_connection warehouse database schema w) = Raise e /\
      (is_Exception e = true ->
       List.last (trace_of (get_snowflake_connection warehouse database schema w)) EvClose
       = EvLog ERROR ("💩 Failed to connect to Snowflake: " ++ exc_str e))) /\
  (result_of (get_snowflake_connection warehouse database schema w) = Ok tt <->
   In (EvConnect warehouse database schema (Ok tt))
      (trace_of (get_snowflake_connection warehouse database schema w))).
Proof.
  unfold get_snowflake_connection, try_except, bind, call, log, emit, raise,
    result_of, trace_of.
  destruct (sf_credentials w) as [[[]|e0] w0]; simpl.
  2:{ split; [intros e H; trace_cases H; injection H as <-; reflexivity|].
      split; [intros e H; trace_cases H|].
      split; [discriminate | intros H; trace_cases H]. }
  destruct (sf_connect warehouse database schema w0) as [[[]|e1] w1]; simpl.
  { split; [intros e H; trace_cases H|].
    split; [intros e H; trace_cases H|].
    split; [intros _; auto | reflexivity]. }
  destruct (is_Exception e1) eqn:E1; simpl.
  - split; [intros e H; trace_cases H|].
    split; [|split; [discriminate | intros H; trace_cases H]].
    intros e H. trace_cases H. injection H as <-. split; reflexivity.
  - split; [intros e H; trace_cases H|].
    split; [|split; [discriminate | intros H; trace_cases H]].
    intros e H. trace_cases H. injection H as <-. split; [reflexivity | congruence].
Qed.

(** X5.  Without an API key ([None] or the empty string) the extraction raises
    ValueError("Landing AI API key is required") before anything else: the
    key is not exported and the service is not called. *)
Theorem extraction_needs_the_api_key (file_content : bytes) (file_key : string) (w : W) :
  fst (secret_get "landing-ai-api-key" w) = Ok None \/
  fst (secret_get "landing-ai-api-key" w) = Ok (Some "") ->
  result_of (extract_document_content file_content file_key w)
  = Raise (mkExc ValueError "Landing AI API key is required") /\
  trace_of (extract_document_content file_content file_key w)
  = [ EvTask (T_extract_document_content file_content file_key);
      EvSecret "landing-ai-api-key" (fst (secret_get "landing-ai-api-key" w)) ].
Proof.
  unfold extract_document_content, task, bind, call, emit, raise, result_of, trace_of.
  destruct (secret_get "landing-ai-api-key" w) as [[[[|c key]|]|e0] w0]; simpl;
    intros [H|H]; try discriminate H; auto.
Qed.

(** X6.  Once the service has been called, every way the extraction fails with
    an instance of [Exception] (the service raised, or it answered no
    results) ends with an ERROR record "Landing AI library failed: ..."
    carrying the text of the exception that is then raised. *)
Theorem extraction_failure_is_logged_and_raised_again (file_content : bytes)
    (file_key : string) (w : W) (e : PyExc) :
  (exists r, In (EvParse ("_" ++ file_key) file_content r)
                (trace_of (extract_document_content file_content file_key w))) ->
  result_of (extract_document_content file_content file_key w) = Raise e ->
  is_Exception e = true ->
  List.last (trace_of (extract_document_content file_content file_key w)) EvClose
  = EvLog ERROR ("Landing AI library failed: " ++ exc_str e).
Proof.
  unfold extract_document_content, task, try_except, bind, call, log, emit, raise, ret,
    result_of, trace_of.
  destruct (secret_get "landing-ai-api-key" w) as [[[[|c key]|]|e0] w0]; simpl;
    try solve [intros [r H]; trace_cases H].
  destruct (agentic_parse _ file_content w0) as [[[[|first rest]|]|e1] w1]; simpl.
  - intros _ [= <-] _. reflexivity.
  - intros _ H. discriminate H.
  - intros _ [= <-] _. reflexivity.
  - destruct (is_Exception e1) eqn:E1; simpl.
    + intros _ [= <-] _. reflexivity.
    + intros _ [= <-] He. congruence.
Qed.

End Collaborators.

(** ** Provisioning and loading, statement by statement *)

Section Statements.

Context {W : Type} {RT : PyRuntime} {WH : Warehouse W}.

Lemma statements_of_app (t1 t2 : list Event) :
  statements_of (t1 ++ t2)%list = (statements_of t1 ++ statements_of t2)%list.
Proof.
  induction t1 as [|ev t1 IH]; [reflexivity|].
  destruct ev; simpl; rewrite ?IH; reflexivity.
Qed.

Lemma not_execute_no_statements (t : list Event) :
  forallb not_execute t = true -> statements_of t = [].
Proof.
  induction t as [|ev t IH]; [reflexivity|].
  destruct ev; simpl; try exact IH. discriminate.
Qed.

Lemma connection_has_no_statement (warehouse : string) (database schema : option string)
    (w : W) :
  statements_of (trace_of (get_snowflake_connection warehouse database schema w)) = [].
Proof.
  apply not_execute_no_statements.
  assert (H : emits always not_execute
                (get_snowflake_connection warehouse database schema))
    by (unfold get_snowflake_connection; emits_auto).
  apply H, forallb_always.
Qed.

(** [_exec_sql] executes its statement once, and returns unless what was
    raised is no instance of [Exception]. *)
Lemma exec_sql_statement (sql desc : string) (w : W) :
  statements_of (trace_of (_exec_sql sql desc w)) = [sql] /\
  (forallb exception_ok (trace_of (_exec_sql sql desc w)) = true ->
   result_of (_exec_sql sql desc w) = Ok tt) /\
  (nothing_raised (trace_of (_exec_sql sql desc w)) = true ->
   forallb (fun ev => negb (is_warning_or_error ev)) (trace_of (_exec_sql sql desc w)) = true).
Proof.
  split; [|split].
  - unfold _exec_sql, try_except, bind, call, log, emit, gets, trace_of.
    destruct (cur_execute sql None w) as [[[]|e1] w1]; simpl.
    + destruct (cur_fetchall w1) as [[j|e2] w2]; simpl; [reflexivity|].
      destruct (is_Exception e2); reflexivity.
    + destruct (is_Exception e1); reflexivity.
  - intros H. apply (exec_sql_run sql desc w H).
  - unfold _exec_sql, try_except, bind, call, log, emit, gets, trace_of, nothing_raised.
    destruct (cur_execute sql None w) as [[[]|e1] w1]; simpl.
    + destruct (cur_fetchall w1) as [[j|e2] w2]; simpl; [reflexivity|].
      destruct (is_Exception e2); simpl; discriminate.
    + destruct (is_Exception e1); simpl; discriminate.
Qed.

(** A block under [try: ... except: pass] returns, whatever it raised. *)
Lemma swallowed_block (block : M W unit) (sqls : list string) (w : W) :
  (forall w', statements_of (trace_of (block w')) = sqls) ->
  result_of (try_bare block (ret tt) w) = Ok tt /\
  statements_of (trace_of (try_bare block (ret tt) w)) = sqls.
Proof.
  intros H. specialize (H w). unfold try_bare, ret, result_of, trace_of in *.
  destruct (block w) as [[[[]|e] w1] t1]; simpl in *; [auto|].
  rewrite app_nil_r. auto.
Qed.

Ltac split_ok H :=
  repeat (simpl in H;
          first [ rewrite forallb_app in H | rewrite andb_true_iff in H ]);
  repeat match goal with
         | H' : _ /\ _ |- _ => destruct H' as [? ?]
         end.

(** Progress through one [_exec_sql]: its statement, and its return on a
    run that raised instances of [Exception] only. *)
Ltac exec_step :=
  match goal with
  | |- context [_exec_sql ?sql ?desc ?w] =>
      let S := fresh "S" in
      pose proof (exec_sql_statement sql desc w) as S;
      unfold result_of, trace_of in S; revert S;
      destruct (_exec_sql sql desc w) as [[[[]|?e] ?w] ?t]; simpl;
      intros (?St & ?Sr & _);
      [ | intros Hx; exfalso; split_ok Hx;
          match goal with
          | Sr' : _ -> Raise _ = Ok tt |- _ => discriminate Sr'; assumption
          end ]
  end.

(** X7.  Provisioning is best effort.  Once the connection is open, and as
    long as what the session raises are instances of [Exception], every
    statement of the list is executed, in order, whichever of them fail,
    the function returns normally and the connection is released last. *)
Theorem provisioning_runs_every_statement (w : W) :
  result_of (get_snowflake_connection "PREFECT_WH" (Some "ai")
               (Some "AGENTIC_DOC_EXTRACTION") w) = Ok tt ->
  raised_are_Exceptions (trace_of (setup_snowflake_infrastructure w)) = true ->
  result_of (setup_snowflake_infrastructure w) = Ok tt /\
  statements_of (trace_of (setup_snowflake_infrastructure w)) = setup_statements /\
  List.last (trace_of (setup_snowflake_infrastructure w)) (EvLog INFO "") = EvClose.
Proof.
  unfold setup_snowflake_infrastructure, raised_are_Exceptions.
  rewrite task_trace, task_result.
  unfold with_cursor, bind, result_of, trace_of.
  pose proof (connection_has_no_statement "PREFECT_WH" (Some "ai")
                (Some "AGENTIC_DOC_EXTRACTION") w) as C0.
  unfold trace_of in C0. revert C0.
  destruct (get_snowflake_connection "PREFECT_WH" (Some "ai")
              (Some "AGENTIC_DOC_EXTRACTION") w) as [[[[]|e0] w0] t0];
    simpl; intros C0 Hconn; [clear Hconn | discriminate Hconn].
  do 5 exec_step.
  match goal with
  | |- context [try_bare ?b (ret tt) ?w'] =>
      assert (Hb : forall w'',
                 statements_of (trace_of (b w''))
                 = ["SELECT CURRENT_DATABASE(), CURRENT_SCHEMA(), CURRENT_WAREHOUSE()"]);
      [ | pose proof (swallowed_block b _ w' Hb) as B;
          unfold result_of, trace_of in B; revert B;
          destruct (try_bare b (ret tt) w') as [[[[]|e5] w6] t5]; simpl;
          intros [Br St5]; [clear Hb Br | discriminate Br] ]
  end.
  { intros w'. unfold bind, call, log, emit, raise, trace_of.
    destruct (cur_execute _ None w') as [[[]|?] ?]; simpl; [|reflexivity].
    destruct (cur_fetchall _) as [[rows|?] ?]; simpl; [|reflexivity].
    repeat (simpl; match goal with
                   | |- context [match ?x with _ => _ end] => is_var x; destruct x
                   end); reflexivity. }
  unfold try_bare.
  pose proof (exec_sql_statement table_sql "Create qualified table" w6) as S6.
  unfold result_of, trace_of in S6. revert S6.
  destruct (_exec_sql table_sql "Create qualified table" w6) as [[[[]|e6] w7] t6];
    simpl; intros (St6 & Sr6 & _).
  - intros _. split; [reflexivity|]. split.
    + rewrite !statements_of_app, C0, St, St0, St1, St2, St3, St5, St6. reflexivity.
    + rewrite app_assoc.
      match goal with
      | |- match ?l with _ => _ end = _ =>
          destruct l eqn:E;
          [ apply app_eq_nil in E; destruct E; discriminate
          | rewrite <- E, last_last; reflexivity ]
      end.
  - destruct (_exec_sql simple_table_sql "Create simple table" w7) as [[r8 w8] t8].
    simpl. intros Hx. exfalso. split_ok Hx. discriminate Sr6. assumption.
Qed.

Lemma nothing_raised_app (t1 t2 : list Event) :
  nothing_raised (t1 ++ t2)%list = nothing_raised t1 && nothing_raised t2.
Proof. apply forallb_app. Qed.

Lemma nothing_raised_exception_ok (t : list Event) :
  nothing_raised t = true -> forallb exception_ok t = true.
Proof.
  unfold nothing_raised. rewrite !forallb_forall. intros H ev Hin.
  specialize (H ev Hin). unfold exception_ok. destruct (raised_by ev); [discriminate|auto].
Qed.

Lemma connection_clean (warehouse : string) (database schema : option string) (w : W) :
  nothing_raised (trace_of (get_snowflake_connection warehouse database schema w)) = true ->
  result_of (get_snowflake_connection warehouse database schema w) = Ok tt /\
  forallb (fun ev => negb (is_warning_or_error ev))
          (trace_of (get_snowflake_connection warehouse database schema w)) = true.
Proof.
  unfold get_snowflake_connection, try_except, bind, call, log, emit, raise,
    result_of, trace_of, nothing_raised.
  destruct (sf_credentials w) as [[[]|e0] w0]; simpl; [|discriminate].
  destruct (sf_connect warehouse database schema w0) as [[[]|e1] w1]; simpl; [auto|].
  destruct (is_Exception e1); simpl; discriminate.
Qed.

(** The MERGE block runs the qualified statement and at most the
    unqualified one after it; on a session that raises nothing it runs the
    qualified one alone, returns and warns of nothing. *)
Lemma merge_statements (file_key : string) (params : list string) (w : W) :
  (statements_of (trace_of (merge_with_fallback file_key params w)) = [merge_sql] \/
   statements_of (trace_of (merge_with_fallback file_key params w))
   = [merge_sql; simple_sql]) /\
  (nothing_raised (trace_of (merge_with_fallback file_key params w)) = true ->
   result_of (merge_with_fallback file_key params w) = Ok tt /\
   statements_of (trace_of (merge_with_fallback file_key params w)) = [merge_sql] /\
   forallb (fun ev => negb (is_warning_or_error ev))
           (trace_of (merge_with_fallback file_key params w)) = true).
Proof.
  unfold merge_with_fallback, try_except, bind, call, log, emit, gets, result_of,
    trace_of, nothing_raised.
  destruct (cur_execute merge_sql (Some params) w) as [[[]|e1] w1]; simpl.
  - destruct (cur_fetchall w1) as [[j|e2] w2]; simpl; [auto|].
    destruct (is_Exception e2); simpl; [|split; [auto | discriminate]].
    destruct (cur_execute simple_sql (Some params) w2) as [[[]|e3] w3]; simpl;
      [|split; [auto | discriminate]].
    destruct (cur_fetchall w3) as [[j|e4] w4]; simpl; split; auto; discriminate.
  - destruct (is_Exception e1); simpl; [|split; [auto | discriminate]].
    destruct (cur_execute simple_sql (Some params) w1) as [[[]|e3] w3]; simpl;
      [|split; [auto | discriminate]].
    destruct (cur_fetchall w3) as [[j|e4] w4]; simpl; split; auto; discriminate.
Qed.

(** X8.  A load sends the warehouse nothing but its four statements, each at
    most once and in this order: USE DATABASE, USE SCHEMA, the qualified
    MERGE, the unqualified MERGE.  On a session that raises nothing it
    returns after the first three, the unqualified MERGE is not executed,
    and no warning or error is logged. *)
Theorem load_sends_only_its_statements (file_key : string) (extracted_content : Json)
    (w : W) :
  is_prefix (statements_of (trace_of (load_to_snowflake file_key extracted_content w)))
            load_statements /\
  (nothing_raised (trace_of (load_to_snowflake file_key extracted_content w)) = true ->
   result_of (load_to_snowflake file_key extracted_content w) = Ok tt /\
   statements_of (trace_of (load_to_snowflake file_key extracted_content w))
   = ["USE DATABASE ai"; "USE SCHEMA AGENTIC_DOC_EXTRACTION"; merge_sql] /\
   forallb (fun ev => negb (is_warning_or_error ev))
           (trace_of (load_to_snowflake file_key extracted_content w)) = true).
Proof.
  unfold load_to_snowflake, is_prefix, load_statements.
  rewrite task_trace, task_result.
  unfold with_cursor, bind, result_of, trace_of.
  pose proof (connection_has_no_statement "PREFECT_WH" (Some "ai")
                (Some "AGENTIC_DOC_EXTRACTION") w) as C0.
  pose proof (connection_clean "PREFECT_WH" (Some "ai")
                (Some "AGENTIC_DOC_EXTRACTION") w) as K0.
  unfold result_of, trace_of in C0, K0. revert C0 K0.
  destruct (get_snowflake_connection "PREFECT_WH" (Some "ai")
              (Some "AGENTIC_DOC_EXTRACTION") w) as [[[[]|e0] w0] t0];
    simpl; intros C0 K0.
  2:{ rewrite C0. split; [eexists; reflexivity|].
      intros H. destruct (K0 H) as [K _]. discriminate K. }
  pose proof (exec_sql_statement "USE DATABASE ai" "Use database" w0) as S1.
  unfold result_of, trace_of in S1. revert S1.
  destruct (_exec_sql "USE DATABASE ai" "Use database" w0) as [[[[]|e1] w1] t1];
    simpl; intros (St1 & Sr1 & Sw1).
  2:{ rewrite !statements_of_app, C0, St1. split; [eexists; reflexivity|].
      rewrite !nothing_raised_app, !andb_true_iff. intros [_ [H _]].
      specialize (Sr1 (nothing_raised_exception_ok _ H)). discriminate Sr1. }
  pose proof (exec_sql_statement "USE SCHEMA AGENTIC_DOC_EXTRACTION" "Use schema" w1) as S2.
  unfold result_of, trace_of in S2. revert S2.
  destruct (_exec_sql "USE SCHEMA AGENTIC_DOC_EXTRACTION" "Use schema" w1)
    as [[[[]|e2] w2] t2]; simpl; intros (St2 & Sr2 & Sw2).
  2:{ rewrite !statements_of_app, C0, St1, St2. split; [eexists; reflexivity|].
      rewrite !nothing_raised_app, !andb_true_iff. intros [_ [[_ H] _]].
      specialize (Sr2 (nothing_raised_exception_ok _ H)). discriminate Sr2. }
  pose proof (merge_statements file_key (merge_params file_key extracted_content) w2) as S3.
  unfold result_of, trace_of in S3. revert S3.
  destruct (merge_with_fallback file_key (merge_params file_key extracted_content) w2)
    as [[r3 w3] t3]; simpl; intros [St3 Sc3].
  split.
  - rewrite !statements_of_app, C0, St1, St2. simpl.
    destruct St3 as [-> | ->]; eexists; reflexivity.
  - rewrite !nothing_raised_app, !andb_true_iff.
    intros [H0 [[H1 [H2 H3]] _]].
    destruct (Sc3 H3) as (-> & St3' & Sw3). destruct (K0 H0) as [_ Kw0].
    split; [reflexivity|]. split.
    + rewrite !statements_of_app, C0, St1, St2, St3'. reflexivity.
    + rewrite !forallb_app, Kw0, (Sw1 H1), (Sw2 H2), Sw3. reflexivity.
Qed.

(** X9.  A qualified MERGE that went through but whose [fetchall] raised an
    instance of [Exception] is followed by the unqualified MERGE: the
    statement is then executed twice. *)
Theorem failed_fetch_repeats_the_merge (file_key : string) (params : list string) (w : W)
    (e : PyExc) :
  fst (cur_execute merge_sql (Some params) w) = Ok tt ->
  fst (cur_fetchall (snd (cur_execute merge_sql (Some params) w))) = Raise e ->
  is_Exception e = true ->
  statements_of (trace_of (merge_with_fallback file_key params w))
  = [merge_sql; simple_sql] /\
  In (EvLog WARNING ("Qualified MERGE failed: " ++ exc_str e))
     (trace_of (merge_with_fallback file_key params w)).
Proof.
  unfold merge_with_fallback, try_except, bind, call, log, emit, gets, trace_of.
  destruct (cur_execute merge_sql (Some params) w) as [[[]|e1] w1]; simpl;
    [|discriminate].
  intros _. destruct (cur_fetchall w1) as [[j|e2] w2]; simpl; [discriminate|].
  intros [= ->] ->. simpl.
  destruct (cur_execute simple_sql (Some params) w2) as [[[]|e3] w3]; simpl;
    [|split; [reflexivity | auto 10]].
  destruct (cur_fetchall w3) as [[j|e4] w4]; simpl; split; try reflexivity; auto 10.
Qed.

End Statements.

(** ** One document, from the bucket to the table *)

Section Document.

Context {W : Type} {RT : PyRuntime}.
Context {SS : SecretStore W} {OS : ObjectStore W} {EX : Extractor W} {WH : Warehouse W}.

Lemma download_run (file_key : string) (w : W) :
  (forall content,
      result_of (get_s3_file file_key w) = Ok content ->
      In (EvReadPath file_key (Ok content)) (trace_of (get_s3_file file_key w))) /\
  forallb (fun ev => negb (is_warehouse_event ev)) (trace_of (get_s3_file file_key w))
  = true.
Proof.
  unfold get_s3_file, task, bind, call, log, emit, ret, result_of, trace_of.
  destruct (s3_read_path file_key w) as [[content|e] w1]; simpl.
  - split; [intros c [= <-]; auto | reflexivity].
  - split; [discriminate | reflexivity].
Qed.

Lemma extraction_off_the_warehouse (file_content : bytes) (file_key : string) (w : W) :
  forallb (fun ev => negb (is_warehouse_event ev))
          (trace_of (extract_document_content file_content file_key w)) = true.
Proof.
  assert (H : emits always (fun ev => negb (is_warehouse_event ev))
                (extract_document_content file_content file_key))
    by (unfold extract_document_content; emits_auto).
  apply H, forallb_always.
Qed.

Lemma merge_ok_executed (file_key : string) (params : list string) (w : W) :
  result_of (merge_with_fallback file_key params w) = Ok tt ->
  exists sql,
    (sql = merge_sql \/ sql = simple_sql) /\
    In (EvExecute sql (Some params) (Ok tt))
       (trace_of (merge_with_fallback file_key params w)).
Proof.
  unfold merge_with_fallback, try_except, bind, call, log, emit, gets, result_of, trace_of.
  destruct (cur_execute merge_sql (Some params) w) as [[[]|e1] w1]; simpl.
  - intros _. exists merge_sql. split; [auto|].
    destruct (cur_fetchall w1) as [[j|e2] w2]; simpl; [auto 10|].
    destruct (is_Exception e2); simpl; [|auto 10].
    destruct (cur_execute simple_sql (Some params) w2) as [[[]|e3] w3]; simpl; [|auto 10].
    destruct (cur_fetchall w3) as [[j|e4] w4]; simpl; auto 10.
  - destruct (is_Exception e1); simpl; [|discriminate].
    destruct (cur_execute simple_sql (Some params) w1) as [[[]|e3] w3]; simpl;
      [|discriminate].
    intros _. exists simple_sql. split; [auto|].
    destruct (cur_fetchall w3) as [[j|e4] w4]; simpl; auto 10.
Qed.

Lemma load_ok_executed (file_key : string) (extracted_content : Json) (w : W) :
  result_of (load_to_snowflake file_key extracted_content w) = Ok tt ->
  exists sql,
    (sql = merge_sql \/ sql = simple_sql) /\
    In (EvExecute sql (Some (merge_params file_key extracted_content)) (Ok tt))
       (trace_of (load_to_snowflake file_key extracted_content w)).
Proof.
  unfold load_to_snowflake. rewrite task_trace, task_result.
  unfold with_cursor, bind, result_of, trace_of.
  destruct (get_snowflake_connection "PREFECT_WH" (Some "ai")
              (Some "AGENTIC_DOC_EXTRACTION") w) as [[[[]|e0] w0] t0];
    simpl; [|discriminate].
  destruct (_exec_sql "USE DATABASE ai" "Use database" w0) as [[[[]|e1] w1] t1];
    simpl; [|discriminate].
  destruct (_exec_sql "USE SCHEMA AGENTIC_DOC_EXTRACTION" "Use schema" w1)
    as [[[[]|e2] w2] t2]; simpl; [|discriminate].
  pose proof (merge_ok_executed file_key (merge_params file_key extracted_content) w2) as Hm.
  unfold result_of, trace_of in Hm. revert Hm.
  destruct (merge_with_fallback file_key (merge_params file_key extracted_content) w2)
    as [[r3 w3] t3]; simpl.
  intros Hm Hr. destruct (Hm Hr) as (sql & Hsql & Hin). exists sql. split; [exact Hsql|].
  right. apply in_or_app. right. apply in_or_app. left.
  apply in_or_app. right. apply in_or_app. right. exact Hin.
Qed.

(** X10.  A document that went through: the bytes given to the extraction
    service are the bytes read from the bucket under the key, and a MERGE
    went through whose parameters are the last path segment of the key,
    the key, and the serialized extraction of the first result the service
    gave for those bytes. *)
Theorem processed_document_is_the_downloaded_one (file_key : string) (w : W) :
  result_of (process_document file_key w) = Ok tt ->
  exists content first rest sql,
    In (EvReadPath file_key (Ok content)) (trace_of (process_document file_key w)) /\
    In (EvParse ("_" ++ file_key) content (Ok (Some (first :: rest))))
       (trace_of (process_document file_key w)) /\
    (sql = merge_sql \/ sql = simple_sql) /\
    In (EvExecute sql
          (Some [ PyStr.last_segment file_key; file_key;
                  json_dumps (formatted_result first content file_key) ])
          (Ok tt))
       (trace_of (process_document file_key w)).
Proof.
  unfold process_document. rewrite task_trace, task_result.
  unfold bind, log, emit, result_of, trace_of.
  destruct (download_run file_key w) as [Hd _]. unfold result_of, trace_of in Hd.
  revert Hd. destruct (get_s3_file file_key w) as [[[content|e] w1] t1]; simpl;
    intros Hd; [|discriminate].
  specialize (Hd content eq_refl).
  destruct (extract_run content file_key w1) as [_ He]. unfold result_of, trace_of in He.
  revert He.
  destruct (extract_document_content content file_key w1) as [[[j|e] w2] t2]; simpl;
    intros He; [|discriminate].
  destruct (He j eq_refl) as (first & rest & Hparse & ->).
  pose proof (load_ok_executed file_key (formatted_result first content file_key) w2) as Hl.
  unfold result_of, trace_of in Hl. revert Hl.
  destruct (load_to_snowflake file_key (formatted_result first content file_key) w2)
    as [[[[]|e] w3] t3]; simpl; intros Hl; [|discriminate].
  intros _. destruct (Hl eq_refl) as (sql & Hsql & Hin).
  exists content, first, rest, sql. repeat split.
  - right. apply in_or_app. left. exact Hd.
  - right. apply in_or_app. right. apply in_or_app. left. exact Hparse.
  - exact Hsql.
  - right. apply in_or_app. right. apply in_or_app. right. apply in_or_app. left.
    exact Hin.
Qed.

(** X11.  The warehouse is reached only for a document that was downloaded and
    extracted: a run of [process_document] with any call on the warehouse
    in it holds the download and an answer of the service with results. *)
Theorem warehouse_is_reached_after_extraction (file_key : string) (w : W) :
  existsb is_warehouse_event (trace_of (process_document file_key w)) = true ->
  exists content first rest,
    In (EvReadPath file_key (Ok content)) (trace_of (process_document file_key w)) /\
    In (EvParse ("_" ++ file_key) content (Ok (Some (first :: rest))))
       (trace_of (process_document file_key w)).
Proof.
  assert (Hno : forall t, forallb (fun ev => negb (is_warehouse_event ev)) t = true ->
                          existsb is_warehouse_event t = false).
  { induction t as [|ev t IH]; simpl; [reflexivity|].
    rewrite andb_true_iff, negb_true_iff. intros [-> Ht]. exact (IH Ht). }
  unfold process_document. rewrite task_trace.
  unfold bind, log, emit, trace_of.
  destruct (download_run file_key w) as [Hd Hd']. unfold result_of, trace_of in Hd, Hd'.
  revert Hd Hd'. destruct (get_s3_file file_key w) as [[[content|e] w1] t1]; simpl;
    intros Hd Hd'.
  2:{ rewrite (Hno _ Hd'). discriminate. }
  specialize (Hd content eq_refl).
  destruct (extract_run content file_key w1) as [_ He].
  pose proof (extraction_off_the_warehouse content file_key w1) as He'.
  unfold result_of, trace_of in He, He'. revert He He'.
  destruct (extract_document_content content file_key w1) as [[[j|e] w2] t2]; simpl;
    intros He He'.
  2:{ rewrite existsb_app, (Hno _ Hd'), (Hno _ He'). discriminate. }
  destruct (He j eq_refl) as (first & rest & Hparse & _).
  intros _. exists content, first, rest. split.
  - right. destruct (load_to_snowflake file_key j w2) as [[[[]|e] w3] t3]; simpl;
      apply in_or_app; left; exact Hd.
  - right. destruct (load_to_snowflake file_key j w2) as [[[[]|e] w3] t3]; simpl;
      apply in_or_app; right; apply in_or_app; left; exact Hparse.
Qed.

End Document.

(** ** The driver, past the claims *)

Ltac trace_absurd H :=
  trace_cases H;
  try solve [exfalso; revert H; eapply not_in_forallb; [eassumption | reflexivity]].

Section Driver.

Context {W : Type} {RT : PyRuntime}.
Context {SS : SecretStore W} {OS : ObjectStore W} {EX : Extractor W} {WH : Warehouse W}.

Arguments for_each : simpl never.

Lemma failed_bucket_check (bucket_name checked : string) (e : PyExc) (w : W) :
  In (EvHeadBucket checked (Raise e))
     (trace_of (create_s3_bucket_if_not_exists bucket_name w)) ->
  client_error_code e <> Some "404" ->
  result_of (create_s3_bucket_if_not_exists bucket_name w) = Raise e.
Proof.
  unfold create_s3_bucket_if_not_exists, task, try_client_error, bind, call, log, emit,
    raise, result_of, trace_of.
  destruct (secret_get "aws-access-key-id" w) as [[ak|e0] w0]; simpl;
    [|intros H; trace_cases H].
  destruct (secret_get "aws-secret-access-key" w0) as [[sk|e1] w1]; simpl;
    [|intros H; trace_cases H].
  destruct (s3_head_bucket bucket_name w1) as [[response|e'] w2]; simpl;
    [intros H; trace_cases H|].
  destruct (client_error_code e') as [code|] eqn:Ecode; simpl.
  - destruct (String.eqb code "404") eqn:E404; simpl.
    + apply String.eqb_eq in E404. subst code.
      destruct (s3_create_bucket bucket_name w2) as [[created|e''] w3]; simpl;
        intros H Hne; trace_cases H; injection H as _ <-; congruence.
    + intros H _. trace_cases H. injection H as _ <-. reflexivity.
  - intros H _. trace_cases H. injection H as _ <-. reflexivity.
Qed.

Lemma bucket_check_comes_first (bucket_name : string) :
  emits always before_provisioning (create_s3_bucket_if_not_exists bucket_name).
Proof. unfold create_s3_bucket_if_not_exists. emits_auto. Qed.

Lemma no_bucket_check_later :
  emits always (fun ev => negb (is_head_bucket ev)) setup_snowflake_infrastructure /\
  emits always (fun ev => negb (is_head_bucket ev)) list_s3_files /\
  forall files,
    emits always (fun ev => negb (is_head_bucket ev)) (for_each files process_document).
Proof.
  split; [|split; [|intros files]];
    unfold setup_snowflake_infrastructure, list_s3_files, process_document, get_s3_file,
      extract_document_content, load_to_snowflake, get_snowflake_connection, _exec_sql,
      merge_with_fallback;
    repeat first [ apply emits_with_cursor | emits_step | emits_pass
                 | match goal with |- forall _, _ => intro end ].
Qed.

(** X12.  When the existence check of the bucket fails with anything but a
    ClientError 404, the driver raises that exception and has done
    nothing past the check: no call on the warehouse, no listing, no
    document processed. *)
Theorem failed_bucket_check_stops_the_run (checked : string) (e : PyExc) (w : W) :
  In (EvHeadBucket checked (Raise e)) (trace_of (s3_to_snowflake_flow w)) ->
  client_error_code e <> Some "404" ->
  result_of (s3_to_snowflake_flow w) = Raise e /\
  forallb before_provisioning (trace_of (s3_to_snowflake_flow w)) = true.
Proof.
  destruct no_bucket_check_later as (N2 & N3 & N5).
  unfold s3_to_snowflake_flow, bind, call, log, emit, raise, result_of, trace_of.
  destruct (secret_get "s3-bucket-name" w) as [[[[|c name]|]|e0] w0];
    try solve [simpl; intros H; trace_cases H].
  pose proof (failed_bucket_check (String c name) checked e w0) as F1.
  pose proof (bucket_check_comes_first (String c name) w0 (forallb_always _)) as P1.
  unfold result_of, trace_of in F1, P1. revert F1 P1.
  destruct (create_s3_bucket_if_not_exists (String c name) w0) as [[[[]|e1] w1] t1];
    simpl; intros F1 P1.
  2:{ intros H Hne. trace_cases H. rewrite (F1 H Hne). split; [reflexivity | exact P1]. }
  specialize (N2 w1 (forallb_always _)). unfold trace_of in N2. revert N2.
  destruct (setup_snowflake_infrastructure w1) as [[[[]|e2] w2] t2]; simpl; intros N2.
  2:{ intros H Hne. trace_absurd H. discriminate (F1 H Hne). }
  destruct (s3_bucket_load "default" w2) as [[[]|e3] w3]; simpl.
  2:{ intros H Hne. trace_absurd H. discriminate (F1 H Hne). }
  specialize (N3 w3 (forallb_always _)). unfold trace_of in N3. revert N3.
  destruct (list_s3_files w3) as [[[[|k files]|e4] w4] t4]; simpl; intros N3.
  - intros H Hne. trace_absurd H. discriminate (F1 H Hne).
  - specialize (N5 (k :: files) w4 (forallb_always _)). unfold trace_of in N5. revert N5.
    destruct (for_each (k :: files) process_document w4) as [[r5 w5] t5]. simpl.
    intros N5 H Hne. trace_absurd H. discriminate (F1 H Hne).
  - intros H Hne. trace_absurd H. discriminate (F1 H Hne).
Qed.

Lemma process_ok_merged (file_key : string) (w : W) :
  result_of (process_document file_key w) = Ok tt ->
  exists sql content,
    (sql = merge_sql \/ sql = simple_sql) /\
    In (EvExecute sql (Some [PyStr.last_segment file_key; file_key; content]) (Ok tt))
       (trace_of (process_document file_key w)).
Proof.
  unfold process_document. rewrite task_trace, task_result.
  unfold bind, log, emit, result_of, trace_of.
  destruct (get_s3_file file_key w) as [[[content|e] w1] t1]; simpl; [|discriminate].
  destruct (extract_document_content content file_key w1) as [[[j|e] w2] t2]; simpl;
    [|discriminate].
  pose proof (load_ok_executed file_key j w2) as Hl.
  unfold result_of, trace_of in Hl. revert Hl.
  destruct (load_to_snowflake file_key j w2) as [[[[]|e] w3] t3]; simpl; intros Hl;
    [|discriminate].
  intros _. destruct (Hl eq_refl) as (sql & Hsql & Hin).
  exists sql, (json_dumps j). split; [exact Hsql|].
  right. apply in_or_app. right. apply in_or_app. right. apply in_or_app. left. exact Hin.
Qed.

Lemma for_each_ok_merged (files : list string) (w : W) :
  result_of (for_each files process_document w) = Ok tt ->
  forall k, In k files ->
  exists sql content,
    (sql = merge_sql \/ sql = simple_sql) /\
    In (EvExecute sql (Some [PyStr.last_segment k; k; content]) (Ok tt))
       (trace_of (for_each files process_document w)).
Proof.
  revert w. induction files as [|f files IH]; intros w Hok k Hin; [destruct Hin|].
  revert Hok.
  change (for_each (f :: files) process_document)
    with (bind (process_document f) (fun _ => for_each files process_document)).
  unfold bind, result_of, trace_of.
  pose proof (process_ok_merged f w) as Hp. unfold result_of, trace_of in Hp. revert Hp.
  destruct (process_document f w) as [[[[]|e] w1] t1]; simpl; intros Hp; [|discriminate].
  specialize (IH w1). unfold result_of, trace_of in IH. revert IH.
  destruct (for_each files process_document w1) as [[r2 w2] t2]; simpl. intros IH Hok.
  destruct Hin as [<- | Hin].
  - destruct (Hp eq_refl) as (sql & content & Hsql & H).
    exists sql, content. split; [exact Hsql|]. apply in_or_app. left. exact H.
  - destruct (IH Hok k Hin) as (sql & content & Hsql & H).
    exists sql, content. split; [exact Hsql|]. apply in_or_app. right. exact H.
Qed.

(** X13.  A run of the driver that returns normally has, for every key the
    bucket listed, executed a MERGE that went through with that key as
    file path and its last path segment as file name. *)
Theorem returned_run_merged_every_key (w : W) (objs : list S3Object) :
  In (EvListObjects (Ok (Some objs))) (trace_of (s3_to_snowflake_flow w)) ->
  result_of (s3_to_snowflake_flow w) = Ok tt ->
  forall k, In k (map Key objs) ->
  exists sql content,
    (sql = merge_sql \/ sql = simple_sql) /\
    In (EvExecute sql (Some [PyStr.last_segment k; k; content]) (Ok tt))
       (trace_of (s3_to_snowflake_flow w)).
Proof.
  intros Hlist Hok k Hk.
  destruct (flow_after_listing w (Some objs) Hlist) as (pre & w1 & _ & Hrun).
  destruct objs as [|o os]; [destruct Hk|].
  destruct Hrun as [Hr Ht]. rewrite Hr in Hok.
  destruct (for_each_ok_merged (map Key (o :: os)) w1 Hok k Hk)
    as (sql & content & Hsql & H).
  exists sql, content. split; [exact Hsql|]. rewrite Ht. apply in_or_app. right. exact H.
Qed.

End Driver.

(** * The provisioning script *)

Section SetupScript.

Context {W : Type} {BL : SetupBlocks.Blocks W}.

(** X14.  With anything but seven arguments the script prints its usage and
    exits with status 1; it saves no block and reads no file. *)
Theorem wrong_argument_count_exits_1 (argv : list string) (w : W) :
  List.length argv <> 8 ->
  SetupBlocks.main argv w
  = (Raise (mkExc SystemExit "1"), w, [SetupBlocks.Print SetupBlocks.usage]).
Proof.
  intros H.
  do 9 (destruct argv as [|? argv]; try reflexivity).
  exfalso. apply H. reflexivity.
Qed.

Lemma anything_failed_app (t1 t2 : list SetupBlocks.Out) :
  SetupBlocks.anything_failed (t1 ++ t2)%list
  = SetupBlocks.anything_failed t1 || SetupBlocks.anything_failed t2.
Proof. apply existsb_app. Qed.

Lemma failures_app (t1 t2 : list SetupBlocks.Out) :
  SetupBlocks.failures_are_Exceptions (t1 ++ t2)%list
  = SetupBlocks.failures_are_Exceptions t1 && SetupBlocks.failures_are_Exceptions t2.
Proof. apply forallb_app. Qed.

Ltac script_run :=
  unfold SetupBlocks.create_aws_credentials, SetupBlocks.create_snowflake_connector,
    SetupBlocks.create_secret_block, SetupBlocks.try_except, SetupBlocks.bind,
    SetupBlocks.new, SetupBlocks.save, SetupBlocks.open_read, SetupBlocks.print,
    SetupBlocks.ret,
    SetupBlocks.outcome, SetupBlocks.output, SetupBlocks.failures_are_Exceptions,
    SetupBlocks.anything_failed, SetupBlocks.aws_blocks, SetupBlocks.snowflake_blocks,
    is_prefix.

Ltac script_case :=
  match goal with
  | |- context [SetupBlocks.block_save ?b ?n ?w] =>
      destruct (SetupBlocks.block_save b n w) as [[[]|?e] ?w]; simpl
  | |- context [SetupBlocks.read_file ?p ?w] =>
      destruct (SetupBlocks.read_file p w) as [[?key|?e] ?w]; simpl
  | |- context [SetupBlocks.block_new ?b ?w] =>
      destruct (SetupBlocks.block_new b w) as [[[]|?e] ?w]; simpl
  | |- context [is_Exception ?e] => destruct (is_Exception e) eqn:?; simpl
  end.

(** X15.  [create_aws_credentials] saves its four blocks in order and stops at
    the first save that raises: the saves attempted are an initial part of
    the four.  When what is raised is an instance of [Exception] it
    returns True if all four went through and False otherwise. *)
Theorem aws_blocks_stop_at_the_first_failure (access_key_id secret_access_key
    bucket_name : string) (w : W) :
  is_prefix
    (SetupBlocks.saves_of
       (SetupBlocks.output
          (SetupBlocks.create_aws_credentials access_key_id secret_access_key
             bucket_name w)))
    (SetupBlocks.aws_blocks access_key_id secret_access_key bucket_name) /\
  (SetupBlocks.failures_are_Exceptions
     (SetupBlocks.output
        (SetupBlocks.create_aws_credentials access_key_id secret_access_key
           bucket_name w)) = true ->
   SetupBlocks.outcome
     (SetupBlocks.create_aws_credentials access_key_id secret_access_key bucket_name w)
   = Ok (negb (SetupBlocks.anything_failed
                 (SetupBlocks.output
                    (SetupBlocks.create_aws_credentials access_key_id secret_access_key
                       bucket_name w))))) /\
  (SetupBlocks.outcome
     (SetupBlocks.create_aws_credentials access_key_id secret_access_key bucket_name w)
   = Ok true ->
   SetupBlocks.saves_of
     (SetupBlocks.output
        (SetupBlocks.create_aws_credentials access_key_id secret_access_key
           bucket_name w))
   = SetupBlocks.aws_blocks access_key_id secret_access_key bucket_name).
Proof.
  script_run. repeat script_case;
    (split; [eexists; reflexivity|]);
    (split; [first [reflexivity | congruence | discriminate | intros _; reflexivity]
            | first [reflexivity | discriminate | intros _; reflexivity]]).
Qed.

Ltac script_done :=
  first [ reflexivity | discriminate | congruence | intros _; reflexivity
        | let H := fresh in
          intros H;
          repeat match goal with
                 | E : is_Exception _ = _ |- _ => rewrite E in H
                 end;
          simpl in H; first [discriminate H | congruence] ].

(** X16.  [create_snowflake_connector] reads the key file first.  When the
    read raises, nothing is constructed and no block is saved.  When it
    gives the key, the saves attempted are an initial part of the
    credentials and the connector, both under the one name
    "snowflake-credentials-key-auth" and built on the bytes read: the
    credentials are given to the storage exactly when their construction
    went through, and the connector exactly when its own did, which is
    tried only after the credentials were saved.  When what is raised is an
    instance of [Exception] the function returns True if no read, no
    construction and no save failed, and False otherwise. *)
Theorem snowflake_blocks_need_the_key_file (user private_key_path account database
    schema warehouse : string) (w : W) :
  (forall e,
      fst (SetupBlocks.read_file private_key_path w) = Raise e ->
      SetupBlocks.saves_of
        (SetupBlocks.output
           (SetupBlocks.create_snowflake_connector user private_key_path account
              database schema warehouse w)) = [] /\
      forall block r,
        ~ In (SetupBlocks.New block r)
             (SetupBlocks.output
                (SetupBlocks.create_snowflake_connector user private_key_path account
                   database schema warehouse w))) /\
  (forall private_key,
      fst (SetupBlocks.read_file private_key_path w) = Ok private_key ->
      is_prefix
        (SetupBlocks.saves_of
           (SetupBlocks.output
              (SetupBlocks.create_snowflake_connector user private_key_path account
                 database schema warehouse w)))
        (SetupBlocks.snowflake_blocks user private_key account database schema warehouse)
      /\
      (SetupBlocks.saves_of
         (SetupBlocks.output
            (SetupBlocks.create_snowflake_connector user private_key_path account
               database schema warehouse w)) <> [] <->
       In (SetupBlocks.New (SetupBlocks.SnowflakeCredentials user private_key account)
             (Ok tt))
          (SetupBlocks.output
             (SetupBlocks.create_snowflake_connector user private_key_path account
                database schema warehouse w)))
      /\
      (SetupBlocks.saves_of
         (SetupBlocks.output
            (SetupBlocks.create_snowflake_connector user private_key_path account
               database schema warehouse w))
       = SetupBlocks.snowflake_blocks user private_key account database schema warehouse
       <->
       In (SetupBlocks.New
             (SetupBlocks.SnowflakeConnector
                (SetupBlocks.SnowflakeCredentials user private_key account)
                database schema warehouse)
             (Ok tt))
          (SetupBlocks.output
             (SetupBlocks.create_snowflake_connector user private_key_path account
                database schema warehouse w)))) /\
  (SetupBlocks.failures_are_Exceptions
     (SetupBlocks.output
        (SetupBlocks.create_snowflake_connector user private_key_path account
           database schema warehouse w)) = true ->
   SetupBlocks.outcome
     (SetupBlocks.create_snowflake_connector user private_key_path account
        database schema warehouse w)
   = Ok (negb (SetupBlocks.anything_failed
                 (SetupBlocks.output
                    (SetupBlocks.create_snowflake_connector user private_key_path account
                       database schema warehouse w))))).
Proof.
  script_run.
  destruct (SetupBlocks.read_file private_key_path w) as [[key|e0] w0]; simpl.
  - repeat script_case;
      (split; [intros err H; discriminate H|]);
      (split; [|script_done]);
      intros k [= <-];
      (split; [eexists; reflexivity|]);
      (split; split; intros H;
       first [ discriminate H | congruence | solve [trace_cases H]
             | solve [simpl; auto 10] | exfalso; apply H; reflexivity ]).
  - destruct (is_Exception e0) eqn:E; simpl;
      (split; [|split; [intros k H; discriminate H | script_done]]);
      intros err _; (split; [reflexivity|]); intros block r H; trace_cases H.
Qed.

Lemma aws_step (access_key_id secret_access_key bucket_name : string) (w : W) :
  (SetupBlocks.failures_are_Exceptions
     (SetupBlocks.output
        (SetupBlocks.create_aws_credentials access_key_id secret_access_key
           bucket_name w)) = true ->
   SetupBlocks.outcome
     (SetupBlocks.create_aws_credentials access_key_id secret_access_key bucket_name w)
   = Ok (negb (SetupBlocks.anything_failed
                 (SetupBlocks.output
                    (SetupBlocks.create_aws_credentials access_key_id secret_access_key
                       bucket_name w))))) /\
  In (SetupBlocks.AwsCredentials access_key_id secret_access_key, "aws-credentials")
     (SetupBlocks.saves_of
        (SetupBlocks.output
           (SetupBlocks.create_aws_credentials access_key_id secret_access_key
              bucket_name w))).
Proof.
  script_run. repeat script_case;
    (split; [script_done | left; reflexivity]).
Qed.

Lemma snowflake_step (user private_key_path account database schema warehouse : string)
    (w : W) :
  (SetupBlocks.failures_are_Exceptions
     (SetupBlocks.output
        (SetupBlocks.create_snowflake_connector user private_key_path account
           database schema warehouse w)) = true ->
   SetupBlocks.outcome
     (SetupBlocks.create_snowflake_connector user private_key_path account
        database schema warehouse w)
   = Ok (negb (SetupBlocks.anything_failed
                 (SetupBlocks.output
                    (SetupBlocks.create_snowflake_connector user private_key_path account
                       database schema warehouse w))))) /\
  exists r,
    In (SetupBlocks.Open private_key_path r)
       (SetupBlocks.output
          (SetupBlocks.create_snowflake_connector user private_key_path account
             database schema warehouse w)).
Proof.
  script_run. repeat script_case;
    (split; [script_done
            | eexists; left; reflexivity]).
Qed.

Lemma secret_step (name value : string) (w : W) :
  (SetupBlocks.failures_are_Exceptions
     (SetupBlocks.output (SetupBlocks.create_secret_block name value w)) = true ->
   SetupBlocks.outcome (SetupBlocks.create_secret_block name value w)
   = Ok (negb (SetupBlocks.anything_failed
                 (SetupBlocks.output (SetupBlocks.create_secret_block name value w))))) /\
  In (SetupBlocks.Secret value, name)
     (SetupBlocks.saves_of
        (SetupBlocks.output (SetupBlocks.create_secret_block name value w))).
Proof.
  script_run. repeat script_case;
    (split; [script_done | left; reflexivity]).
Qed.

Lemma saves_of_app (t1 t2 : list SetupBlocks.Out) :
  SetupBlocks.saves_of (t1 ++ t2)%list
  = (SetupBlocks.saves_of t1 ++ SetupBlocks.saves_of t2)%list.
Proof.
  induction t1 as [|o t1 IH]; [reflexivity|].
  destruct o; simpl; rewrite ?IH; reflexivity.
Qed.

(** X17.  With seven arguments, and as long as what is raised are instances of
    [Exception], the script goes through all four steps whichever of them
    fail (the key file is opened, the AWS credentials, the API key and the
    bucket name are each given to the storage) and then exits with status
    0 if no save, no read and no construction of a Snowflake block failed,
    with status 1 otherwise. *)
Theorem setup_attempts_every_step (prog aws_access_key aws_secret_key sf_user
    sf_private_key_path sf_account landing_ai_key s3_bucket_name : string) (w : W) :
  SetupBlocks.failures_are_Exceptions
    (SetupBlocks.output
       (SetupBlocks.main [prog; aws_access_key; aws_secret_key; sf_user;
                          sf_private_key_path; sf_account; landing_ai_key;
                          s3_bucket_name] w)) = true ->
  SetupBlocks.outcome
    (SetupBlocks.main [prog; aws_access_key; aws_secret_key; sf_user;
                       sf_private_key_path; sf_account; landing_ai_key;
                       s3_bucket_name] w)
  = Raise (mkExc SystemExit
             (if SetupBlocks.anything_failed
                   (SetupBlocks.output
                      (SetupBlocks.main [prog; aws_access_key; aws_secret_key; sf_user;
                                         sf_private_key_path; sf_account; landing_ai_key;
                                         s3_bucket_name] w))
              then "1" else "0")) /\
  In (SetupBlocks.AwsCredentials aws_access_key aws_secret_key, "aws-credentials")
     (SetupBlocks.saves_of
        (SetupBlocks.output
           (SetupBlocks.main [prog; aws_access_key; aws_secret_key; sf_user;
                              sf_private_key_path; sf_account; landing_ai_key;
                              s3_bucket_name] w))) /\
  (exists r,
      In (SetupBlocks.Open sf_private_key_path r)
         (SetupBlocks.output
            (SetupBlocks.main [prog; aws_access_key; aws_secret_key; sf_user;
                               sf_private_key_path; sf_account; landing_ai_key;
                               s3_bucket_name] w))) /\
  In (SetupBlocks.Secret landing_ai_key, "landing-ai-api-key")
     (SetupBlocks.saves_of
        (SetupBlocks.output
           (SetupBlocks.main [prog; aws_access_key; aws_secret_key; sf_user;
                              sf_private_key_path; sf_account; landing_ai_key;
                              s3_bucket_name] w))) /\
  In (SetupBlocks.Secret s3_bucket_name, "s3-bucket-name")
     (SetupBlocks.saves_of
        (SetupBlocks.output
           (SetupBlocks.main [prog; aws_access_key; aws_secret_key; sf_user;
                              sf_private_key_path; sf_account; landing_ai_key;
                              s3_bucket_name] w))).
Proof.
  unfold SetupBlocks.main, SetupBlocks.bind, SetupBlocks.print, SetupBlocks.sys_exit,
    SetupBlocks.outcome, SetupBlocks.output.
  destruct (aws_step aws_access_key aws_secret_key s3_bucket_name w) as [R1 A1].
  unfold SetupBlocks.outcome, SetupBlocks.output in R1, A1. revert R1 A1.
  destruct (SetupBlocks.create_aws_credentials aws_access_key aws_secret_key
              s3_bucket_name w) as [[r1 w1] t1]. intros R1 A1.
  destruct (snowflake_step sf_user sf_private_key_path sf_account
              "ai" "AGENTIC_DOC_EXTRACTION" "PREFECT_WH" w1) as [R2 [r A2]].
  unfold SetupBlocks.outcome, SetupBlocks.output in R2, A2. revert R2 A2.
  destruct (SetupBlocks.create_snowflake_connector sf_user sf_private_key_path sf_account
              "ai" "AGENTIC_DOC_EXTRACTION" "PREFECT_WH" w1) as [[r2 w2] t2].
  intros R2 A2.
  destruct (secret_step "landing-ai-api-key" landing_ai_key w2) as [R3 A3].
  unfold SetupBlocks.outcome, SetupBlocks.output in R3, A3. revert R3 A3.
  destruct (SetupBlocks.create_secret_block "landing-ai-api-key" landing_ai_key w2)
    as [[r3 w3] t3]. intros R3 A3.
  destruct (secret_step "s3-bucket-name" s3_bucket_name w3) as [R4 A4].
  unfold SetupBlocks.outcome, SetupBlocks.output in R4, A4. revert R4 A4.
  destruct (SetupBlocks.create_secret_block "s3-bucket-name" s3_bucket_name w3)
    as [[r4 w4] t4]. intros R4 A4.
  simpl in R1, R2, R3, R4, A1, A2, A3, A4.
  destruct r1 as [ok1|e1]; simpl.
  2:{ intros H. discriminate (R1 H). }
  destruct r2 as [ok2|e2]; simpl.
  2:{ intros H. change (SetupBlocks.failures_are_Exceptions (t1 ++ t2) = true) in H.
      rewrite failures_app, andb_true_iff in H. destruct H as [_ H].
      discriminate (R2 H). }
  destruct r3 as [ok3|e3]; simpl.
  2:{ intros H. change (SetupBlocks.failures_are_Exceptions (t1 ++ t2 ++ t3) = true) in H.
      rewrite !failures_app, !andb_true_iff in H. destruct H as [_ [_ H]].
      discriminate (R3 H). }
  destruct r4 as [ok4|e4]; simpl.
  2:{ intros H.
      change (SetupBlocks.failures_are_Exceptions (t1 ++ t2 ++ t3 ++ t4) = true) in H.
      rewrite !failures_app, !andb_true_iff in H. destruct H as [_ [_ [_ H]]].
      discriminate (R4 H). }
  intros H.
  assert (Hall : SetupBlocks.failures_are_Exceptions (t1 ++ t2 ++ t3 ++ t4) = true).
  { destruct (ok1 && ok2 && ok3 && ok4); simpl in H;
      unfold SetupBlocks.failures_are_Exceptions in *;
      rewrite !forallb_app in *; rewrite !andb_true_iff in *; tauto. }
  rewrite !failures_app, !andb_true_iff in Hall.
  destruct Hall as (H1 & H2 & H3 & H4).
  specialize (R1 H1). specialize (R2 H2). specialize (R3 H3). specialize (R4 H4).
  injection R1 as ->. injection R2 as ->. injection R3 as ->. injection R4 as ->.
  assert (Hsaves : forall b, In b (SetupBlocks.saves_of (t1 ++ t2 ++ t3 ++ t4)) ->
            forall tl, In b (SetupBlocks.saves_of
                               (SetupBlocks.Print "Creating Prefect blocks..."
                                  :: t1 ++ t2 ++ t3 ++ t4 ++ tl))).
  { intros b Hb tl. simpl. rewrite !saves_of_app in *. rewrite !in_app_iff in *. tauto. }
  assert (Hfail : forall line,
            SetupBlocks.anything_failed
              (SetupBlocks.Print "Creating Prefect blocks..."
                 :: t1 ++ t2 ++ t3 ++ t4 ++ [SetupBlocks.Print line])
            = SetupBlocks.anything_failed t1 || SetupBlocks.anything_failed t2
              || SetupBlocks.anything_failed t3 || SetupBlocks.anything_failed t4).
  { intros line.
    change (SetupBlocks.anything_failed (t1 ++ t2 ++ t3 ++ t4 ++ [SetupBlocks.Print line])
            = SetupBlocks.anything_failed t1 || SetupBlocks.anything_failed t2
              || SetupBlocks.anything_failed t3 || SetupBlocks.anything_failed t4).
    rewrite !anything_failed_app. simpl. rewrite orb_false_r, !orb_assoc. reflexivity. }
  clear H.
  destruct (SetupBlocks.anything_failed t1) eqn:F1,
           (SetupBlocks.anything_failed t2) eqn:F2,
           (SetupBlocks.anything_failed t3) eqn:F3,
           (SetupBlocks.anything_failed t4) eqn:F4;
    cbn [negb andb fst snd];
    (split; [rewrite Hfail; reflexivity|]);
    (split; [apply Hsaves; rewrite !saves_of_app, !in_app_iff; tauto|]);
    (split; [exists r; right; rewrite !in_app_iff; tauto|]);
    (split; apply Hsaves; rewrite !saves_of_app, !in_app_iff; tauto).
Qed.

End SetupScript.

(** ** The script and the flow on one block storage

    The storage keeps one document per block type and name, and a save
    with [overwrite=True] replaces it ([SetupBlocks.store]). *)


(** * The pipeline and the table *)

Section OnTheTable.

Context {RT : PyRuntime} (sv : Pipeline.Services).

Import Snowflake.

Let SSi : SecretStore State := Pipeline.secret_store sv.
Let OSi : ObjectStore State := Pipeline.object_store sv.
Let EXi : Extractor State := Pipeline.extractor sv.
Local Existing Instance SSi.
Local Existing Instance OSi.
Local Existing Instance EXi.

Arguments for_each : simpl never.

Local Abbreviation extended := (Pipeline.extended (Pipeline.keys sv)).

Lemma extended_refl (st : State) : extended st st.
Proof.
  split; [|auto]. exists []. rewrite app_nil_r. split; [reflexivity | constructor].
Qed.

Lemma extended_trans (st1 st2 st3 : State) :
  extended st1 st2 -> extended st2 st3 -> extended st1 st3.
Proof.
  intros [(a12 & D12 & F12) N12] [(a23 & D23 & F23) N23]. split; [|auto].
  exists (a12 ++ a23)%list. rewrite D23, D12, app_assoc. split; [reflexivity|].
  apply Forall_app. auto.
Qed.

Lemma same_table_extended (st st' : State) : DOCS st' = DOCS st -> extended st st'.
Proof.
  intros D. split.
  - exists []. rewrite app_nil_r. split; [exact D | constructor].
  - unfold paths. rewrite D. auto.
Qed.

Lemma upserted_extended (k : string) (c : Json) (st st' : State) :
  In k (Pipeline.keys sv) -> upserted k c st st' -> extended st st'.
Proof.
  intros Hk Hup. split; [|exact (upserted_paths k c st st' Hup)].
  destruct Hup as [[D _]|(_ & D & _)].
  - exists []. rewrite app_nil_r. split; [exact D | constructor].
  - exists [new_record st k c]. split; [exact D|].
    constructor; [|constructor]. split; [exact Hk | reflexivity].
Qed.

Lemma extended_matched (k : string) (st st' : State) :
  extended st st' -> matched k (DOCS st) = true -> matched k (DOCS st') = true.
Proof.
  intros [(added & D & _) _] H. rewrite D, matched_app, H. reflexivity.
Qed.

Ltac scripted :=
  unfold SSi, OSi, EXi;
  cbn [secret_get s3_head_bucket s3_create_bucket s3_bucket_load s3_list_objects
       s3_read_path agentic_parse Pipeline.secret_store Pipeline.object_store
       Pipeline.extractor].

Ltac by_cases :=
  repeat (simpl;
          match goal with
          | |- context [match ?x with _ => _ end] =>
              lazymatch x with
              | context [match _ with _ => _ end] => fail
              | context [if _ then _ else _] => fail
              | _ => destruct x
              end
          | |- context [if ?x then _ else _] =>
              lazymatch x with
              | context [match _ with _ => _ end] => fail
              | _ => destruct x
              end
          end);
  simpl; try reflexivity.

(** The tasks that do not talk to the warehouse leave the table alone. *)
Lemma bucket_check_off_the_table (bucket_name : string) (st : State) :
  world_of (create_s3_bucket_if_not_exists bucket_name st) = st.
Proof.
  unfold create_s3_bucket_if_not_exists, task, try_client_error, bind, call, log, emit,
    raise, world_of.
  scripted. by_cases.
Qed.

Lemma listing_off_the_table (st : State) :
  world_of (list_s3_files st) = st /\
  forall files, result_of (list_s3_files st) = Ok files -> files = Pipeline.keys sv.
Proof.
  unfold list_s3_files, task, bind, call, log, emit, ret, world_of, result_of,
    Pipeline.keys.
  scripted.
  destruct (Pipeline.list_objects sv) as [[[|o os]|]|e]; simpl;
    (split; [reflexivity|]); intros files H; inversion H; reflexivity.
Qed.

Lemma download_off_the_table (file_key : string) (st : State) :
  world_of (get_s3_file file_key st) = st.
Proof.
  unfold get_s3_file, task, bind, call, log, emit, ret, world_of.
  scripted. by_cases.
Qed.

Lemma extraction_off_the_table (file_content : bytes) (file_key : string) (st : State) :
  world_of (extract_document_content file_content file_key st) = st.
Proof.
  unfold extract_document_content, task, try_except, bind, call, log, emit, raise, ret,
    world_of.
  scripted. by_cases.
Qed.

Lemma attempt_extended {A} (a : A) (st : State) : extended st (snd (attempt a st)).
Proof. apply same_table_extended, attempt_docs. Qed.

(** A statement without parameters leaves the rows as they are. *)
Lemma execute_extended (sql : string) (st : State) :
  extended st (snd (execute sql None st)).
Proof.
  apply same_table_extended. unfold execute.
  destruct (pop_keeps st) as [HD _].
  destruct (pop st) as [[e|] st']; simpl in *; [exact HD|].
  destruct (is_merge sql); exact HD.
Qed.

Ltac extended_step :=
  first
    [ exact extended_refl | exact extended_trans
    | maintains_step
    | apply maintains_call; intros ?st;
      first [ apply attempt_extended | apply execute_extended ] ].

Lemma connection_extended (warehouse : string) (database schema : option string) :
  maintains extended (get_snowflake_connection warehouse database schema).
Proof. unfold get_snowflake_connection. repeat extended_step. Qed.

Lemma exec_sql_extended (sql desc : string) : maintains extended (_exec_sql sql desc).
Proof. unfold _exec_sql. repeat extended_step. Qed.

Lemma try_bare_extended {A} (body handler : M State A) :
  maintains extended body -> maintains extended handler ->
  maintains extended (try_bare body handler).
Proof.
  intros Hb Hh st. unfold try_bare, world_of. specialize (Hb st). unfold world_of in Hb.
  destruct (body st) as [[[a|e] st1] t1]; simpl in *; [exact Hb|].
  specialize (Hh st1). unfold world_of in Hh.
  destruct (handler st1) as [[r st2] t2]. simpl in *. exact (extended_trans _ _ _ Hb Hh).
Qed.

Lemma provisioning_extended : maintains extended setup_snowflake_infrastructure.
Proof.
  unfold setup_snowflake_infrastructure.
  repeat first [ apply connection_extended | apply exec_sql_extended
               | apply try_bare_extended | extended_step
               | match goal with
                 | |- maintains _ (match ?x with _ => _ end) => destruct x
                 end ].
Qed.

Lemma load_extended (file_key : string) (extracted_content : Json) :
  In file_key (Pipeline.keys sv) ->
  maintains extended (load_to_snowflake file_key extracted_content).
Proof.
  intros Hk st.
  exact (upserted_extended file_key extracted_content _ _ Hk
           (load_upserted file_key extracted_content st)).
Qed.

Lemma process_extended (file_key : string) :
  In file_key (Pipeline.keys sv) -> maintains extended (process_document file_key).
Proof.
  intros Hk st. unfold process_document. rewrite task_world.
  unfold bind, log, emit, world_of.
  pose proof (download_off_the_table file_key st) as D. unfold world_of in D. revert D.
  destruct (get_s3_file file_key st) as [[[content|e] st1] t1]; simpl; intros ->;
    [|apply extended_refl].
  pose proof (extraction_off_the_table content file_key st) as E. unfold world_of in E.
  revert E.
  destruct (extract_document_content content file_key st) as [[[j|e] st2] t2]; simpl;
    intros ->; [|apply extended_refl].
  pose proof (load_extended file_key j Hk st) as L. unfold world_of in L. revert L.
  destruct (load_to_snowflake file_key j st) as [[[[]|e] st3] t3]; simpl; auto.
Qed.

Lemma process_ok_matched (file_key : string) (st : State) :
  result_of (process_document file_key st) = Ok tt ->
  matched file_key (DOCS (world_of (process_document file_key st))) = true.
Proof.
  unfold process_document. rewrite task_world, task_result.
  unfold bind, log, emit, world_of, result_of.
  pose proof (download_off_the_table file_key st) as D. unfold world_of in D. revert D.
  destruct (get_s3_file file_key st) as [[[content|e] st1] t1]; simpl; intros ->;
    [|discriminate].
  pose proof (extraction_off_the_table content file_key st) as E. unfold world_of in E.
  revert E.
  destruct (extract_document_content content file_key st) as [[[j|e] st2] t2]; simpl;
    intros ->; [|discriminate].
  pose proof (load_matched file_key j st) as L. unfold world_of, result_of in L. revert L.
  destruct (load_to_snowflake file_key j st) as [[[[]|e] st3] t3]; simpl;
    [auto | discriminate].
Qed.

Lemma for_each_on_the_table (files : list string) :
  incl files (Pipeline.keys sv) ->
  forall st,
    extended st (world_of (for_each files process_document st)) /\
    (result_of (for_each files process_document st) = Ok tt ->
     forall k, In k files ->
               matched k (DOCS (world_of (for_each files process_document st))) = true).
Proof.
  induction files as [|f files IH]; intros Hincl st.
  - split; [apply extended_refl | intros _ k []].
  - change (for_each (f :: files) process_document)
      with (bind (process_document f) (fun _ => for_each files process_document)).
    assert (Hf : In f (Pipeline.keys sv)) by (apply Hincl; left; reflexivity).
    assert (Hfiles : incl files (Pipeline.keys sv))
      by (intros k Hk; apply Hincl; right; exact Hk).
    pose proof (process_extended f Hf st) as P.
    pose proof (process_ok_matched f st) as Pm.
    unfold bind, world_of, result_of in *. revert P Pm.
    destruct (process_document f st) as [[[[]|e] st1] t1]; simpl; intros P Pm.
    + destruct (IH Hfiles st1) as [E Em]. revert E Em.
      destruct (for_each files process_document st1) as [[r st2] t2]; simpl.
      intros E Em. split; [exact (extended_trans _ _ _ P E)|].
      intros Hok k [<-|Hk].
      * exact (extended_matched _ _ _ E (Pm eq_refl)).
      * exact (Em Hok k Hk).
    + split; [exact P | discriminate].
Qed.

Lemma run_on_the_table (st : State) :
  extended st (world_of (Pipeline.run sv st)) /\
  (result_of (Pipeline.run sv st) = Ok tt ->
   forall k, In k (Pipeline.keys sv) ->
             matched k (DOCS (world_of (Pipeline.run sv st))) = true).
Proof.
  change (Pipeline.run sv) with s3_to_snowflake_flow.
  unfold s3_to_snowflake_flow, bind, call, log, emit, raise, world_of, result_of.
  scripted.
  destruct (Pipeline.secret sv "s3-bucket-name") as [[[|c name]|]|e]; simpl;
    try (split; [apply extended_refl | discriminate]).
  pose proof (bucket_check_off_the_table (String c name) st) as B.
  unfold world_of in B. revert B.
  destruct (create_s3_bucket_if_not_exists (String c name) st) as [[[[]|e1] st1] t1];
    simpl; intros ->; [|split; [apply extended_refl | discriminate]].
  pose proof (provisioning_extended st) as P. unfold world_of in P. revert P.
  destruct (setup_snowflake_infrastructure st) as [[[[]|e2] st2] t2]; simpl; intros P;
    [|split; [exact P | discriminate]].
  destruct (Pipeline.bucket_block sv "default") as [[]|e3]; simpl;
    [|split; [exact P | discriminate]].
  destruct (listing_off_the_table st2) as [L1 L2].
  unfold world_of, result_of in L1, L2. revert L1 L2.
  destruct (list_s3_files st2) as [[[files|e4] st3] t3]; simpl; intros -> L2;
    [|split; [exact P | discriminate]].
  specialize (L2 files eq_refl).
  destruct files as [|f files]; simpl.
  - split; [exact P|]. intros _ k Hk. rewrite <- L2 in Hk. destruct Hk.
  - assert (Hincl : incl (f :: files) (Pipeline.keys sv))
      by (rewrite L2; apply incl_refl).
    destruct (for_each_on_the_table (f :: files) Hincl st2) as [E Em].
    unfold world_of, result_of in E, Em. revert E Em.
    destruct (for_each (f :: files) process_document st2) as [[r5 st5] t5]; simpl.
    intros E Em. split; [exact (extended_trans _ _ _ P E)|].
    intros Hok k Hk. rewrite <- L2 in Hk. exact (Em Hok k Hk).
Qed.

(** X19.  Whatever the services answer and whatever the session raises, a run
    of the driver leaves every row of the table where it was and only adds
    rows after them, each for a key the bucket listed and with the last
    path segment of that key as file name; and if no file path had two
    rows before the run, none has after it. *)
Theorem run_adds_rows_for_listed_keys_only (st : State) :
  (exists added,
      DOCS (world_of (Pipeline.run sv st)) = (DOCS st ++ added)%list /\
      Forall (Pipeline.row_of (Pipeline.keys sv)) added) /\
  (NoDup (paths st) -> NoDup (paths (world_of (Pipeline.run sv st)))).
Proof.
  destruct (run_on_the_table st) as [[Hadded Hpaths] _].
  split; [exact Hadded | exact Hpaths].
Qed.

(** X20.  After a run of the driver that returned normally, on a table with
    at most one row per file path, every key the bucket listed has exactly
    one row. *)
Theorem returned_run_leaves_one_row_per_key (st : State) :
  result_of (Pipeline.run sv st) = Ok tt ->
  NoDup (paths st) ->
  forall k, In k (Pipeline.keys sv) ->
            List.length (records_at k (world_of (Pipeline.run sv st))) = 1.
Proof.
  intros Hok Hnd k Hk.
  destruct (run_on_the_table st) as [[_ Hpaths] Hmatched].
  unfold records_at. apply matched_once; [exact (Hpaths Hnd) | exact (Hmatched Hok k Hk)].
Qed.

End OnTheTable.

(** * More scripted runs *)

(** The key of a document in a folder. *)
Lemma file_name_is_the_last_path_segment_witness :
  PyStr.last_segment "invoices/2024/a.pdf" = "a.pdf".
Proof.
  exact (proj2 (proj2 (file_name_is_the_last_path_segment "invoices/2024/a.pdf"))
           "invoices/2024" "a.pdf" eq_refl eq_refl).
Defined.

(** A bucket with two objects, as in test_list_s3_files_with_objects. *)
Lemma list_s3_files_returns_the_keys_witness :
  result_of (list_s3_files (Mock.happy ["a.pdf"; "b.jpg"])) = Ok ["a.pdf"; "b.jpg"].
Proof.
  exact (proj1 (list_s3_files_returns_the_keys (Mock.happy ["a.pdf"; "b.jpg"]))
           (Some [mkObj "a.pdf" JNull; mkObj "b.jpg" JNull]) eq_refl).
Defined.

(** A bucket that does not exist yet. *)
Lemma bucket_is_created_only_on_404_witness :
  exists r,
    In (EvCreateBucket "documents" r)
       (trace_of (create_s3_bucket_if_not_exists "documents"
                    (Scenario.failing_bucket_check
                       (mkExc (ClientError "404" JNull) "Not Found") []))).
Proof.
  refine (proj1 (proj1 (proj2 (bucket_is_created_only_on_404 "documents"
                                 (Scenario.failing_bucket_check
                                    (mkExc (ClientError "404" JNull) "Not Found") [])))
                   (mkExc (ClientError "404" JNull) "Not Found") _) eq_refl).
  in_now.
Defined.

(** The run of test_get_snowflake_connection_failure. *)
Lemma connection_failure_is_logged_and_raised_again_witness :
  result_of (get_snowflake_connection "PREFECT_WH" (Some "ai") (Some "AGENTIC_DOC_EXTRACTION")
               (Scenario.failing_connection
                  (mkExc (OtherException "Exception") "Connection failed")))
  = Raise (mkExc (OtherException "Exception") "Connection failed").
Proof.
  refine (proj1 (proj1 (proj2 (connection_failure_is_logged_and_raised_again
                                 "PREFECT_WH" (Some "ai") (Some "AGENTIC_DOC_EXTRACTION")
                                 (Scenario.failing_connection
                                    (mkExc (OtherException "Exception")
                                       "Connection failed"))))
                   (mkExc (OtherException "Exception") "Connection failed") _)).
  in_now.
Defined.

(** The run of test_extract_document_content_missing_api_key. *)
Lemma extraction_needs_the_api_key_witness :
  result_of (extract_document_content [] "test.pdf" Scenario.no_api_key)
  = Raise (mkExc ValueError "Landing AI API key is required").
Proof.
  refine (proj1 (extraction_needs_the_api_key [] "test.pdf" Scenario.no_api_key _)).
  right. reflexivity.
Defined.

(** A service that raises. *)
Lemma extraction_failure_is_logged_and_raised_again_witness :
  List.last
    (trace_of (extract_document_content [] "test.pdf"
                 (Scenario.failing_service
                    (mkExc (OtherException "Exception") "API Error") [])))
    EvClose
  = EvLog ERROR "Landing AI library failed: API Error".
Proof.
  refine (extraction_failure_is_logged_and_raised_again [] "test.pdf"
            (Scenario.failing_service (mkExc (OtherException "Exception") "API Error") [])
            (mkExc (OtherException "Exception") "API Error") _ eq_refl eq_refl).
  exists (Raise (mkExc (OtherException "Exception") "API Error")). in_now.
Defined.

(** Provisioning on a session whose qualified CREATE TABLE fails. *)
Lemma provisioning_runs_every_statement_witness :
  statements_of
    (trace_of (setup_snowflake_infrastructure
                 (Mock.failing_on (String.eqb table_sql)
                                  (mkExc ProgrammingError "Qualified table error") [])))
  = setup_statements.
Proof.
  exact (proj1 (proj2 (provisioning_runs_every_statement
                         (Mock.failing_on (String.eqb table_sql)
                                          (mkExc ProgrammingError "Qualified table error") [])
                         eq_refl eq_refl))).
Defined.

(** The run of test_load_to_snowflake_success. *)
Lemma load_sends_only_its_statements_witness :
  statements_of (trace_of (load_to_snowflake "test.pdf" JNull (Mock.happy [])))
  = ["USE DATABASE ai"; "USE SCHEMA AGENTIC_DOC_EXTRACTION"; merge_sql].
Proof.
  exact (proj1 (proj2 (proj2 (load_sends_only_its_statements "test.pdf" JNull
                                (Mock.happy []))
                         eq_refl))).
Defined.

(** A cursor whose fetchall raises after every statement. *)
Lemma failed_fetch_repeats_the_merge_witness :
  statements_of
    (trace_of (merge_with_fallback "test.pdf" ["test.pdf"; "test.pdf"; "{}"]
                 (Scenario.failing_fetch
                    (mkExc ProgrammingError "no result set") [])))
  = [merge_sql; simple_sql].
Proof.
  exact (proj1 (failed_fetch_repeats_the_merge "test.pdf" ["test.pdf"; "test.pdf"; "{}"]
                  (Scenario.failing_fetch (mkExc ProgrammingError "no result set") [])
                  (mkExc ProgrammingError "no result set") eq_refl eq_refl eq_refl)).
Defined.

(** The run of test_process_document_success. *)
Lemma processed_document_is_the_downloaded_one_witness :
  exists content first rest sql,
    In (EvReadPath "folder/test.pdf" (Ok content))
       (trace_of (process_document "folder/test.pdf" (Mock.happy ["folder/test.pdf"]))) /\
    In (EvParse ("_" ++ "folder/test.pdf") content (Ok (Some (first :: rest))))
       (trace_of (process_document "folder/test.pdf" (Mock.happy ["folder/test.pdf"]))) /\
    (sql = merge_sql \/ sql = simple_sql) /\
    In (EvExecute sql
          (Some [ PyStr.last_segment "folder/test.pdf"; "folder/test.pdf";
                  json_dumps (formatted_result first content "folder/test.pdf") ])
          (Ok tt))
       (trace_of (process_document "folder/test.pdf" (Mock.happy ["folder/test.pdf"]))).
Proof.
  exact (processed_document_is_the_downloaded_one "folder/test.pdf"
           (Mock.happy ["folder/test.pdf"]) eq_refl).
Defined.

(** The same run reaches the warehouse. *)
Lemma warehouse_is_reached_after_extraction_witness :
  exists content first rest,
    In (EvReadPath "test.pdf" (Ok content))
       (trace_of (process_document "test.pdf" (Mock.happy ["test.pdf"]))) /\
    In (EvParse ("_" ++ "test.pdf") content (Ok (Some (first :: rest))))
       (trace_of (process_document "test.pdf" (Mock.happy ["test.pdf"]))).
Proof.
  exact (warehouse_is_reached_after_extraction "test.pdf" (Mock.happy ["test.pdf"]) eq_refl).
Defined.

(** A bucket the credentials may not look at. *)
Lemma failed_bucket_check_stops_the_run_witness :
  result_of (s3_to_snowflake_flow
               (Scenario.failing_bucket_check
                  (mkExc (ClientError "403" JNull) "Forbidden") ["a.pdf"]))
  = Raise (mkExc (ClientError "403" JNull) "Forbidden").
Proof.
  refine (proj1 (failed_bucket_check_stops_the_run "value-of-s3-bucket-name"
                   (mkExc (ClientError "403" JNull) "Forbidden")
                   (Scenario.failing_bucket_check
                      (mkExc (ClientError "403" JNull) "Forbidden") ["a.pdf"]) _ _)).
  - in_now.
  - intros H. vm_compute in H. discriminate H.
Defined.

(** The run of test_s3_to_snowflake_flow_success, for its second key. *)
Lemma returned_run_merged_every_key_witness :
  exists sql content,
    (sql = merge_sql \/ sql = simple_sql) /\
    In (EvExecute sql (Some [PyStr.last_segment "docs/b.jpg"; "docs/b.jpg"; content]) (Ok tt))
       (trace_of (s3_to_snowflake_flow (Mock.happy ["a.pdf"; "docs/b.jpg"]))).
Proof.
  refine (returned_run_merged_every_key (Mock.happy ["a.pdf"; "docs/b.jpg"])
            [mkObj "a.pdf" JNull; mkObj "docs/b.jpg" JNull] _ eq_refl "docs/b.jpg" _).
  - in_now.
  - right. left. reflexivity.
Defined.

(** The script called with one argument too few. *)
Lemma wrong_argument_count_exits_1_witness :
  SetupBlocks.main ["setup_blocks.py"; "AKIA"; "secret"; "user"; "rsa_key.p8"; "account";
                    "landing-key"] Scenario.empty_storage
  = (Raise (mkExc SystemExit "1"), Scenario.empty_storage,
     [SetupBlocks.Print SetupBlocks.usage]).
Proof.
  refine (wrong_argument_count_exits_1 _ Scenario.empty_storage _).
  intros H. discriminate H.
Defined.

(** The four AWS blocks on a storage that accepts every save. *)
Lemma aws_blocks_stop_at_the_first_failure_witness :
  SetupBlocks.saves_of
    (SetupBlocks.output
       (SetupBlocks.create_aws_credentials "AKIA" "secret" "documents"
          Scenario.empty_storage))
  = SetupBlocks.aws_blocks "AKIA" "secret" "documents".
Proof.
  exact (proj2 (proj2 (aws_blocks_stop_at_the_first_failure "AKIA" "secret" "documents"
                         Scenario.empty_storage))
           eq_refl).
Defined.

(** A key file that is there and empty: the credentials are refused,
    nothing is saved and the function returns False. *)
Lemma snowflake_blocks_need_the_key_file_witness :
  SetupBlocks.outcome
    (SetupBlocks.create_snowflake_connector "user" "rsa_key.p8" "account"
       "ai" "AGENTIC_DOC_EXTRACTION" "PREFECT_WH" (Scenario.storage_with_key []))
  = Ok false /\
  SetupBlocks.saves_of
    (SetupBlocks.output
       (SetupBlocks.create_snowflake_connector "user" "rsa_key.p8" "account"
          "ai" "AGENTIC_DOC_EXTRACTION" "PREFECT_WH" (Scenario.storage_with_key [])))
  = [].
Proof.
  split.
  - exact (proj2 (proj2 (snowflake_blocks_need_the_key_file "user" "rsa_key.p8" "account"
                           "ai" "AGENTIC_DOC_EXTRACTION" "PREFECT_WH"
                           (Scenario.storage_with_key [])))
             eq_refl).
  - reflexivity.
Defined.

(** The script with an empty key file: no save and no read fails, the
    credentials are refused, the other steps are made and the exit status
    is 1. *)
Lemma setup_attempts_every_step_witness :
  SetupBlocks.outcome
    (SetupBlocks.main ["setup_blocks.py"; "AKIA"; "secret"; "user"; "rsa_key.p8"; "account";
                       "landing-key"; "documents"] (Scenario.storage_with_key []))
  = Raise (mkExc SystemExit "1") /\
  In (SetupBlocks.Secret "documents", "s3-bucket-name")
     (SetupBlocks.saves_of
        (SetupBlocks.output
           (SetupBlocks.main ["setup_blocks.py"; "AKIA"; "secret"; "user"; "rsa_key.p8";
                              "account"; "landing-key"; "documents"]
              (Scenario.storage_with_key [])))).
Proof.
  assert (Hraised : SetupBlocks.failures_are_Exceptions
                      (SetupBlocks.output
                         (SetupBlocks.main
                            ["setup_blocks.py"; "AKIA"; "secret"; "user"; "rsa_key.p8";
                             "account"; "landing-key"; "documents"]
                            (Scenario.storage_with_key []))) = true) by reflexivity.
  destruct (setup_attempts_every_step "setup_blocks.py" "AKIA" "secret" "user" "rsa_key.p8"
              "account" "landing-key" "documents" (Scenario.storage_with_key []) Hraised)
    as (Hexit & _ & _ & _ & Hbucket).
  split; [exact Hexit | exact Hbucket].
Defined.


(** Two documents on an empty table: the second has its row. *)
Lemma returned_run_leaves_one_row_per_key_witness :
  List.length
    (Snowflake.records_at "b.jpg"
       (world_of (Pipeline.run Scenario.two_documents Scenario.empty_table)))
  = 1.
Proof.
  refine (returned_run_leaves_one_row_per_key Scenario.two_documents Scenario.empty_table
            eq_refl _ "b.jpg" _).
  - constructor.
  - right. left. reflexivity.
Defined.

(** The table that run leaves behind. *)
Lemma two_documents_on_an_empty_table :
  Snowflake.DOCS (world_of (Pipeline.run Scenario.two_documents Scenario.empty_table))
  = [ Snowflake.mkRecord 1 "a.pdf" "folder/a.pdf" (Snowflake.PARSE_JSON "<json>");
      Snowflake.mkRecord 2 "b.jpg" "b.jpg" (Snowflake.PARSE_JSON "<json>") ].
Proof. reflexivity. Qed.
